(** * Enfoque: the appointment rule layer of [functions/index.js]

    A shallow embedding of the Cloud Functions handlers that govern
    appointments ("citas"): admission ([crearCita]), moderation
    ([actualizarCita]), listing ([consultarCitas]), the administrator check
    ([esAdministrador]) and the notification paths ([notificarCambioCita],
    [notificarNuevoEscenario], [recordatorioDiario]), together with the
    registration of devices ([registrarDispositivo]), the profiles of the
    clients ([crearOActualizarCliente], [eliminarCliente]) and the requests
    for photos ([crearSolicitudFotos], [actualizarSolicitudAdmin],
    [eliminarSolicitud], [notificarFotosListas]).

    The source holds two revisions of the module.  The second one (with
    [validarTipo] and the [try]/[catch] wrappers) is the one embedded at top
    level; the handlers of the first revision that matter for a comparison
    live in [Module Anterior].

    Handlers are functions in a state-and-exception monad over a world
    [Mundo] that holds the Firestore collections, the two clocks and a log
    of every call made to the store and to the push gateway.

    What the model takes from the platform: numbers are integers; the local
    time zone is a fixed offset; the store accepts every write and answers
    every query, except that the lookup of [Admin] may be failing and that
    the writes of a device, a profile or a request for photos are refused
    when a field is [undefined]; the gateway refuses a multicast of more
    than 500 tokens; the parser of date strings is a parameter
    ([Date_parse]).

    The store of the model takes more than Firestore does: every non-empty
    string as the id of a document, the keys of an [update] as flat fields,
    every instant as a [Timestamp], [undefined] as the operand of a query
    and in the writes of an appointment and of a notification; and its
    [!=] matches a field that is [null].  The predicates
    [id_de_documento], [cambios_llanos], [carga_llana] and [dia_en_rango]
    state Firestore's own limits where a statement needs them.  Quotas
    (sizes, rates, indexes) are not modelled. *)

From Stdlib Require Import ZArith List String Bool Lia.
From Stdlib Require OrderedTypeEx.
From stdpp Require Import base option list gmap strings pretty sorting.
From Equations Require Import Equations.
Import ListNotations.

Local Open Scope string_scope.
Local Open Scope Z_scope.

(** ** JavaScript values *)

(** The values that travel in payloads and documents.  Numbers are the
    integral ones; [VTime] is a Firestore [Timestamp] (milliseconds since the
    epoch). *)
Inductive Valor : Type :=
| VUndef
| VNull
| VBool (b : bool)
| VNum (n : Z)
| VStr (s : string)
| VTime (t : Z).

#[global] Instance Valor_eq_dec : EqDecision Valor.
Proof. solve_decision. Defined.

(** Truthiness, as used by [!x], [x || y] and [filter(t => t)]. *)
Definition verdadero (v : Valor) : bool :=
  match v with
  | VUndef | VNull => false
  | VBool b => b
  | VNum n => negb (n =? 0)
  | VStr s => negb (String.eqb s "")
  | VTime _ => true
  end.

(** [a || b] *)
Definition o_logico (a b : Valor) : Valor := if verdadero a then a else b.

(** [a === b].  A [Timestamp] is an object: two snapshots never share one. *)
Definition igual_estricto (a b : Valor) : bool :=
  match a, b with
  | VTime _, _ | _, VTime _ => false
  | _, _ => bool_decide (a = b)
  end.

(** [typeof v] *)
Definition typeof (v : Valor) : string :=
  match v with
  | VUndef => "undefined"
  | VBool _ => "boolean"
  | VNum _ => "number"
  | VStr _ => "string"
  | VNull | VTime _ => "object"
  end.

(** [`${v}`]: the text of a value inside a template literal. *)
Definition aTexto (v : Valor) : string :=
  match v with
  | VUndef => "undefined"
  | VNull => "null"
  | VBool true => "true"
  | VBool false => "false"
  | VNum n => pretty n
  | VStr s => s
  | VTime _ => "[object Object]"
  end.

(** A document, a payload or a field set: a JavaScript object used as a map. *)
Abbreviation Doc := (gmap string Valor).

(** [d.k]: a missing property reads as [undefined]. *)
Definition campo (d : Doc) (k : string) : Valor := default VUndef (d !! k).

(** What a write hands to the store for one field: a value, or the sentinel
    [FieldValue.serverTimestamp()]. *)
Inductive Escrito : Type :=
| Dato (v : Valor)
| MarcaServidor.

Abbreviation DocEscrito := (gmap string Escrito).

(** ** Errors *)

Inductive Codigo : Type :=
| unauthenticated
| permission_denied
| invalid_argument
| not_found
| already_exists
| failed_precondition
| internal.

#[global] Instance Codigo_eq_dec : EqDecision Codigo.
Proof. solve_decision. Defined.

(** What a handler can throw: an [HttpsError] with its code, or any other
    JavaScript error (a [TypeError], an error of the store), which has no
    [code] of the callable protocol. *)
Inductive Excepcion : Type :=
| HttpsError (c : Codigo) (m : string)
| ErrorJS (m : string).

Definition mensaje (e : Excepcion) : string :=
  match e with HttpsError _ m | ErrorJS m => m end.

(** [error.code || 'internal'] *)
Definition codigo_o_interno (e : Excepcion) : Codigo :=
  match e with HttpsError c _ => c | ErrorJS _ => internal end.

Inductive Resultado (A : Type) : Type :=
| Ok (a : A)
| Lanza (e : Excepcion).
Arguments Ok {A} a.
Arguments Lanza {A} e.

(** ** The world: store, clocks, gateway log *)

Inductive Coleccion : Type := Admin | Citas | Dispositivos | Notificaciones.

#[global] Instance Coleccion_eq_dec : EqDecision Coleccion.
Proof. solve_decision. Defined.

(** One condition of a query. Dates arrive as milliseconds since the epoch. *)
Inductive Filtro : Type :=
| Igual (k : string) (v : Valor)        (* where(k, '==', v) *)
| Distinto (k : string) (v : Valor)     (* where(k, '!=', v) *)
| Desde (k : string) (t : Z)            (* where(k, '>=', date) *)
| Hasta (k : string) (t : Z).           (* where(k, '<=', date) *)

(** The notification payload of a multicast. *)
Record Aviso : Type := {
  title : Valor;
  body : string;
  image : option Valor
}.

(** Every call that leaves the function instance. *)
Inductive Evento : Type :=
| EvConsulta (c : Coleccion) (fs : list Filtro)
| EvLectura (c : Coleccion) (id : string)
| EvAlta (c : Coleccion) (id : string) (d : Doc)
| EvCambio (c : Coleccion) (id : string) (d : Doc)
| EvEnvio (tokens : list Valor) (n : Aviso).

Record Mundo : Type := {
  ahora : Z;                            (* new Date() of the instance *)
  hora_servidor : Z;                    (* what serverTimestamp() resolves to *)
  admins : list (string * Doc);
  citas : list (string * Doc);
  dispositivos : list (string * Doc);
  notificaciones : list (string * Doc);
  admin_caido : bool;                   (* the Admin lookup is failing *)
  siguiente : nat;                      (* source of automatic ids *)
  bitacora : list Evento                (* calls made so far, oldest first *)
}.

Definition docs (c : Coleccion) (w : Mundo) : list (string * Doc) :=
  match c with
  | Admin => admins w
  | Citas => citas w
  | Dispositivos => dispositivos w
  | Notificaciones => notificaciones w
  end.

Definition con_docs (c : Coleccion) (l : list (string * Doc)) (w : Mundo) : Mundo :=
  {| ahora := ahora w; hora_servidor := hora_servidor w;
     admins := match c with Admin => l | _ => admins w end;
     citas := match c with Citas => l | _ => citas w end;
     dispositivos := match c with Dispositivos => l | _ => dispositivos w end;
     notificaciones := match c with Notificaciones => l | _ => notificaciones w end;
     admin_caido := admin_caido w; siguiente := siguiente w;
     bitacora := bitacora w |}.

Definition anota (e : Evento) (w : Mundo) : Mundo :=
  {| ahora := ahora w; hora_servidor := hora_servidor w;
     admins := admins w; citas := citas w; dispositivos := dispositivos w;
     notificaciones := notificaciones w; admin_caido := admin_caido w;
     siguiente := siguiente w; bitacora := (bitacora w ++ [e])%list |}.

Definition avanza (w : Mundo) : Mundo :=
  {| ahora := ahora w; hora_servidor := hora_servidor w;
     admins := admins w; citas := citas w; dispositivos := dispositivos w;
     notificaciones := notificaciones w; admin_caido := admin_caido w;
     siguiente := S (siguiente w); bitacora := bitacora w |}.

(** ** The monad of handlers

    A computation runs on a world and ends with a value or with a thrown
    exception; the effects made before a throw stay in the world. *)
Definition M (A : Type) : Type := Mundo -> Resultado A * Mundo.

Definition ret {A} (a : A) : M A := fun w => (Ok a, w).

Definition lanza {A} (e : Excepcion) : M A := fun w => (Lanza e, w).

Definition liga {A B} (m : M A) (f : A -> M B) : M B :=
  fun w => match m w with
           | (Ok a, w') => f a w'
           | (Lanza e, w') => (Lanza e, w')
           end.

(** [try { m } catch (e) { h e }] *)
Definition intenta {A} (m : M A) (h : Excepcion -> M A) : M A :=
  fun w => match m w with
           | (Ok a, w') => (Ok a, w')
           | (Lanza e, w') => h e w'
           end.

Notation "x <- m ;; k" := (liga m (fun x => k))
  (at level 200, m at level 99, right associativity).
Notation "m ;;; k" := (liga m (fun _ => k))
  (at level 200, right associativity).

Definition lee {A} (f : Mundo -> A) : M A := fun w => (Ok (f w), w).

Definition registra (e : Evento) : M unit := fun w => (Ok tt, anota e w).

(** [if (c) throw e] *)
Definition si_lanza (c : bool) (e : Excepcion) : M unit :=
  if c then lanza e else ret tt.

(** ** The store *)

(** Does a document satisfy a condition?  An equality or a range only
    matches a field that is present and of the type of the operand; [!=]
    matches any present field with another value. *)
Definition cumple (d : Doc) (f : Filtro) : bool :=
  match f with
  | Igual k v => bool_decide (d !! k = Some v)
  | Distinto k v =>
      match d !! k with Some x => negb (bool_decide (x = v)) | None => false end
  | Desde k t => match d !! k with Some (VTime x) => t <=? x | _ => false end
  | Hasta k t => match d !! k with Some (VTime x) => x <=? t | _ => false end
  end.

Definition cumple_todos (fs : list Filtro) (d : Doc) : bool :=
  forallb (cumple d) fs.

Definition seleccion (fs : list Filtro) (l : list (string * Doc)) : list (string * Doc) :=
  List.filter (fun p => cumple_todos fs (snd p)) l.

(** [db.collection(c).where(...)...get()].  The call is logged; the lookup of
    [Admin] throws while that collection is unavailable. *)
Definition consulta (c : Coleccion) (fs : list Filtro) : M (list (string * Doc)) :=
  registra (EvConsulta c fs) ;;;
  caido <- lee admin_caido ;;
  match c, caido with
  | Admin, true => lanza (ErrorJS "UNAVAILABLE")
  | _, _ => l <- lee (docs c) ;; ret (seleccion fs l)
  end.

(** The store replaces the sentinel by its own clock when it writes. *)
Definition sella (t : Z) (d : DocEscrito) : Doc :=
  (fun e => match e with Dato v => v | MarcaServidor => VTime t end) <$> d.

Fixpoint busca (id : string) (l : list (string * Doc)) : option Doc :=
  match l with
  | [] => None
  | (i, d) :: r => if String.eqb i id then Some d else busca id r
  end.

Fixpoint reemplaza (id : string) (f : Doc -> Doc) (l : list (string * Doc))
  : list (string * Doc) :=
  match l with
  | [] => []
  | (i, d) :: r =>
      if String.eqb i id then (i, f d) :: r else (i, d) :: reemplaza id f r
  end.

(** [db.collection(c).add(d)]: a new document under an automatic id. *)
Definition alta (c : Coleccion) (d : DocEscrito) : M string :=
  n <- lee siguiente ;;
  t <- lee hora_servidor ;;
  let id := "auto-" +:+ pretty n in
  let d' := sella t d in
  registra (EvAlta c id d') ;;;
  l <- lee (docs c) ;;
  (fun w => (Ok id, avanza (con_docs c (l ++ [(id, d')])%list w))).

(** [db.collection(c).doc(id).get()]: [None] when [exists] is false. *)
Definition lectura (c : Coleccion) (id : string) : M (option Doc) :=
  registra (EvLectura c id) ;;;
  l <- lee (docs c) ;; ret (busca id l).

(** [db.collection(c).doc(id).update(campos)]: the fields given replace or
    extend those of the document; a missing document is an error of the
    store. *)
Definition cambio (c : Coleccion) (id : string) (campos : DocEscrito) : M unit :=
  t <- lee hora_servidor ;;
  let campos' := sella t campos in
  registra (EvCambio c id campos') ;;;
  l <- lee (docs c) ;;
  match busca id l with
  | None => lanza (ErrorJS "NOT_FOUND")
  | Some _ =>
      (fun w => (Ok tt, con_docs c (reemplaza id (fun d => campos' ∪ d) l) w))
  end.

(** [db.collection(c).doc(id)]: the id has to be a non-empty string. *)
Definition referencia (v : Valor) : M string :=
  match v with
  | VStr s => if String.eqb s "" then lanza (ErrorJS "documentPath vacio") else ret s
  | _ => lanza (ErrorJS "documentPath no es una cadena")
  end.

(** ** The push gateway *)

(** [messaging.sendEachForMulticast({tokens, notification})].  The call is
    logged as made; the gateway refuses more than 500 tokens. *)
Definition sendEachForMulticast (tokens : list Valor) (n : Aviso) : M unit :=
  registra (EvEnvio tokens n) ;;;
  si_lanza (500 <? Z.of_nat (length tokens))
           (ErrorJS "tokens list must not contain more than 500 items").

(** ** Authorization *)

(** [esAdministrador] *)
Definition esAdministrador (uid : Valor) : M bool :=
  if negb (verdadero uid) then ret false
  else
    intenta
      (doc <- consulta Admin [Igual "uidClient" uid] ;;
       ret (negb (bool_decide (doc = []))))
      (fun _ => ret false).

(** ** Dates

    The instance reads dates through [date-fns] in its local time zone, a
    fixed offset [zona] (milliseconds east of UTC).  A JavaScript [Date] is
    the number of milliseconds since the epoch, or [None] for an
    [Invalid Date]. *)

Definition ms_dia : Z := 86400000.

(** Days since the epoch of a civil date of the Gregorian calendar. *)
Definition dias_de_civil (y m d : Z) : Z :=
  let y' := if m <=? 2 then y - 1 else y in
  let era := y' / 400 in
  let yoe := y' - era * 400 in
  let mp := if 2 <? m then m - 3 else m + 9 in
  let doy := (153 * mp + 2) / 5 + d - 1 in
  let doe := yoe * 365 + yoe / 4 - yoe / 100 + doy in
  era * 146097 + doe - 719468.

(** The civil date (year, month 1..12, day) of a day number. *)
Definition civil_de_dias (z : Z) : Z * Z * Z :=
  let z' := z + 719468 in
  let era := z' / 146097 in
  let doe := z' - era * 146097 in
  let yoe := (doe - doe / 1460 + doe / 36524 - doe / 146096) / 365 in
  let doy := doe - (365 * yoe + yoe / 4 - yoe / 100) in
  let mp := (5 * doy + 2) / 153 in
  let d := doy - (153 * mp + 2) / 5 + 1 in
  let m := if mp <? 10 then mp + 3 else mp - 9 in
  ((if m <=? 2 then yoe + era * 400 + 1 else yoe + era * 400), m, d).

(** Number of days of month [m] (1..12) of year [y]. *)
Definition dias_del_mes (y m : Z) : Z :=
  if m =? 12 then dias_de_civil (y + 1) 1 1 - dias_de_civil y 12 1
  else dias_de_civil y (m + 1) 1 - dias_de_civil y m 1.

Record Plataforma : Type := {
  Date_parse : string -> option Z;      (* the engine's parser of date strings *)
  zona : Z                              (* local time = UTC + zona *)
}.

Section Fechas.

Variable P : Plataforma.

(** [new Date(v)] *)
Definition nuevaFecha (v : Valor) : option Z :=
  match v with
  | VStr s => Date_parse P s
  | VNum n => Some n
  | VNull | VBool false => Some 0
  | VBool true => Some 1
  | VTime _ | VUndef => None
  end.

(** [startOfDay(d)]: local midnight of the day of [d]. *)
Definition startOfDay (d : Z) : Z := d - (d + zona P) mod ms_dia.

(** [endOfDay(d)]: the last millisecond of the local day of [d]. *)
Definition endOfDay (d : Z) : Z := startOfDay d + ms_dia - 1.

(** [addDays(d, n)] *)
Definition addDays (d n : Z) : Z := d + n * ms_dia.

(** [addMonths(d, n)]: same day of the month [n] months later, clamped to
    the last day of that month; the time of day is kept. *)
Definition addMonths (d n : Z) : Z :=
  let loc := d + zona P in
  let '(y, m, dia) := civil_de_dias (loc / ms_dia) in
  let total := y * 12 + (m - 1) + n in
  let y' := total / 12 in
  let m' := total mod 12 + 1 in
  let dia' := Z.min dia (dias_del_mes y' m') in
  dias_de_civil y' m' dia' * ms_dia + loc mod ms_dia - zona P.

(** [subMonths(d, n)] *)
Definition subMonths (d n : Z) : Z := addMonths d (- n).

End Fechas.

#[global] Arguments dias_de_civil : simpl never.
#[global] Arguments civil_de_dias : simpl never.
#[global] Arguments dias_del_mes : simpl never.
#[global] Arguments startOfDay : simpl never.
#[global] Arguments endOfDay : simpl never.
#[global] Arguments addDays : simpl never.
#[global] Arguments addMonths : simpl never.
#[global] Arguments subMonths : simpl never.

(** ** Ordered queries *)

(** Firestore orders values of different types by type first. *)
Definition rango (v : Valor) : Z :=
  match v with
  | VUndef => 0
  | VNull => 1
  | VBool _ => 2
  | VNum _ => 3
  | VTime _ => 4
  | VStr _ => 5
  end.

Definition valor_cmp (a b : Valor) : comparison :=
  match a, b with
  | VBool x, VBool y => Bool.compare x y
  | VNum x, VNum y => x ?= y
  | VTime x, VTime y => x ?= y
  | VStr x, VStr y => String.compare x y
  | _, _ => rango a ?= rango b
  end.

(** Position of a document under [orderBy(k, 'asc')]: the field, then the id. *)
Definition antes_o_igual (k : string) (a b : string * Doc) : bool :=
  match valor_cmp (campo (snd a) k) (campo (snd b) k) with
  | Lt => true
  | Gt => false
  | Eq => match String.compare (fst a) (fst b) with Gt => false | _ => true end
  end.

Fixpoint inserta (k : string) (x : string * Doc) (l : list (string * Doc))
  : list (string * Doc) :=
  match l with
  | [] => [x]
  | y :: r => if antes_o_igual k x y then x :: y :: r else y :: inserta k x r
  end.

Fixpoint ordena (k : string) (l : list (string * Doc)) : list (string * Doc) :=
  match l with
  | [] => []
  | x :: r => inserta k x (ordena k r)
  end.

(** [query.startAfter(snapshot)]: the cursor document must have the field
    the query is ordered by. *)
Definition startAfter (k : string) (cursor : option (string * Doc)) : M unit :=
  match cursor with
  | Some (_, d) =>
      si_lanza (negb (bool_decide (is_Some (d !! k))))
               (ErrorJS "Field is missing in the provided DocumentSnapshot.")
  | None => ret tt
  end.

(** What an ordered query keeps of the documents that pass its filters:
    those that have the field [k], in order, after the position of the
    cursor document, up to the limit. *)
Definition pagina (k : string) (tope : option nat) (cursor : option (string * Doc))
    (l : list (string * Doc)) : list (string * Doc) :=
  let con_campo := List.filter (fun p => bool_decide (is_Some (snd p !! k))) l in
  let enorden := ordena k con_campo in
  let desde :=
    match cursor with
    | Some cur => List.filter (fun p => negb (antes_o_igual k p cur)) enorden
    | None => enorden
    end in
  match tope with Some n => firstn n desde | None => desde end.

(** [where(...).orderBy(k, 'asc').limit(n).startAfter(cursor).get()] *)
Definition consulta_ordenada (c : Coleccion) (fs : list Filtro) (k : string)
    (tope : option nat) (cursor : option (string * Doc))
  : M (list (string * Doc)) :=
  l <- consulta c fs ;;
  ret (pagina k tope cursor l).

(** ** Appointments *)

(** [context]: the caller's identity, when the call is authenticated. *)
Record Contexto : Type := { auth : option string }.

(** [validarTipo].  No value of [Valor] is an array. *)
Definition validarTipo (valor : Valor) (tipo nombreCampo : string) : M unit :=
  if String.eqb tipo "array" then
    lanza (HttpsError invalid_argument
             ("El campo " +:+ nombreCampo +:+ " debe ser una lista."))
  else if negb (String.eqb (typeof valor) tipo) then
    lanza (HttpsError invalid_argument
             ("El campo " +:+ nombreCampo +:+ " debe ser " +:+ tipo +:+ "."))
  else ret tt.

(** A [Date] handed to the store: an [Invalid Date] cannot be turned into a
    [Timestamp], the conversion throws before anything is sent. *)
Definition aTimestamp (d : option Z) : M Z :=
  match d with
  | Some t => ret t
  | None => lanza (ErrorJS "Value for argument seconds is not a valid integer.")
  end.

Section Manejadores.

Variable P : Plataforma.

(** The query of the rejection gate: the caller's appointments that are
    rejected and were created at or after [unMesAtras]. *)
Definition filtros_rechazos (uid : string) (unMesAtras : Z) : list Filtro :=
  [Igual "uid_cliente" (VStr uid);
   Igual "estado_solicitud" (VStr "rechazada");
   Desde "createdAt" unMesAtras].

(** The query of the one-per-day gate: the caller's appointments dated
    from [inicioDia] to [finDia], whatever their status. *)
Definition filtros_dia (uid : string) (inicioDia finDia : Z) : list Filtro :=
  [Igual "uid_cliente" (VStr uid);
   Desde "fecha" inicioDia;
   Hasta "fecha" finDia].

(** The object [nuevaCita]: the payload, then the fields the server sets. *)
Definition nuevaCita (data : Doc) (uid : string) (fechaCita : Z) : DocEscrito :=
  <["updatedAt" := MarcaServidor]>
    (<["createdAt" := MarcaServidor]>
       (<["estado_atendida" := Dato (VStr "espera")]>
          (<["estado_solicitud" := Dato (VStr "espera")]>
             (<["fecha" := Dato (VTime fechaCita)]>
                (<["uid_cliente" := Dato (VStr uid)]> (Dato <$> data)))))).

(** [exports.crearCita] *)
Definition crearCita (data : Doc) (context : Contexto) : M string :=
  intenta
    (match auth context with
     | None => lanza (HttpsError unauthenticated "Debes iniciar sesión")
     | Some uid =>
         validarTipo (campo data "fecha") "string" "fecha" ;;;
         let fechaCita := nuevaFecha P (campo data "fecha") in
         hoy <- lee ahora ;;
         let unMesAtras := subMonths P hoy 1 in
         rechazosSnap <- consulta Citas (filtros_rechazos uid unMesAtras) ;;
         si_lanza (2 <=? length rechazosSnap)%nat
           (HttpsError failed_precondition
              "Citas bloqueadas por cancelaciones frecuentes en el último mes.") ;;;
         inicioDia <- aTimestamp (startOfDay P <$> fechaCita) ;;
         finDia <- aTimestamp (endOfDay P <$> fechaCita) ;;
         citasHoySnap <- consulta Citas (filtros_dia uid inicioDia finDia) ;;
         si_lanza (negb (bool_decide (citasHoySnap = [])))
           (HttpsError already_exists
              "Ya tienes una cita programada para este día.") ;;;
         fecha <- aTimestamp fechaCita ;;
         alta Citas (nuevaCita data uid fecha)
     end)
    (fun error => lanza (HttpsError (codigo_o_interno error) (mensaje error))).

(** [exports.actualizarCita] *)
Definition actualizarCita (data : Doc) (context : Contexto) : M unit :=
  intenta
    (let id := campo data "id" in
     let campos := delete "id" data in
     match auth context with
     | None => lanza (ErrorJS "Cannot read properties of undefined (reading uid)")
     | Some uid =>
         si_lanza (negb (verdadero (VStr uid)))
           (HttpsError unauthenticated "No logueado") ;;;
         isAdmin <- esAdministrador (VStr uid) ;;
         citaRef <- referencia id ;;
         citaSnap <- lectura Citas citaRef ;;
         match citaSnap with
         | None => lanza (HttpsError not_found "Cita no encontrada")
         | Some citaData =>
             if (isAdmin : bool) then
               cambio Citas citaRef (<["updatedAt" := MarcaServidor]> (Dato <$> campos))
             else
               si_lanza
                 (negb (igual_estricto (campo citaData "uid_cliente") (VStr uid)))
                 (HttpsError permission_denied
                    "No tienes permiso sobre esta cita.") ;;;
               if (size campos =? 1)%nat
                  && igual_estricto (campo campos "estado_solicitud")
                                    (VStr "rechazada")
               then
                 cambio Citas citaRef
                   (<["updatedAt" := MarcaServidor]>
                   {["estado_solicitud" := Dato (VStr "rechazada")]})
               else
                 lanza (HttpsError permission_denied
                          "Los clientes solo pueden cancelar su cita.")
         end
     end)
    (fun error => lanza (HttpsError internal (mensaje error))).

(** [query.limit(limit)] checks its argument. *)
Definition tope_de (limit : Valor) : M (option nat) :=
  if verdadero limit then
    match limit with
    | VNum n => if 0 <? n then ret (Some (Z.to_nat n))
                else lanza (ErrorJS "limit must be positive")
    | _ => lanza (ErrorJS "Value for argument limit is not a valid integer.")
    end
  else ret None.

(** [{ id: d.id, ...d.data() }] *)
Definition con_id (p : string * Doc) : Doc := snd p ∪ {["id" := VStr (fst p)]}.

(** [exports.consultarCitas] *)
Definition consultarCitas (data : Doc) (context : Contexto) : M (list Doc) :=
  intenta
    (match auth context with
     | None => lanza (ErrorJS "Cannot read properties of undefined (reading uid)")
     | Some uid =>
         si_lanza (negb (verdadero (VStr uid)))
           (HttpsError unauthenticated "No logueado") ;;;
         isAdmin <- esAdministrador (VStr uid) ;;
         let uid_cliente_consulta := campo data "uid_cliente_consulta" in
         let fecha := campo data "fecha" in
         let limit :=
           match campo data "limit" with VUndef => VNum 20 | v => v end in
         let lastDocId := campo data "lastDocId" in
         let filtros : option (list Filtro) :=
           if (isAdmin : bool) then
             if verdadero fecha then
               match nuevaFecha P fecha with
               | Some d => Some [Desde "fecha" (startOfDay P d);
                                 Hasta "fecha" (endOfDay P d)]
               | None => None
               end
             else if verdadero uid_cliente_consulta then
               Some [Igual "uid_cliente" uid_cliente_consulta]
             else Some []
           else
             Some [Igual "uid_cliente" (VStr uid);
                   Distinto "estado_solicitud" (VStr "rechazada")] in
         tope <- tope_de limit ;;
         cursor <-
           (if verdadero lastDocId then
              ref <- referencia lastDocId ;;
              lastDoc <- lectura Citas ref ;;
              ret ((fun d => (ref, d)) <$> lastDoc)
            else ret None) ;;
         startAfter "fecha" cursor ;;;
         fs <- match filtros with
               | Some fs => ret fs
               | None => aTimestamp None ;;; ret []
               end ;;
         snap <- consulta_ordenada Citas fs "fecha" tope cursor ;;
         ret (map con_id snap)
     end)
    (fun error => lanza (HttpsError internal (mensaje error))).

End Manejadores.

(** ** Notifications *)

(** [guardarNotificacion]; an [imagen] left [undefined] takes the default
    [null].  A failed write is logged to the console and swallowed. *)
Definition guardarNotificacion (uid titulo : Valor) (tipo mensaje : string)
    (imagen : Valor) : M unit :=
  let imagen := match imagen with VUndef => VNull | v => v end in
  intenta
    (alta Notificaciones
       (<["createdAt" := MarcaServidor]>
          (<["imagen" := Dato imagen]>
             (<["mensaje" := Dato (VStr mensaje)]>
                (<["tipo" := Dato (VStr tipo)]>
                   (<["titulo" := Dato titulo]>
                      {["uid_usuario" := Dato uid]}))))) ;;;
     ret tt)
    (fun _ => ret tt).

(** [devices.docs.map(d => d.data().token_fcm).filter(t => t)] *)
Definition tokens_de (devices : list (string * Doc)) : list Valor :=
  List.filter verdadero (map (fun d => campo (snd d) "token_fcm") devices).

(** The sentence of a status change, when the new status has one. *)
Definition mensaje_cambio (estado titulo : Valor) : option string :=
  if igual_estricto estado (VStr "aceptada") then
    Some ("Tu cita para " +:+ aTexto titulo +:+ " ha sido confirmada.")
  else if igual_estricto estado (VStr "rechazada") then
    Some ("Tu cita para " +:+ aTexto titulo +:+ " ha sido rechazada.")
  else None.

(** [exports.notificarCambioCita], on the snapshots before and after an
    update of a document of [Citas]. *)
Definition notificarCambioCita (before after : Doc) : M unit :=
  let newData := after in
  let oldData := before in
  if igual_estricto (campo newData "estado_solicitud")
                    (campo oldData "estado_solicitud")
  then ret tt
  else
    let uid := campo newData "uid_cliente" in
    let titulo := o_logico (campo newData "escenario_nombre") (VStr "Cita") in
    let tipo := "Confirmación" in
    match mensaje_cambio (campo newData "estado_solicitud") titulo with
    | None => ret tt
    | Some mensaje =>
        let imagen := campo newData "escenario_img_principal" in
        guardarNotificacion uid titulo tipo mensaje imagen ;;;
        devices <- consulta Dispositivos
                     [Igual "uid_usuario" uid; Igual "activo" (VBool true)] ;;
        let tokens := tokens_de devices in
        if (0 <? length tokens)%nat then
          sendEachForMulticast tokens
            {| title := titulo; body := mensaje;
               image := Some (o_logico imagen (VStr "")) |}
        else ret tt
    end.

Definition batchSize : nat := 500.

(** The character of a double quote. *)
Definition comilla : string := String (Ascii.ascii_of_nat 34) EmptyString.

(** The loop [for (let i = 0; i < tokens.length; i += batchSize)] of
    [notificarNuevoEscenario], from index [i] on. *)
Equations? enviar_lotes (tokens : list Valor) (n : Aviso) (i : nat) : M unit
  by wf (length tokens - i)%nat lt :=
  enviar_lotes tokens n i with lt_dec i (length tokens) => {
    | left _ =>
        let batchTokens := firstn batchSize (skipn i tokens) in
        sendEachForMulticast batchTokens n ;;;
        enviar_lotes tokens n (i + batchSize)%nat;
    | right _ => ret tt }.
Proof. unfold batchSize. lia. Qed.

(** [exports.notificarNuevoEscenario], on the created scenario. *)
Definition notificarNuevoEscenario (escenario : Doc) : M unit :=
  devices <- consulta Dispositivos [Igual "activo" (VBool true)] ;;
  let tokens := tokens_de devices in
  let payload :=
    {| title := VStr "¡Nuevo Escenario!";
       body := "Ven a conocer " +:+ comilla +:+ aTexto (campo escenario "nombre")
               +:+ comilla;
       image := Some (o_logico (campo escenario "img_principal") (VStr "")) |} in
  enviar_lotes tokens payload 0.

(** The body of the loop of [recordatorioDiario] for one appointment. *)
Definition recordar (cita : Doc) : M unit :=
  let uid := campo cita "uid_cliente" in
  let escenario := campo cita "escenario_nombre" in
  devices <- consulta Dispositivos [Igual "uid_usuario" uid] ;;
  let tokens := tokens_de devices in
  if (0 <? length tokens)%nat then
    let bodyMsg := "Recuerda tu cita próxima en " +:+ aTexto escenario in
    sendEachForMulticast tokens
      {| title := VStr "Recordatorio de Cita"; body := bodyMsg; image := None |} ;;;
    guardarNotificacion uid (VStr "Recordatorio") "recordatorio" bodyMsg VUndef
  else ret tt.

(** [for (const doc of citasSnap.docs)] *)
Fixpoint para_cada (l : list (string * Doc)) (f : Doc -> M unit) : M unit :=
  match l with
  | [] => ret tt
  | doc :: r => f (snd doc) ;;; para_cada r f
  end.

Section Recordatorio.

Variable P : Plataforma.

Definition filtros_recordatorio (hoy limite : Z) : list Filtro :=
  [Desde "fecha" hoy; Hasta "fecha" limite;
   Igual "estado_solicitud" (VStr "aceptada")].

(** [exports.recordatorioDiario] *)
Definition recordatorioDiario : M unit :=
  t <- lee ahora ;;
  let hoy := startOfDay P t in
  let limite := endOfDay P (addDays hoy 2) in
  citasSnap <- consulta Citas (filtros_recordatorio hoy limite) ;;
  para_cada citasSnap recordar.

End Recordatorio.

(** ** Devices, and the notice of delivered photos *)

#[global] Instance Escrito_eq_dec : EqDecision Escrito.
Proof. solve_decision. Defined.

(** Does a write hold [undefined] in some field? *)
Definition con_indefinido (d : DocEscrito) : bool :=
  bool_decide (map_Exists (fun _ e => e = Dato VUndef) d).

(** [db.collection(c).doc(id).set(d, { merge: true })]: the document is
    created when it does not exist, otherwise the fields given replace or
    extend its own.  The fields come straight from the payload, where any of
    them may be missing: Firestore refuses [undefined] before it sends
    anything.  The write is logged as a write of those fields. *)
Definition fija (c : Coleccion) (id : string) (d : DocEscrito) : M unit :=
  si_lanza (con_indefinido d)
           (ErrorJS "Cannot use undefined as a Firestore value.") ;;;
  t <- lee hora_servidor ;;
  let d' := sella t d in
  registra (EvCambio c id d') ;;;
  l <- lee (docs c) ;;
  match busca id l with
  | None => (fun w => (Ok tt, con_docs c (l ++ [(id, d')])%list w))
  | Some _ =>
      (fun w => (Ok tt, con_docs c (reemplaza id (fun old => d' ∪ old) l) w))
  end.

(** The fields [registrarDispositivo] writes. *)
Definition ficha_dispositivo (uid_usuario token_fcm plataforma : Valor) : DocEscrito :=
  <["updatedAt" := MarcaServidor]>
    (<["activo" := Dato (VBool true)]>
       (<["plataforma" := Dato plataforma]>
          (<["token_fcm" := Dato token_fcm]>
             {["uid_usuario" := Dato uid_usuario]}))).

(** [exports.registrarDispositivo] *)
Definition registrarDispositivo (data : Doc) (context : Contexto) : M unit :=
  intenta
    (let token_fcm := campo data "token_fcm" in
     let uid_dispositivo := campo data "uid_dispositivo" in
     let plataforma := campo data "plataforma" in
     let uid_usuario :=
       match auth context with Some uid => VStr uid | None => VNull end in
     ref <- referencia uid_dispositivo ;;
     fija Dispositivos ref (ficha_dispositivo uid_usuario token_fcm plataforma))
    (fun error => lanza (HttpsError internal (mensaje error))).

(** The text of the notice. *)
Definition msg_fotos : string := "Tus fotos ya están disponibles en la app.".

(** [exports.notificarFotosListas], on the scalar fields of the snapshots
    before and after an update of a document of [Solicitudes_Fotos]. *)
Definition notificarFotosListas (before after : Doc) : M unit :=
  let newData := after in
  let oldData := before in
  if igual_estricto (campo newData "estado") (VStr "entregado")
     && negb (igual_estricto (campo oldData "estado") (VStr "entregado"))
  then
    let uid := campo newData "uid_cliente" in
    let msg := msg_fotos in
    guardarNotificacion uid (VStr "Fotos Listas") "Info" msg VUndef ;;;
    devices <- consulta Dispositivos [Igual "uid_usuario" uid] ;;
    let tokens := tokens_de devices in
    if (0 <? length tokens)%nat then
      sendEachForMulticast tokens
        {| title := VStr "Fotos Listas"; body := msg; image := None |}
    else ret tt
  else ret tt.

(** ** Profiles and photo requests

    The collections [Clientes] and [Solicitudes_Fotos] sit beside the world
    of the appointments.  A photo request holds one array, [fotos_urls]; the
    arrays of the model are lists of strings (the urls).  The calls to these
    two collections are not logged. *)

(** A field of a photo request, or of the payload that delivers one: a
    scalar or an array. *)
Inductive Campo : Type :=
| Uno (v : Valor)
| Varios (l : list string).

#[global] Instance Campo_eq_dec : EqDecision Campo.
Proof. solve_decision. Defined.

Abbreviation Ficha := (gmap string Campo).

(** [d.k] *)
Definition campoF (d : Ficha) (k : string) : Campo := default (Uno VUndef) (d !! k).

(** An array is an object: truthy, and identical to nothing but itself. *)
Definition verdaderoF (c : Campo) : bool :=
  match c with Uno v => verdadero v | Varios _ => true end.

(** [a || b] *)
Definition o_logicoF (a b : Campo) : Campo := if verdaderoF a then a else b.

(** [c === v] for a scalar [v] *)
Definition igual_estrictoF (c : Campo) (v : Valor) : bool :=
  match c with Uno x => igual_estricto x v | Varios _ => false end.

(** A field of a write to [Solicitudes_Fotos]. *)
Inductive CampoEscrito : Type :=
| DatoF (c : Campo)
| MarcaF.

#[global] Instance CampoEscrito_eq_dec : EqDecision CampoEscrito.
Proof. solve_decision. Defined.

Abbreviation FichaEscrita := (gmap string CampoEscrito).

Definition sellaF (t : Z) (d : FichaEscrita) : Ficha :=
  (fun e => match e with DatoF c => c | MarcaF => Uno (VTime t) end) <$> d.

Definition con_indefinidoF (d : FichaEscrita) : bool :=
  bool_decide (map_Exists (fun _ e => e = DatoF (Uno VUndef)) d).

(** The scalar fields of a photo request, as a trigger reads them. *)
Definition escalares (d : Ficha) : Doc :=
  omap (fun c => match c with Uno v => Some v | Varios _ => None end) d.

Record Nube : Type := {
  mundo : Mundo;
  clientes : list (string * Doc);
  solicitudes : list (string * Ficha)
}.

Definition con_mundo (w : Mundo) (n : Nube) : Nube :=
  {| mundo := w; clientes := clientes n; solicitudes := solicitudes n |}.

Definition con_clientes (l : list (string * Doc)) (n : Nube) : Nube :=
  {| mundo := mundo n; clientes := l; solicitudes := solicitudes n |}.

Definition con_solicitudes (l : list (string * Ficha)) (n : Nube) : Nube :=
  {| mundo := mundo n; clientes := clientes n; solicitudes := l |}.

(** The monad of the handlers of these collections. *)
Definition N (A : Type) : Type := Nube -> Resultado A * Nube.

Definition retN {A} (a : A) : N A := fun n => (Ok a, n).

Definition lanzaN {A} (e : Excepcion) : N A := fun n => (Lanza e, n).

Definition ligaN {A B} (m : N A) (f : A -> N B) : N B :=
  fun n => match m n with
           | (Ok a, n') => f a n'
           | (Lanza e, n') => (Lanza e, n')
           end.

Definition intentaN {A} (m : N A) (h : Excepcion -> N A) : N A :=
  fun n => match m n with
           | (Ok a, n') => (Ok a, n')
           | (Lanza e, n') => h e n'
           end.

Definition si_lanzaN (c : bool) (e : Excepcion) : N unit :=
  if c then lanzaN e else retN tt.

(** A computation on the world of the appointments, run inside. *)
Definition eleva {A} (m : M A) : N A :=
  fun n => let (r, w) := m (mundo n) in (r, con_mundo w n).

Declare Scope nube_scope.
Delimit Scope nube_scope with nube.
Notation "x <- m ;; k" := (ligaN m (fun x => k))
  (at level 200, m at level 99, right associativity) : nube_scope.
Notation "m ;;; k" := (ligaN m (fun _ => k))
  (at level 200, right associativity) : nube_scope.

(** The documents of a collection, by id. *)
Fixpoint hallar {D} (id : string) (l : list (string * D)) : option D :=
  match l with
  | [] => None
  | (i, d) :: r => if String.eqb i id then Some d else hallar id r
  end.

Fixpoint sustituir {D} (id : string) (f : D -> D) (l : list (string * D))
  : list (string * D) :=
  match l with
  | [] => []
  | (i, d) :: r =>
      if String.eqb i id then (i, f d) :: r else (i, d) :: sustituir id f r
  end.

Definition quitar {D} (id : string) (l : list (string * D)) : list (string * D) :=
  List.filter (fun p => negb (String.eqb (fst p) id)) l.

(** [context.auth.uid]: a [TypeError] when the call carries no identity. *)
Definition uid_de (context : Contexto) : N string :=
  match auth context with
  | Some uid => retN uid
  | None => lanzaN (ErrorJS "Cannot read properties of undefined (reading uid)")
  end.

(** [context.auth?.uid] *)
Definition uid_opcional (context : Contexto) : Valor :=
  match auth context with Some uid => VStr uid | None => VUndef end.

Section ManejadoresNube.

Local Open Scope nube_scope.

(** [db.collection('Clientes').doc(id).set(d, { merge: true })] *)
Definition fijaCliente (id : string) (d : DocEscrito) : N unit :=
  si_lanzaN (con_indefinido d)
            (ErrorJS "Cannot use undefined as a Firestore value.") ;;;
  t <- eleva (lee hora_servidor) ;;
  let d' := sella t d in
  fun n =>
    (Ok tt,
     con_clientes
       (match hallar id (clientes n) with
        | None => (clientes n ++ [(id, d')])%list
        | Some _ => sustituir id (fun old => d' ∪ old) (clientes n)
        end) n).

(** [db.collection('Clientes').doc(id).delete()]: deleting a document that
    does not exist is no error. *)
Definition borraCliente (id : string) : N unit :=
  fun n => (Ok tt, con_clientes (quitar id (clientes n)) n).

(** The fields [crearOActualizarCliente] writes. *)
Definition ficha_cliente (data : Doc) : DocEscrito :=
  <["updatedAt" := MarcaServidor]>
    (<["photo" := Dato (o_logico (campo data "photo") (VStr ""))]>
       (<["email" := Dato (o_logico (campo data "email") (VStr ""))]>
          (<["name" := Dato (o_logico (campo data "name") (VStr "Sin nombre"))]>
             (<["providerUserId" :=
                  Dato (o_logico (campo data "providerUserId") (VStr ""))]>
                {["provider" := Dato (o_logico (campo data "provider") (VStr ""))]})))).

(** [exports.crearOActualizarCliente] *)
Definition crearOActualizarCliente (data : Doc) (context : Contexto) : N unit :=
  intentaN
    (uid <- uid_de context ;;
     si_lanzaN (negb (verdadero (VStr uid)))
       (HttpsError unauthenticated "No logueado") ;;;
     ref <- eleva (referencia (VStr uid)) ;;
     fijaCliente ref (ficha_cliente data))
    (fun error => lanzaN (HttpsError internal (mensaje error))).

(** [exports.eliminarCliente] *)
Definition eliminarCliente (data : Doc) (context : Contexto) : N unit :=
  intentaN
    (let uid_a_eliminar := campo data "uid_a_eliminar" in
     uid_solicitante <- uid_de context ;;
     isAdmin <- eleva (esAdministrador (VStr uid_solicitante)) ;;
     si_lanzaN
       (negb (igual_estricto uid_a_eliminar (VStr uid_solicitante))
        && negb isAdmin)
       (HttpsError permission_denied "No autorizado para eliminar este perfil.") ;;;
     ref <- eleva (referencia uid_a_eliminar) ;;
     borraCliente ref)
    (fun error => lanzaN (HttpsError internal (mensaje error))).

(** [db.collection('Solicitudes_Fotos').add(d)] *)
Definition altaSolicitud (d : FichaEscrita) : N string :=
  si_lanzaN (con_indefinidoF d)
            (ErrorJS "Cannot use undefined as a Firestore value.") ;;;
  k <- eleva (lee siguiente) ;;
  t <- eleva (lee hora_servidor) ;;
  let id := "auto-" +:+ pretty k in
  fun n =>
    (Ok id,
     con_solicitudes (solicitudes n ++ [(id, sellaF t d)])%list
                     (con_mundo (avanza (mundo n)) n)).

(** [db.collection('Solicitudes_Fotos').doc(id).get()] *)
Definition leeSolicitud (id : string) : N (option Ficha) :=
  fun n => (Ok (hallar id (solicitudes n)), n).

(** [db.collection('Solicitudes_Fotos').doc(id).update(campos)] *)
Definition cambioSolicitud (id : string) (campos : FichaEscrita) : N unit :=
  si_lanzaN (con_indefinidoF campos)
            (ErrorJS "Cannot use undefined as a Firestore value.") ;;;
  t <- eleva (lee hora_servidor) ;;
  let campos' := sellaF t campos in
  fun n =>
    match hallar id (solicitudes n) with
    | None => (Lanza (ErrorJS "NOT_FOUND"), n)
    | Some _ =>
        (Ok tt,
         con_solicitudes (sustituir id (fun d => campos' ∪ d) (solicitudes n)) n)
    end.

(** [db.collection('Solicitudes_Fotos').doc(id).delete()] *)
Definition borraSolicitud (id : string) : N unit :=
  fun n => (Ok tt, con_solicitudes (quitar id (solicitudes n)) n).

(** [db.collection(...).doc(id)] for an id taken from a payload that may
    hold arrays. *)
Definition referenciaF (c : Campo) : N string :=
  match c with
  | Uno v => eleva (referencia v)
  | Varios _ => lanzaN (ErrorJS "documentPath no es una cadena")
  end.

(** The document [crearSolicitudFotos] adds. *)
Definition nuevaSolicitud (uid : string) (data : Doc) : FichaEscrita :=
  <["fecha_actualizacion" := MarcaF]>
    (<["fecha_solicitud" := MarcaF]>
       (<["fotos_urls" := DatoF (Varios [])]>
          (<["estado" := DatoF (Uno (VStr "pendiente"))]>
             (<["recibo_url" :=
                  DatoF (Uno (o_logico (campo data "recibo_url") (VStr "")))]>
                {["uid_cliente" := DatoF (Uno (VStr uid))]})))).

(** [exports.crearSolicitudFotos] *)
Definition crearSolicitudFotos (data : Doc) (context : Contexto) : N string :=
  intentaN
    (uid <- uid_de context ;;
     si_lanzaN (negb (verdadero (VStr uid)))
       (HttpsError unauthenticated "Inicie sesión.") ;;;
     altaSolicitud (nuevaSolicitud uid data))
    (fun error => lanzaN (HttpsError internal (mensaje error))).

(** The fields [actualizarSolicitudAdmin] writes. *)
Definition entrega (fotos_urls : Campo) : FichaEscrita :=
  <["fecha_actualizacion" := MarcaF]>
    (<["estado" := DatoF (Uno (VStr "entregado"))]>
       {["fotos_urls" := DatoF (o_logicoF fotos_urls (Varios []))]}).

(** [exports.actualizarSolicitudAdmin] *)
Definition actualizarSolicitudAdmin (data : Ficha) (context : Contexto) : N unit :=
  intentaN
    (esAdmin <- eleva (esAdministrador (uid_opcional context)) ;;
     si_lanzaN (negb esAdmin) (HttpsError permission_denied "Solo admin.") ;;;
     let id := campoF data "id" in
     let fotos_urls := campoF data "fotos_urls" in
     ref <- referenciaF id ;;
     cambioSolicitud ref (entrega fotos_urls))
    (fun error => lanzaN (HttpsError internal (mensaje error))).

(** [exports.eliminarSolicitud] *)
Definition eliminarSolicitud (data : Doc) (context : Contexto) : N unit :=
  intentaN
    (let id := campo data "id" in
     uid <- uid_de context ;;
     isAdmin <- eleva (esAdministrador (VStr uid)) ;;
     docRef <- eleva (referencia id) ;;
     doc <- leeSolicitud docRef ;;
     match doc with
     | None => retN tt
     | Some solicitud =>
         si_lanzaN
           (negb (igual_estrictoF (campoF solicitud "uid_cliente") (VStr uid))
            && negb isAdmin)
           (HttpsError permission_denied "No autorizado.") ;;;
         borraSolicitud docRef
     end)
    (fun error => lanzaN (HttpsError internal (mensaje error))).

End ManejadoresNube.

(** ** The first revision *)

Module Anterior.

(** [esAdministrador] without the [try]/[catch]: an error of the lookup
    reaches the caller. *)
Definition esAdministrador (uid : Valor) : M bool :=
  if negb (verdadero uid) then ret false
  else
    doc <- consulta Admin [Igual "uidClient" uid] ;;
    ret (negb (bool_decide (doc = []))).

(** [exports.actualizarCita] without the [try]/[catch]: every error keeps
    its code. *)
Definition actualizarCita (data : Doc) (context : Contexto) : M unit :=
  let id := campo data "id" in
  let campos := delete "id" data in
  match auth context with
  | None => lanza (ErrorJS "Cannot read properties of undefined (reading uid)")
  | Some uid =>
      isAdmin <- esAdministrador (VStr uid) ;;
      citaRef <- referencia id ;;
      citaSnap <- lectura Citas citaRef ;;
      match citaSnap with
      | None => lanza (HttpsError not_found "Cita no encontrada")
      | Some citaData =>
          if (isAdmin : bool) then
            cambio Citas citaRef (<["updatedAt" := MarcaServidor]> (Dato <$> campos))
          else
            si_lanza
              (negb (igual_estricto (campo citaData "uid_cliente") (VStr uid)))
              (HttpsError permission_denied "No es tu cita") ;;;
            if (size campos =? 1)%nat
               && igual_estricto (campo campos "estado_solicitud")
                                 (VStr "rechazada")
            then
              cambio Citas citaRef
                (<["updatedAt" := MarcaServidor]>
                   {["estado_solicitud" := Dato (VStr "rechazada")]})
            else
              lanza (HttpsError permission_denied
                       "El cliente solo puede cancelar la cita")
      end
  end.

End Anterior.

(** ** A platform to run the handlers on

    UTC as the local zone, and a parser of the UTC form
    [YYYY-MM-DDTHH:mm:ssZ] of the ECMAScript date-time string format; any
    other text is an [Invalid Date]. *)

Definition digito (c : Ascii.ascii) : option Z :=
  let n := Z.of_N (Ascii.N_of_ascii c) in
  if (48 <=? n) && (n <=? 57) then Some (n - 48) else None.

Fixpoint decimal (s : string) (acc : Z) : option Z :=
  match s with
  | EmptyString => Some acc
  | String c r =>
      match digito c with
      | Some d => decimal r (acc * 10 + d)
      | None => None
      end
  end.

Definition trozo (i n : nat) (s : string) : option Z :=
  decimal (String.substring i n s) 0.

Definition Date_parse_iso (s : string) : option Z :=
  if negb (String.length s =? 20)%nat then None
  else if negb (String.eqb (String.substring 4 1 s) "-"
                && String.eqb (String.substring 7 1 s) "-"
                && String.eqb (String.substring 10 1 s) "T"
                && String.eqb (String.substring 13 1 s) ":"
                && String.eqb (String.substring 16 1 s) ":"
                && String.eqb (String.substring 19 1 s) "Z") then None
  else
    match trozo 0 4 s, trozo 5 2 s, trozo 8 2 s,
          trozo 11 2 s, trozo 14 2 s, trozo 17 2 s with
    | Some y, Some m, Some d, Some h, Some mi, Some se =>
        if (1 <=? m) && (m <=? 12) && (1 <=? d) && (d <=? dias_del_mes y m)
           && (h <=? 23) && (mi <=? 59) && (se <=? 59)
        then Some (dias_de_civil y m d * ms_dia
                   + h * 3600000 + mi * 60000 + se * 1000)
        else None
    | _, _, _, _, _, _ => None
    end.

Definition utc : Plataforma := {| Date_parse := Date_parse_iso; zona := 0 |}.

(** * The vocabulary of the statements *)

(** ** Messages, worlds along a run, selections *)

Definition msg_bloqueo : string :=
  "Citas bloqueadas por cancelaciones frecuentes en el último mes.".
Definition msg_mismo_dia : string :=
  "Ya tienes una cita programada para este día.".
Definition msg_fecha_invalida : string :=
  "Value for argument seconds is not a valid integer.".

Definition msg_ajena : string := "No tienes permiso sobre esta cita.".
Definition msg_solo_cancelar : string := "Los clientes solo pueden cancelar su cita.".

(** What [esAdministrador] answers for a present identity. *)
Definition es_admin (uid : string) (w : Mundo) : bool :=
  negb (admin_caido w)
  && negb (bool_decide (seleccion [Igual "uidClient" (VStr uid)] (admins w) = [])).

(** The world once the caller has been checked and the appointment read. *)
Definition tras_lectura (uid id : string) (w : Mundo) : Mundo :=
  anota (EvLectura Citas id)
        (anota (EvConsulta Admin [Igual "uidClient" (VStr uid)]) w).

(** The world after [update(campos)] on the appointment [id]. *)
Definition tras_cambio (uid id : string) (campos : DocEscrito) (w : Mundo) : Mundo :=
  con_docs Citas
    (reemplaza id (fun d => sella (hora_servidor w) campos ∪ d) (citas w))
    (anota (EvCambio Citas id (sella (hora_servidor w) campos))
           (tras_lectura uid id w)).

(** The field set a client may send. *)
Definition solo_rechazo : Doc := {["estado_solicitud" := VStr "rechazada"]}.

(** The conditions of the query of a caller who is not an administrator. *)
Definition filtros_propias (uid : string) : list Filtro :=
  [Igual "uid_cliente" (VStr uid); Distinto "estado_solicitud" (VStr "rechazada")].

(** The record that [guardarNotificacion] writes at store time [t]. *)
Definition registro (uid titulo : Valor) (tipo mensaje : string) (imagen : Valor)
    (t : Z) : Doc :=
  sella t
    (<["createdAt" := MarcaServidor]>
       (<["imagen" := Dato (match imagen with VUndef => VNull | v => v end)]>
          (<["mensaje" := Dato (VStr mensaje)]>
             (<["tipo" := Dato (VStr tipo)]>
                (<["titulo" := Dato titulo]>
                   {["uid_usuario" := Dato uid]}))))).

(** The world after [guardarNotificacion]. *)
Definition tras_registro (d : Doc) (w : Mundo) : Mundo :=
  avanza (con_docs Notificaciones
            (notificaciones w ++ [("auto-" +:+ pretty (siguiente w), d)])%list
            (anota (EvAlta Notificaciones ("auto-" +:+ pretty (siguiente w)) d) w)).

(** The tokens [notificarCambioCita] resolves for a recipient. *)
Definition tokens_activos (uid : Valor) (w : Mundo) : list Valor :=
  tokens_de (seleccion [Igual "uid_usuario" uid; Igual "activo" (VBool true)]
                       (dispositivos w)).

(** The tokens [recordatorioDiario] resolves for a recipient. *)
Definition tokens_todos (uid : Valor) (w : Mundo) : list Valor :=
  tokens_de (seleccion [Igual "uid_usuario" uid] (dispositivos w)).

(** The pushes of a log: tokens and payload of each multicast, in order. *)
Fixpoint envios (l : list Evento) : list (list Valor * Aviso) :=
  match l with
  | [] => []
  | EvEnvio tokens n :: r => (tokens, n) :: envios r
  | _ :: r => envios r
  end.

Section Vocabulario.

Variable P : Plataforma.

(** The world after the query of the rejection gate. *)
Definition tras_rechazos (uid : string) (w : Mundo) : Mundo :=
  anota (EvConsulta Citas (filtros_rechazos uid (subMonths P (ahora w) 1))) w.

(** The world after the query of the one-per-day gate. *)
Definition tras_dia (uid : string) (f : Z) (w : Mundo) : Mundo :=
  anota (EvConsulta Citas (filtros_dia uid (startOfDay P f) (endOfDay P f)))
        (tras_rechazos uid w).

(** The caller's rejections that the gate counts. *)
Definition rechazos (uid : string) (w : Mundo) : list (string * Doc) :=
  seleccion (filtros_rechazos uid (subMonths P (ahora w) 1)) (citas w).

(** The caller's appointments of the day of [f]. *)
Definition del_dia (uid : string) (f : Z) (w : Mundo) : list (string * Doc) :=
  seleccion (filtros_dia uid (startOfDay P f) (endOfDay P f)) (citas w).

(** A rejection of the caller that the gate counts: created at or after
    the instant one calendar month before now. *)
Definition rechazo_reciente (uid : string) (w : Mundo) (d : Doc) : Prop :=
  d !! "uid_cliente" = Some (VStr uid)
  /\ d !! "estado_solicitud" = Some (VStr "rechazada")
  /\ exists t, d !! "createdAt" = Some (VTime t)
              /\ subMonths P (ahora w) 1 <= t.

(** An appointment of the caller dated within the local day of [f]. *)
Definition cita_del_dia (uid : string) (f : Z) (d : Doc) : Prop :=
  d !! "uid_cliente" = Some (VStr uid)
  /\ exists t, d !! "fecha" = Some (VTime t)
              /\ startOfDay P f <= t <= endOfDay P f.

(** The calls of one run of [crearCita], in order: the query of the
    rejection gate, the query of the one-per-day gate, the write. *)
Definition llamadas_crearCita (uid : string) (w : Mundo) (f : Z) (id : string)
    (d : Doc) : list Evento :=
  [EvConsulta Citas (filtros_rechazos uid (subMonths P (ahora w) 1));
   EvConsulta Citas (filtros_dia uid (startOfDay P f) (endOfDay P f));
   EvAlta Citas id d].

End Vocabulario.

(** ** Concrete worlds *)

(** The instant a text of the UTC form denotes. *)
Definition instante (s : string) : Z := default 0 (Date_parse_iso s).

Definition sesion (uid : string) : Contexto := {| auth := Some uid |}.

Definition mundo_inicial (t : Z) : Mundo :=
  {| ahora := t; hora_servidor := t; admins := []; citas := [];
     dispositivos := []; notificaciones := []; admin_caido := false;
     siguiente := 0; bitacora := [] |}.

(** A rejected appointment of [uid] created at [creada]. *)
Definition rechazo_de (uid : string) (creada : Z) : Doc :=
  {["uid_cliente" := VStr uid; "estado_solicitud" := VStr "rechazada";
    "estado_atendida" := VStr "espera"; "createdAt" := VTime creada;
    "updatedAt" := VTime creada; "fecha" := VTime creada]}.

(** Noon of 15 March 2023; Ana has two rejections, both created at [creada]. *)
Definition mundo_rechazos (creada : Z) : Mundo :=
  con_docs Citas [("r1", rechazo_de "ana" creada); ("r2", rechazo_de "ana" creada)]
           (mundo_inicial (instante "2023-03-15T12:00:00Z")).

Definition cita_bosque : Doc :=
  {["uid_cliente" := VStr "ana"; "estado_solicitud" := VStr "espera";
    "estado_atendida" := VStr "espera"; "escenario_nombre" := VStr "Bosque";
    "escenario_img_principal" := VStr "bosque.jpg";
    "fecha" := VTime (instante "2024-06-01T10:00:00Z");
    "createdAt" := VTime (instante "2024-05-20T08:00:00Z");
    "updatedAt" := VTime (instante "2024-05-20T08:00:00Z")]}.

(** 29 May 2024: one administrator, one appointment of Ana on 1 June. *)
Definition mundo_ana : Mundo :=
  con_docs Admin [("a1", {["uidClient" := VStr "root"]})]
    (con_docs Citas [("c1", cita_bosque)]
       (mundo_inicial (instante "2024-05-29T09:00:00Z"))).

(** The same world while the lookup of [Admin] fails. *)
Definition mundo_sin_admin : Mundo :=
  {| ahora := ahora mundo_ana; hora_servidor := hora_servidor mundo_ana;
     admins := admins mundo_ana; citas := citas mundo_ana;
     dispositivos := []; notificaciones := []; admin_caido := true;
     siguiente := 0; bitacora := [] |}.

Definition dispositivo (uid token : string) (activo : bool) : Doc :=
  {["uid_usuario" := VStr uid; "token_fcm" := VStr token;
    "plataforma" := VStr "android"; "activo" := VBool activo]}.

(** Ana has 501 registered devices, all active. *)
Definition mundo_muchos : Mundo :=
  con_docs Dispositivos
    (map (fun n => ("d" +:+ pretty n, dispositivo "ana" ("t" +:+ pretty n) true))
         (seq 0 501))
    mundo_ana.

(** 31 May 2024, 09:00: Ana's appointment of 1 June is accepted; her only
    device is registered as not active. *)
Definition mundo_recordatorio : Mundo :=
  con_docs Dispositivos [("d1", dispositivo "ana" "tok" false)]
    (con_docs Citas [("c1", <["estado_solicitud" := VStr "aceptada"]> cita_bosque)]
       (mundo_inicial (instante "2024-05-31T09:00:00Z"))).

(** Ana's appointment, accepted. *)
Definition cita_aceptada : Doc := <["estado_solicitud" := VStr "aceptada"]> cita_bosque.

(** An appointment booked without the name of a scenario, before and after
    it is accepted. *)
Definition cita_sin_nombre : Doc :=
  {["uid_cliente" := VStr "ana"; "estado_solicitud" := VStr "espera";
    "estado_atendida" := VStr "espera";
    "fecha" := VTime (instante "2024-06-01T10:00:00Z")]}.

Definition cita_sin_nombre_aceptada : Doc :=
  <["estado_solicitud" := VStr "aceptada"]> cita_sin_nombre.

Definition pide (fecha : string) : Doc := {["fecha" := VStr fecha]}.

(** A request that also names Beto as the owner. *)
Definition pide_para_beto (fecha : string) : Doc :=
  <["uid_cliente" := VStr "beto"]> (pide fecha).

(** Ana has two active devices and one that is not; Beto has one. *)
Definition mundo_dispositivos : Mundo :=
  con_docs Dispositivos
    [("d1", dispositivo "ana" "t1" true); ("d2", dispositivo "ana" "t2" true);
     ("d3", dispositivo "beto" "t3" true); ("d4", dispositivo "ana" "t4" false)]
    mundo_ana.

(** Three appointments: Ana's pending one, one of hers that was rejected,
    and one of Beto. *)
Definition mundo_tres : Mundo :=
  con_docs Citas
    [("c1", cita_bosque);
     ("c2", <["estado_solicitud" := VStr "rechazada"]> cita_bosque);
     ("c3", <["uid_cliente" := VStr "beto"]> cita_bosque)]
    mundo_ana.

Definition aviso_bosque : Aviso :=
  {| title := VStr "Bosque"; body := "Tu cita para Bosque ha sido confirmada.";
     image := Some (VStr "bosque.jpg") |}.

Definition cancela (id : string) : Doc :=
  {["id" := VStr id; "estado_solicitud" := VStr "rechazada"]}.

(** ** The vocabulary of the further properties *)

(** Two worlds hold the same documents. *)
Definition mismos_documentos (w w' : Mundo) : Prop :=
  admins w' = admins w /\ citas w' = citas w
  /\ dispositivos w' = dispositivos w /\ notificaciones w' = notificaciones w.

(** The same world at a later time. *)
Definition mas_tarde (t_ahora t_servidor : Z) (w : Mundo) : Mundo :=
  {| ahora := t_ahora; hora_servidor := t_servidor; admins := admins w;
     citas := citas w; dispositivos := dispositivos w;
     notificaciones := notificaciones w; admin_caido := admin_caido w;
     siguiente := siguiente w; bitacora := bitacora w |}.
(** Two worlds differ in the log at most. *)
Definition mismo_estado (w w' : Mundo) : Prop :=
  mismos_documentos w w'
  /\ ahora w' = ahora w /\ hora_servidor w' = hora_servidor w
  /\ admin_caido w' = admin_caido w /\ siguiente w' = siguiente w.

(** A computation that only reads: whatever its outcome, it changes the log
    at most. *)
Definition solo_lee {A} (m : M A) : Prop := forall w, mismo_estado w (snd (m w)).

(** The [limit] of a listing: the payload's, or 20 when it has none. *)
Definition limite_pedido (data : Doc) : Valor :=
  match campo data "limit" with VUndef => VNum 20 | v => v end.

(** The records of a listing are in ascending order of [fecha]. *)
Definition no_despues (k : string) (r1 r2 : Doc) : Prop :=
  valor_cmp (campo r1 k) (campo r2 k) <> Gt.

(** The cursor of a listing: the document named by [lastDocId], when it is
    given and exists. *)
Definition cursor_pedido (data : Doc) (w : Mundo) : option (string * Doc) :=
  if verdadero (campo data "lastDocId") then
    match campo data "lastDocId" with
    | VStr ref => (fun d => (ref, d)) <$> busca ref (citas w)
    | _ => None
    end
  else None.

Section VocabularioListado.

Variable P : Plataforma.

(** The conditions of the query of [consultarCitas], by the caller's role. *)
Definition filtros_consulta (isAdmin : bool) (uid : string) (data : Doc)
  : option (list Filtro) :=
  if isAdmin then
    if verdadero (campo data "fecha") then
      match nuevaFecha P (campo data "fecha") with
      | Some d => Some [Desde "fecha" (startOfDay P d); Hasta "fecha" (endOfDay P d)]
      | None => None
      end
    else if verdadero (campo data "uid_cliente_consulta") then
      Some [Igual "uid_cliente" (campo data "uid_cliente_consulta")]
    else Some []
  else
    Some [Igual "uid_cliente" (VStr uid);
          Distinto "estado_solicitud" (VStr "rechazada")].

(** The appointments a run of the sweep selects. *)
Definition citas_por_recordar (w : Mundo) : list (string * Doc) :=
  seleccion (filtros_recordatorio (startOfDay P (ahora w))
                                  (endOfDay P (addDays (startOfDay P (ahora w)) 2)))
            (citas w).

End VocabularioListado.
(** The world after a run of multicasts, one per batch. *)
Definition tras_envios (lotes : list (list Valor)) (n : Aviso) (w : Mundo) : Mundo :=
  fold_left (fun w' t => anota (EvEnvio t n) w') lotes w.

(** The payload of the broadcast of a new scenario. *)
Definition aviso_escenario (escenario : Doc) : Aviso :=
  {| title := VStr "¡Nuevo Escenario!";
     body := "Ven a conocer " +:+ comilla +:+ aTexto (campo escenario "nombre")
             +:+ comilla;
     image := Some (o_logico (campo escenario "img_principal") (VStr "")) |}.

(** The payload of a reminder. *)
Definition aviso_recordatorio (cita : Doc) : Aviso :=
  {| title := VStr "Recordatorio de Cita";
     body := "Recuerda tu cita próxima en " +:+ aTexto (campo cita "escenario_nombre");
     image := None |}.

(** The push a reminder makes for one appointment, if any. *)
Definition envio_recordatorio (w : Mundo) (c : string * Doc)
  : list (list Valor * Aviso) :=
  match tokens_todos (campo (snd c) "uid_cliente") w with
  | [] => []
  | tokens => [(tokens, aviso_recordatorio (snd c))]
  end.

(** An appointment the sweep can remind of: its client is a string and has
    at most 500 tokens, the most the gateway takes in one call. *)
Definition recordable (w : Mundo) (c : string * Doc) : Prop :=
  (exists uid, campo (snd c) "uid_cliente" = VStr uid)
  /\ (length (tokens_todos (campo (snd c) "uid_cliente") w) <= 500)%nat.

(** [context.auth ? context.auth.uid : null] *)
Definition usuario_de (context : Contexto) : Valor :=
  match auth context with Some uid => VStr uid | None => VNull end.

(** The fields a registration sets. *)
Definition claves_dispositivo : list string :=
  ["uid_usuario"; "token_fcm"; "plataforma"; "activo"; "updatedAt"].

(** The world after a registration of the device [id] with the fields [d]. *)
Definition tras_fija (id : string) (d : Doc) (w : Mundo) : Mundo :=
  con_docs Dispositivos
    (match busca id (dispositivos w) with
     | None => (dispositivos w ++ [(id, d)])%list
     | Some _ => reemplaza id (fun old => d ∪ old) (dispositivos w)
     end)
    (anota (EvCambio Dispositivos id d) w).

(** What [esAdministrador] answers for the uid of a call. *)
Definition administra (uid : string) (w : Mundo) : bool :=
  negb (String.eqb uid "") && es_admin uid w.

(** What [esAdministrador] answers for [context.auth?.uid]. *)
Definition administra_llamada (context : Contexto) (w : Mundo) : bool :=
  match auth context with Some uid => administra uid w | None => false end.

(** Two states of the store hold the same documents. *)
Definition misma_nube (n n' : Nube) : Prop :=
  clientes n' = clientes n /\ solicitudes n' = solicitudes n
  /\ mismos_documentos (mundo n) (mundo n').

(** The fields a profile update sets. *)
Definition claves_cliente : list string :=
  ["provider"; "providerUserId"; "name"; "email"; "photo"; "updatedAt"].

(** The fields a delivery sets. *)
Definition claves_entrega : list string :=
  ["fotos_urls"; "estado"; "fecha_actualizacion"].

(** The fields of a new photo request. *)
Definition claves_solicitud : list string :=
  ["uid_cliente"; "recibo_url"; "estado"; "fotos_urls"; "fecha_solicitud";
   "fecha_actualizacion"].

(** The payload that names a document. *)
Definition pide_id (id : string) : Doc := {["id" := VStr id]}.

(** ** What Firestore takes

    The predicates that restrict a statement to the ids, field names and
    instants that Firestore itself takes. *)

(** A reserved name, of the form [__.*__]. *)
Definition reservado (s : string) : bool :=
  (4 <=? String.length s)%nat && String.prefix "__" s
  && String.eqb (String.substring (String.length s - 2) 2 s) "__".

(** Does [s] hold one of the characters of [cs]? *)
Definition con_caracter (cs s : string) : bool :=
  existsb (fun c => existsb (Ascii.eqb c) (list_ascii_of_string cs))
          (list_ascii_of_string s).

(** The id of a document: not empty, at most 1500 bytes, without a slash,
    neither ["."] nor [".."], and not reserved. *)
Definition id_de_documento (s : string) : bool :=
  negb (String.eqb s "") && (String.length s <=? 1500)%nat
  && negb (con_caracter "/" s)
  && negb (String.eqb s ".") && negb (String.eqb s "..")
  && negb (reservado s).

(** The name of a field of a document: not empty, at most 1500 bytes, not
    reserved. *)
Definition nombre_de_campo (s : string) : bool :=
  negb (String.eqb s "") && (String.length s <=? 1500)%nat && negb (reservado s).

(** A key that [update] reads as the name of one field and not as a path:
    a field name without any of [. * ~ / [ ]]. *)
Definition campo_llano (s : string) : bool :=
  nombre_de_campo s
  && negb (con_caracter ".*~/[]" s).

(** A payload that [add] stores as it is: field names, no [undefined]. *)
Definition carga_llana (data : Doc) : Prop :=
  forall k v, data !! k = Some v -> nombre_de_campo k = true /\ v <> VUndef.

(** Fields that [update] writes as they are. *)
Definition cambios_llanos (campos : Doc) : Prop :=
  forall k v, campos !! k = Some v -> campo_llano k = true /\ v <> VUndef.

(** An instant that a [Timestamp] can hold: from the year 1 to the year
    9999. *)
Definition en_rango (t : Z) : Prop := -62135596800000 <= t <= 253402300799999.

(** The instant and the bounds of its local day can be sent to the store. *)
Definition dia_en_rango (P : Plataforma) (f : Z) : Prop :=
  en_rango (startOfDay P f) /\ en_rango f /\ en_rango (endOfDay P f).

(** An appointment to be reminded of at the time of [w]: accepted, and
    dated from the start of the local day of [w] to the end of the second
    day after it. *)
Definition por_recordar (P : Plataforma) (w : Mundo) (d : Doc) : bool :=
  bool_decide (d !! "estado_solicitud" = Some (VStr "aceptada"))
  && match d !! "fecha" with
     | Some (VTime t) =>
         (startOfDay P (ahora w) <=? t)
         && (t <=? endOfDay P (addDays (startOfDay P (ahora w)) 2))
     | _ => false
     end.


(** ** Further concrete worlds *)

(** Ana has two pending appointments, on 1 and on 8 June. *)
Definition mundo_dos : Mundo :=
  con_docs Citas
    [("c1", cita_bosque);
     ("c2", <["fecha" := VTime (instante "2024-06-08T10:00:00Z")]> cita_bosque)]
    mundo_ana.

(** An administrator's change of the notes of an appointment. *)
Definition anota_cita (id : string) : Doc :=
  {["id" := VStr id; "notas" := VStr "trae traje"]}.

(** A request for a listing with the limit switched off. *)
Definition lista_entera : Doc := {["limit" := VNum 0]}.

(** An administrator's request for the appointments of one client. *)
Definition listado_de (uid : string) : Doc := {["uid_cliente_consulta" := VStr uid]}.

(** The registration of a new phone. *)
Definition alta_telefono : Doc :=
  {["uid_dispositivo" := VStr "d9"; "token_fcm" := VStr "t9";
    "plataforma" := VStr "ios"]}.



(** A profile as the app stores it at sign-up. *)
Definition perfil (nombre : string) : Doc :=
  {["name" := VStr nombre; "createdAt" := VTime (instante "2024-01-10T12:00:00Z")]}.

(** A request for photos of [uid] in the state [estado]. *)
Definition solicitud_de (uid estado : string) : Ficha :=
  {["uid_cliente" := Uno (VStr uid); "estado" := Uno (VStr estado);
    "recibo_url" := Uno (VStr "recibo.jpg"); "fotos_urls" := Varios []]}.

(** Ana and Beto have a profile each; Ana waits for her photos, Beto has
    his. *)
Definition nube_ana : Nube :=
  {| mundo := mundo_dispositivos;
     clientes := [("ana", perfil "Ana"); ("beto", perfil "Beto")];
     solicitudes := [("s1", solicitud_de "ana" "pendiente");
                     ("s2", solicitud_de "beto" "entregado")] |}.

(** The request to delete the profile of [uid]. *)
Definition borra_perfil (uid : string) : Doc := {["uid_a_eliminar" := VStr uid]}.

(** The delivery of two photos for the request [id]. *)
Definition entrega_de (id : string) : Ficha :=
  {["id" := Uno (VStr id); "fotos_urls" := Varios ["f1.jpg"; "f2.jpg"]]}.

(** * Properties *)

(** The calendar is only ever evaluated on closed dates. *)
#[global] Opaque dias_de_civil civil_de_dias dias_del_mes addMonths subMonths
  startOfDay endOfDay addDays.

(** ** The store and the administrator check *)

Ltac desmonta :=
  unfold intenta, liga, si_lanza, registra, lee, ret, lanza in *; simpl in *.

Lemma consulta_ok c fs w :
  (c = Admin -> admin_caido w = false) ->
  consulta c fs w = (Ok (seleccion fs (docs c w)), anota (EvConsulta c fs) w).
Proof.
  intros H. unfold consulta. desmonta.
  destruct c; try reflexivity.
  rewrite H; reflexivity.
Qed.

Lemma cumple_Igual (d : Doc) k v :
  d !! k = Some v -> cumple d (Igual k v) = true.
Proof. intros H. unfold cumple. apply bool_decide_eq_true. assumption. Qed.

Lemma cumple_Desde (d : Doc) k t x :
  d !! k = Some (VTime x) -> t <= x -> cumple d (Desde k t) = true.
Proof. intros H Hle. unfold cumple. rewrite H. apply Z.leb_le. assumption. Qed.

Lemma cumple_Hasta (d : Doc) k t x :
  d !! k = Some (VTime x) -> x <= t -> cumple d (Hasta k t) = true.
Proof. intros H Hle. unfold cumple. rewrite H. apply Z.leb_le. assumption. Qed.

Lemma seleccion_In fs l p :
  In p (seleccion fs l) <-> In p l /\ cumple_todos fs (snd p) = true.
Proof. unfold seleccion. apply filter_In. Qed.

Lemma seleccion_vacia fs l :
  seleccion fs l = [] <-> forall p, In p l -> cumple_todos fs (snd p) = false.
Proof.
  split.
  - intros H p Hp. destruct (cumple_todos fs (snd p)) eqn:E; [|reflexivity].
    assert (In p (seleccion fs l)) as Hin by (apply seleccion_In; auto).
    rewrite H in Hin. destruct Hin.
  - intros H. destruct (seleccion fs l) as [|p r] eqn:E; [reflexivity|].
    assert (In p (seleccion fs l)) as Hin by (rewrite E; left; reflexivity).
    apply seleccion_In in Hin as [Hin Hc]. rewrite (H p Hin) in Hc. discriminate.
Qed.

Lemma seleccion_no_vacia fs l :
  seleccion fs l <> [] <-> exists p, In p l /\ cumple_todos fs (snd p) = true.
Proof.
  split.
  - destruct (seleccion fs l) as [|p r] eqn:E; [congruence|]. intros _.
    exists p. apply seleccion_In. rewrite E. left; reflexivity.
  - intros (p & Hp) E. apply seleccion_In in Hp. rewrite E in Hp. destruct Hp.
Qed.

Lemma esAdministrador_falso uid w :
  verdadero uid = false -> esAdministrador uid w = (Ok false, w).
Proof. intros H. unfold esAdministrador. rewrite H. reflexivity. Qed.

Lemma esAdministrador_run uid w :
  verdadero uid = true ->
  esAdministrador uid w =
    (Ok (negb (admin_caido w)
         && negb (bool_decide (seleccion [Igual "uidClient" uid] (admins w) = []))),
     anota (EvConsulta Admin [Igual "uidClient" uid]) w).
Proof.
  intros H. unfold esAdministrador. rewrite H. simpl.
  unfold consulta. desmonta.
  destruct (admin_caido w); reflexivity.
Qed.

(** The check only adds to the log. *)
Lemma esAdministrador_mundo uid w :
  let w' := snd (esAdministrador uid w) in
  citas w' = citas w /\ admins w' = admins w /\ dispositivos w' = dispositivos w
  /\ notificaciones w' = notificaciones w /\ hora_servidor w' = hora_servidor w
  /\ ahora w' = ahora w /\ siguiente w' = siguiente w
  /\ admin_caido w' = admin_caido w.
Proof.
  destruct (verdadero uid) eqn:E.
  - rewrite esAdministrador_run by assumption. simpl. tauto.
  - rewrite esAdministrador_falso by assumption. simpl. tauto.
Qed.

(** C4. [esAdministrador] answers [false] and leaves the world, log
    included, as it was when the identity is absent (undefined, null or
    empty); when the lookup of [Admin] fails it answers [false] and throws
    nothing; otherwise it answers [true] exactly when some document of
    [Admin] has the identity as its [uidClient]. *)
Theorem esAdministrador_correcto (uid : Valor) (w : Mundo) :
  (verdadero uid = false -> esAdministrador uid w = (Ok false, w))
  /\ (verdadero uid = true -> admin_caido w = true ->
      fst (esAdministrador uid w) = Ok false)
  /\ (verdadero uid = true -> admin_caido w = false ->
      exists b : bool,
        fst (esAdministrador uid w) = Ok b
        /\ (b = true <->
            exists id d, In (id, d) (admins w) /\ d !! "uidClient" = Some uid)).
Proof.
  split; [apply esAdministrador_falso|].
  split.
  - intros Hv Hc. rewrite esAdministrador_run, Hc by assumption. reflexivity.
  - intros Hv Hc. rewrite esAdministrador_run, Hc by assumption. simpl.
    eexists; split; [reflexivity|].
    rewrite negb_true_iff, bool_decide_eq_false, seleccion_no_vacia.
    split.
    + intros ([id d] & Hp & Hc'). exists id, d. split; [assumption|].
      simpl in Hc'. rewrite andb_true_r in Hc'.
      apply bool_decide_eq_true in Hc'. assumption.
    + intros (id & d & Hin & Hd). exists (id, d). split; [assumption|].
      simpl. rewrite andb_true_r. apply bool_decide_eq_true. assumption.
Qed.

(** ** Admission: [crearCita] *)

Lemma alta_run c d w :
  alta c d w =
    (Ok ("auto-" +:+ pretty (siguiente w)),
     avanza (con_docs c
               (docs c w ++ [("auto-" +:+ pretty (siguiente w),
                              sella (hora_servidor w) d)])%list
               (anota (EvAlta c ("auto-" +:+ pretty (siguiente w))
                              (sella (hora_servidor w) d)) w))).
Proof. unfold alta. desmonta. destruct c; reflexivity. Qed.

Section Admision.

Variable P : Plataforma.

(** The run of [crearCita] for an authenticated caller and a date that is
    a string, step by step. *)
Lemma crearCita_pasos data uid w :
  typeof (campo data "fecha") = "string" ->
  crearCita P data {| auth := Some uid |} w =
    if (2 <=? length (rechazos P uid w))%nat then
      (Lanza (HttpsError failed_precondition msg_bloqueo), tras_rechazos P uid w)
    else
      match nuevaFecha P (campo data "fecha") with
      | None =>
          (Lanza (HttpsError internal msg_fecha_invalida), tras_rechazos P uid w)
      | Some f =>
          if bool_decide (del_dia P uid f w = []) then
            alta Citas (nuevaCita data uid f) (tras_dia P uid f w)
          else
            (Lanza (HttpsError already_exists msg_mismo_dia), tras_dia P uid f w)
      end.
Proof.
  intros Ht. unfold crearCita, validarTipo. simpl auth.
  rewrite Ht. cbn [String.eqb Ascii.eqb Bool.eqb negb].
  unfold intenta, liga at 1 2 3. cbn [ret lee].
  rewrite consulta_ok by discriminate.
  change (docs Citas w) with (citas w).
  fold (rechazos P uid w). fold (tras_rechazos P uid w).
  unfold si_lanza.
  destruct (2 <=? length (rechazos P uid w))%nat; [reflexivity|].
  cbn [ret]. unfold liga at 1.
  destruct (nuevaFecha P (campo data "fecha")) as [f|];
    cbn [fmap option_fmap option_map aTimestamp];
    unfold liga, ret, lanza; [|reflexivity].
  rewrite consulta_ok by discriminate.
  change (docs Citas (tras_rechazos P uid w)) with (citas w).
  fold (del_dia P uid f w). fold (tras_dia P uid f w).
  destruct (bool_decide (del_dia P uid f w = [])); cbn [negb]; [|reflexivity].
  destruct (alta Citas (nuevaCita data uid f) (tras_dia P uid f w)) as [[a|e] w'] eqn:E;
    [reflexivity|].
  rewrite alta_run in E. discriminate.
Qed.

Lemma crearCita_sin_sesion data w :
  crearCita P data {| auth := None |} w =
    (Lanza (HttpsError unauthenticated "Debes iniciar sesión"), w).
Proof. reflexivity. Qed.

Lemma typeof_cadena v : typeof v = "string" <-> exists s, v = VStr s.
Proof.
  split.
  - destruct v; simpl; try discriminate. eauto.
  - intros [s ->]. reflexivity.
Qed.

Lemma crearCita_sin_cadena data uid w :
  typeof (campo data "fecha") <> "string" ->
  crearCita P data {| auth := Some uid |} w =
    (Lanza (HttpsError invalid_argument "El campo fecha debe ser string."), w).
Proof.
  intros Ht. unfold crearCita, validarTipo. simpl auth.
  assert (String.eqb (typeof (campo data "fecha")) "string" = false) as E.
  { apply String.eqb_neq. assumption. }
  rewrite E. reflexivity.
Qed.

Lemma rechazo_reciente_cumple uid w d :
  rechazo_reciente P uid w d ->
  cumple_todos (filtros_rechazos uid (subMonths P (ahora w) 1)) d = true.
Proof.
  intros (Hu & He & t & Ht & Hle).
  unfold cumple_todos, filtros_rechazos. cbn [forallb].
  rewrite !cumple_Igual by assumption.
  rewrite (cumple_Desde _ _ _ t) by assumption. reflexivity.
Qed.

Lemma cita_del_dia_cumple uid f d :
  cita_del_dia P uid f d ->
  cumple_todos (filtros_dia uid (startOfDay P f) (endOfDay P f)) d = true.
Proof.
  intros (Hu & t & Ht & Hlo & Hhi).
  unfold cumple_todos, filtros_dia. cbn [forallb].
  rewrite cumple_Igual by assumption.
  rewrite (cumple_Desde _ _ _ t), (cumple_Hasta _ _ _ t) by assumption.
  reflexivity.
Qed.

End Admision.

Lemma uno_en_filtro {A} (p : A -> bool) (l : list A) (j : nat) (y : A) :
  l !! j = Some y -> p y = true -> (1 <= length (List.filter p l))%nat.
Proof.
  revert j. induction l as [|a r IH]; intros j Hj Hy; [discriminate|].
  simpl. destruct j as [|j]; simpl in Hj.
  - injection Hj as ->. rewrite Hy. simpl. lia.
  - specialize (IH j Hj Hy). destruct (p a); simpl; lia.
Qed.

Lemma dos_en_filtro {A} (p : A -> bool) (l : list A) (i j : nat) (x y : A) :
  (i < j)%nat -> l !! i = Some x -> l !! j = Some y ->
  p x = true -> p y = true -> (2 <= length (List.filter p l))%nat.
Proof.
  revert i j. induction l as [|a r IH]; intros i j Hij Hi Hj Hx Hy; [discriminate|].
  destruct j as [|j]; [lia|]. simpl in Hj. simpl.
  destruct i as [|i]; simpl in Hi.
  - injection Hi as ->. rewrite Hx. simpl.
    pose proof (uno_en_filtro p r j y Hj Hy). lia.
  - assert (i < j)%nat as Hij' by lia.
    specialize (IH i j Hij' Hi Hj Hx Hy). destruct (p a); simpl; lia.
Qed.

Section AdmisionTeoremas.

Variable P : Plataforma.

(** C7, as amended.  [crearCita] fails with [unauthenticated] when the
    call carries no identity, and with [invalid-argument] when the [fecha]
    of the payload is missing or is not a string; in both cases the world
    is left untouched: no query, no write.  (Whether a string parses as a
    date is not checked here.) *)
Theorem crearCita_precondiciones (data : Doc) (context : Contexto) (w : Mundo) :
  (auth context = None ->
   crearCita P data context w =
     (Lanza (HttpsError unauthenticated "Debes iniciar sesión"), w))
  /\ (forall uid, auth context = Some uid ->
      typeof (campo data "fecha") <> "string" ->
      crearCita P data context w =
        (Lanza (HttpsError invalid_argument "El campo fecha debe ser string."), w)).
Proof.
  destruct context as [a]. simpl. split.
  - intros ->. apply crearCita_sin_sesion.
  - intros uid -> Ht. apply crearCita_sin_cadena. assumption.
Qed.

(** C2, as amended.  For an authenticated caller whose payload carries a
    date string: when at least two of the caller's appointments are
    rejected and were created at or after the instant one calendar month
    before now ([subMonths(now, 1)], bound included), [crearCita] fails
    with [failed-precondition] whatever the date is; the only call made is
    the query of the gate and [Citas] is unchanged. *)
Theorem crearCita_bloqueo (data : Doc) (uid : string) (w : Mundo)
    (i j : nat) (c1 c2 : string * Doc) :
  typeof (campo data "fecha") = "string" ->
  (i < j)%nat ->
  citas w !! i = Some c1 ->
  citas w !! j = Some c2 ->
  rechazo_reciente P uid w (snd c1) ->
  rechazo_reciente P uid w (snd c2) ->
  let r := crearCita P data {| auth := Some uid |} w in
  fst r = Lanza (HttpsError failed_precondition msg_bloqueo)
  /\ citas (snd r) = citas w
  /\ bitacora (snd r) =
       (bitacora w
        ++ [EvConsulta Citas (filtros_rechazos uid (subMonths P (ahora w) 1))])%list.
Proof.
  intros Ht Hij Hi Hj H1 H2 r. subst r.
  rewrite crearCita_pasos by assumption.
  assert (2 <= length (rechazos P uid w))%nat as Hlen.
  { unfold rechazos, seleccion.
    apply (dos_en_filtro _ (citas w) i j c1 c2 Hij Hi Hj);
      apply rechazo_reciente_cumple; assumption. }
  apply Nat.leb_le in Hlen. rewrite Hlen. auto.
Qed.

Lemma crearCita_orden data uid w :
  exists f id d,
    bitacora (snd (crearCita P data {| auth := Some uid |} w))
    = (bitacora w ++ match fst (crearCita P data {| auth := Some uid |} w) with
                     | Ok _ => llamadas_crearCita P uid w f id d
                     | Lanza (HttpsError already_exists _) =>
                         firstn 2 (llamadas_crearCita P uid w f id d)
                     | Lanza (HttpsError invalid_argument _) => []
                     | Lanza _ => firstn 1 (llamadas_crearCita P uid w f id d)
                     end)%list.
Proof.
  destruct (decide (typeof (campo data "fecha") = "string")) as [Ht|Ht].
  - rewrite crearCita_pasos by assumption.
    destruct (2 <=? length (rechazos P uid w))%nat.
    { exists 0, "", ∅. reflexivity. }
    destruct (nuevaFecha P (campo data "fecha")) as [f|].
    2:{ exists 0, "", ∅. reflexivity. }
    destruct (bool_decide (del_dia P uid f w = [])).
    + rewrite alta_run.
      exists f, ("auto-" +:+ pretty (siguiente w)),
             (sella (hora_servidor w) (nuevaCita data uid f)).
      cbn. rewrite <- !app_assoc. reflexivity.
    + exists f, "", ∅. cbn. rewrite <- app_assoc. reflexivity.
  - rewrite crearCita_sin_cadena by assumption.
    exists 0, "", ∅. cbn. rewrite app_nil_r. reflexivity.
Qed.

(** C3.  For an authenticated caller with a date string that parses and
    fewer than two counted rejections: when the caller already has an
    appointment, of any status, dated within the local day of the requested
    date, [crearCita] fails with [already-exists]; the calls made are the
    query of the rejection gate and then the query of the one-per-day gate,
    and nothing is written.  In every run the calls are an initial part of
    the sequence rejection query, day query, write. *)
Theorem crearCita_una_por_dia (data : Doc) (uid : string) (w : Mundo) :
  let r := crearCita P data {| auth := Some uid |} w in
  (forall (f : Z) (c : string * Doc),
      typeof (campo data "fecha") = "string" ->
      nuevaFecha P (campo data "fecha") = Some f ->
      (length (rechazos P uid w) < 2)%nat ->
      In c (citas w) ->
      cita_del_dia P uid f (snd c) ->
      fst r = Lanza (HttpsError already_exists msg_mismo_dia)
      /\ citas (snd r) = citas w
      /\ bitacora (snd r) =
           (bitacora w
            ++ [EvConsulta Citas (filtros_rechazos uid (subMonths P (ahora w) 1));
                EvConsulta Citas
                  (filtros_dia uid (startOfDay P f) (endOfDay P f))])%list)
  /\ (exists f id d,
        bitacora (snd r) `prefix_of`
          (bitacora w ++ llamadas_crearCita P uid w f id d)%list
        /\ (bitacora w `prefix_of` bitacora (snd r))).
Proof.
  intros r. subst r. split.
  - intros f c Ht Hf Hlt Hin Hdia.
    rewrite crearCita_pasos by assumption.
    apply Nat.ltb_lt in Hlt. rewrite Nat.ltb_antisym in Hlt.
    apply negb_true_iff in Hlt. rewrite Hlt, Hf.
    assert (del_dia P uid f w <> []) as Hne.
    { apply seleccion_no_vacia. exists c. split; [assumption|].
      apply cita_del_dia_cumple. assumption. }
    rewrite bool_decide_eq_false_2 by assumption.
    cbn. rewrite <- app_assoc. auto.
  - destruct (crearCita_orden data uid w) as (f & id & d & H).
    exists f, id, d. rewrite H. split.
    + apply prefix_app.
      destruct (fst (crearCita P data {| auth := Some uid |} w)) as [?|[[]|]];
        cbn; try apply prefix_nil; try reflexivity;
        try (apply prefix_cons; apply prefix_nil);
        apply prefix_cons; apply prefix_cons; apply prefix_nil.
    + apply prefix_app_r. reflexivity.
Qed.

Ltac campo_sellado :=
  unfold sella, nuevaCita; rewrite lookup_fmap; by simplify_map_eq.

(** C6.  After a successful [crearCita] the collection holds one more
    document, under the id returned: its [estado_solicitud] and
    [estado_atendida] are ['espera'], its [uid_cliente] is the caller's
    identity whatever the payload said, [createdAt] and [updatedAt] are the
    time of the store, and [fecha] is the timestamp of the parsed date. *)
Theorem crearCita_persistido (data : Doc) (context : Contexto) (w : Mundo)
    (id : string) :
  fst (crearCita P data context w) = Ok id ->
  exists uid f d,
    auth context = Some uid
    /\ nuevaFecha P (campo data "fecha") = Some f
    /\ citas (snd (crearCita P data context w)) = (citas w ++ [(id, d)])%list
    /\ d !! "estado_solicitud" = Some (VStr "espera")
    /\ d !! "estado_atendida" = Some (VStr "espera")
    /\ d !! "uid_cliente" = Some (VStr uid)
    /\ d !! "createdAt" = Some (VTime (hora_servidor w))
    /\ d !! "updatedAt" = Some (VTime (hora_servidor w))
    /\ d !! "fecha" = Some (VTime f).
Proof.
  destruct context as [[uid|]]; [|rewrite crearCita_sin_sesion; discriminate].
  destruct (decide (typeof (campo data "fecha") = "string")) as [Ht|Ht];
    [|rewrite crearCita_sin_cadena by assumption; discriminate].
  rewrite crearCita_pasos by assumption.
  destruct (2 <=? length (rechazos P uid w))%nat; [discriminate|].
  destruct (nuevaFecha P (campo data "fecha")) as [f|]; [|discriminate].
  destruct (bool_decide (del_dia P uid f w = [])); [|discriminate].
  rewrite alta_run. cbn [fst snd]. intros [= <-].
  exists uid, f, (sella (hora_servidor w) (nuevaCita data uid f)).
  split; [reflexivity|]. split; [reflexivity|]. split; [reflexivity|].
  repeat split; campo_sellado.
Qed.

End AdmisionTeoremas.

(** ** Moderation: [actualizarCita] *)

Lemma cambio_run c id campos w d :
  busca id (docs c w) = Some d ->
  cambio c id campos w =
    (Ok tt,
     con_docs c (reemplaza id (fun d => sella (hora_servidor w) campos ∪ d) (docs c w))
              (anota (EvCambio c id (sella (hora_servidor w) campos)) w)).
Proof.
  intros H. unfold cambio. desmonta.
  replace (docs c (anota (EvCambio c id (sella (hora_servidor w) campos)) w))
    with (docs c w) by (destruct c; reflexivity).
  rewrite H. reflexivity.
Qed.

Lemma campos_solo_rechazo (campos : Doc) :
  (size campos =? 1)%nat
  && igual_estricto (campo campos "estado_solicitud") (VStr "rechazada") = true
  <-> campos = solo_rechazo.
Proof.
  split.
  - intros H. apply andb_true_iff in H as [Hs He].
    apply Nat.eqb_eq in Hs.
    assert (campos !! "estado_solicitud" = Some (VStr "rechazada")) as Hl.
    { unfold campo in He. destruct (campos !! "estado_solicitud") as [v|];
        [|discriminate].
      destruct v; simpl in He; try discriminate.
      apply bool_decide_eq_true in He. congruence. }
    assert (delete "estado_solicitud" campos = ∅) as Hd.
    { apply map_size_empty_inv.
      pose proof (map_size_delete_Some "estado_solicitud" campos (ltac:(eauto))).
      lia. }
    unfold solo_rechazo.
    rewrite <- (insert_delete_id campos "estado_solicitud" (VStr "rechazada") Hl).
    rewrite Hd. reflexivity.
  - intros ->. reflexivity.
Qed.

(** The run of [actualizarCita] for a caller with an identity on an
    appointment that exists. *)
Lemma actualizarCita_pasos data uid id citaData w :
  uid <> "" ->
  campo data "id" = VStr id ->
  id <> "" ->
  busca id (citas w) = Some citaData ->
  actualizarCita data {| auth := Some uid |} w =
    let campos := delete "id" data in
    if es_admin uid w then
      (Ok tt, tras_cambio uid id (<["updatedAt" := MarcaServidor]> (Dato <$> campos)) w)
    else if negb (igual_estricto (campo citaData "uid_cliente") (VStr uid)) then
      (Lanza (HttpsError internal msg_ajena), tras_lectura uid id w)
    else if (size campos =? 1)%nat
            && igual_estricto (campo campos "estado_solicitud") (VStr "rechazada")
    then (Ok tt, tras_cambio uid id
                   (<["updatedAt" := MarcaServidor]> (Dato <$> solo_rechazo)) w)
    else (Lanza (HttpsError internal msg_solo_cancelar), tras_lectura uid id w).
Proof.
  intros Hu Hid Hne Hb. unfold actualizarCita. cbn [auth].
  rewrite Hid.
  assert (verdadero (VStr uid) = true) as Hv.
  { simpl. apply negb_true_iff, String.eqb_neq. assumption. }
  rewrite Hv. cbn [negb si_lanza].
  unfold intenta, liga at 1 2. cbn [ret].
  rewrite esAdministrador_run by assumption. fold (es_admin uid w).
  unfold liga at 1, referencia.
  apply String.eqb_neq in Hne. rewrite Hne. cbn [ret].
  unfold liga at 1, lectura. desmonta. rewrite Hb.
  destruct (es_admin uid w).
  - erewrite cambio_run by (simpl; eassumption). reflexivity.
  - destruct (negb (igual_estricto (campo citaData "uid_cliente") (VStr uid)));
      [reflexivity|].
    destruct ((size (delete "id" data) =? 1)%nat
              && igual_estricto (campo (delete "id" data) "estado_solicitud")
                                (VStr "rechazada")); [|reflexivity].
    erewrite cambio_run by (simpl; eassumption). reflexivity.
Qed.

(** Whatever the handler throws inside its [try], the caller is given the
    code [internal]. *)
Lemma actualizarCita_siempre_interno data context w e :
  fst (actualizarCita data context w) = Lanza e ->
  exists m, e = HttpsError internal m.
Proof.
  unfold actualizarCita, intenta.
  match goal with |- context [let (r, w') := ?m w in _] => destruct (m w) as [[a|e'] w'] end.
  - discriminate.
  - cbn. intros [= <-]. eauto.
Qed.

(** ** Listing: [consultarCitas] *)

Lemma In_inserta k x y l : In y (inserta k x l) <-> y = x \/ In y l.
Proof.
  induction l as [|a r IH]; simpl.
  - intuition.
  - destruct (antes_o_igual k x a); simpl; [intuition|].
    rewrite IH. intuition.
Qed.

Lemma In_ordena k y l : In y (ordena k l) <-> In y l.
Proof.
  induction l as [|a r IH]; simpl; [tauto|].
  rewrite In_inserta, IH. intuition.
Qed.

Lemma In_pagina k tope cursor l y : In y (pagina k tope cursor l) -> In y l.
Proof.
  unfold pagina. intros H.
  assert (In y (match cursor with
                | Some cur =>
                    List.filter (fun p => negb (antes_o_igual k p cur))
                      (ordena k (List.filter
                                   (fun p => bool_decide (is_Some (snd p !! k))) l))
                | None =>
                    ordena k (List.filter
                                (fun p => bool_decide (is_Some (snd p !! k))) l)
                end)) as H'.
  { destruct tope as [n|]; [|assumption].
    apply list_elem_of_In. apply (subseteq_take n). apply list_elem_of_In.
    assumption. }
  assert (In y (ordena k (List.filter
                            (fun p => bool_decide (is_Some (snd p !! k))) l))) as H''.
  { destruct cursor; [|assumption]. apply filter_In in H'. tauto. }
  apply In_ordena, filter_In in H''. tauto.
Qed.

Lemma tope_de_mundo v w : snd (tope_de v w) = w.
Proof.
  unfold tope_de. destruct (verdadero v); [|reflexivity].
  destruct v; try reflexivity. destruct (0 <? n); reflexivity.
Qed.

Lemma lectura_run c id w :
  lectura c id w = (Ok (busca id (docs c w)), anota (EvLectura c id) w).
Proof. unfold lectura. desmonta. destruct c; reflexivity. Qed.

Lemma con_id_campo (p : string * Doc) k : k <> "id" -> con_id p !! k = snd p !! k.
Proof.
  intros H. unfold con_id. apply lookup_union_l.
  apply lookup_singleton_ne. congruence.
Qed.

Lemma cumple_propias uid (d : Doc) :
  cumple_todos [Igual "uid_cliente" (VStr uid);
                Distinto "estado_solicitud" (VStr "rechazada")] d = true ->
  d !! "uid_cliente" = Some (VStr uid)
  /\ exists e, d !! "estado_solicitud" = Some e /\ e <> VStr "rechazada".
Proof.
  unfold cumple_todos. cbn [forallb cumple]. rewrite andb_true_r.
  intros H. apply andb_true_iff in H as [H1 H2].
  apply bool_decide_eq_true in H1. split; [assumption|].
  destruct (d !! "estado_solicitud") as [e|]; [|discriminate].
  exists e. split; [reflexivity|].
  apply negb_true_iff, bool_decide_eq_false in H2. assumption.
Qed.

Section Listado.

Variable P : Plataforma.

(** Every list that [consultarCitas] returns to a caller who is not an
    administrator is a page of the caller's own query. *)
Lemma consultarCitas_pagina data uid w l :
  fst (esAdministrador (VStr uid) w) = Ok false ->
  fst (consultarCitas P data {| auth := Some uid |} w) = Ok l ->
  exists tope cursor,
    l = map con_id (pagina "fecha" tope cursor (seleccion (filtros_propias uid) (citas w))).
Proof.
  intros Hno. unfold consultarCitas. cbn [auth]. unfold intenta.
  match goal with
  | |- fst (let (r, w') := ?m w in _) = _ -> _ =>
      destruct (m w) as [[a|e] w1] eqn:E; [|discriminate]
  end.
  cbn [fst]. intros [= ->].
  revert E. unfold liga at 1.
  destruct (si_lanza _ _ w) as [[[]|e] w0] eqn:E0; [|discriminate].
  assert (w0 = w) as ->.
  { unfold si_lanza in E0. destruct (negb (verdadero (VStr uid)));
      [discriminate|]. injection E0 as <-. reflexivity. }
  unfold liga at 1.
  pose proof (esAdministrador_mundo (VStr uid) w) as Hm. cbn zeta in Hm.
  destruct (esAdministrador (VStr uid) w) as [[b|e] w2]; [|discriminate].
  cbn [fst snd] in Hno, Hm. injection Hno as ->.
  unfold liga at 1.
  pose proof (tope_de_mundo
                match campo data "limit" with VUndef => VNum 20 | v => v end w2) as Ht.
  destruct (tope_de _ w2) as [[tope|e] w3]; [|discriminate].
  cbn [snd] in Ht. subst w3.
  unfold liga at 1.
  match goal with
  | |- (let (r, w') := ?m w2 in _) = _ -> _ =>
      destruct (m w2) as [[cursor|e] w4] eqn:Ec; [|discriminate]
  end.
  assert (citas w4 = citas w2) as Hc4.
  { destruct (verdadero (campo data "lastDocId")).
    - revert Ec. unfold liga at 1, referencia.
      destruct (campo data "lastDocId") as [| | | |s|];
        try (unfold lanza; discriminate).
      destruct (String.eqb s ""); [unfold lanza; discriminate|].
      unfold ret at 1. unfold liga. rewrite lectura_run. unfold ret.
      intros [= _ <-]. reflexivity.
    - injection Ec as _ <-. reflexivity. }
  unfold liga at 1.
  destruct (startAfter "fecha" cursor w4) as [[[]|e] w5] eqn:Es; [|discriminate].
  assert (w5 = w4) as ->.
  { unfold startAfter in Es. destruct cursor as [[? d]|].
    - unfold si_lanza in Es.
      destruct (negb (bool_decide (is_Some (d !! "fecha"))));
        unfold ret, lanza in Es; [discriminate|].
      injection Es as <-. reflexivity.
    - unfold ret in Es. injection Es as <-. reflexivity. }
  cbn [liga ret]. unfold liga at 1. cbn [ret].
  unfold consulta_ordenada, liga. rewrite consulta_ok by discriminate.
  cbn [ret]. intros [= <- _].
  exists tope, cursor. cbn [docs]. rewrite Hc4.
  destruct Hm as [-> _]. reflexivity.
Qed.

(** C10.  For a caller with an identity whom the check does not find to be
    an administrator: every record that [consultarCitas] returns is one of
    the stored appointments whose [uid_cliente] is the caller and whose
    [estado_solicitud] is present and is not ['rechazada'], whatever the
    payload asks for; and with no [limit] and no [lastDocId] in the payload
    the call does return: the first twenty such appointments by date. *)
Theorem consultarCitas_solo_propias (data : Doc) (uid : string) (w : Mundo) :
  uid <> "" ->
  fst (esAdministrador (VStr uid) w) = Ok false ->
  (forall l r,
      fst (consultarCitas P data {| auth := Some uid |} w) = Ok l ->
      In r l ->
      exists c,
        In c (citas w) /\ r = con_id c
        /\ snd c !! "uid_cliente" = Some (VStr uid)
        /\ (exists e, snd c !! "estado_solicitud" = Some e /\ e <> VStr "rechazada")
        /\ r !! "uid_cliente" = Some (VStr uid)
        /\ r !! "estado_solicitud" <> Some (VStr "rechazada"))
  /\ (campo data "limit" = VUndef ->
      campo data "lastDocId" = VUndef ->
      fst (consultarCitas P data {| auth := Some uid |} w)
      = Ok (map con_id
              (pagina "fecha" (Some 20%nat) None
                 (seleccion (filtros_propias uid) (citas w))))).
Proof.
  intros Hu Hno. split.
  - intros l r Hl Hr.
    destruct (consultarCitas_pagina data uid w l Hno Hl) as (tope & cursor & ->).
    apply in_map_iff in Hr as (c & <- & Hc).
    apply In_pagina, seleccion_In in Hc as [Hin Hcum].
    apply cumple_propias in Hcum as (Hown & e & He & Hne).
    exists c. repeat split; try assumption; try reflexivity.
    + eauto.
    + rewrite con_id_campo by discriminate. assumption.
    + rewrite con_id_campo by discriminate. rewrite He. congruence.
  - intros Hlim Hlast.
    assert (verdadero (VStr uid) = true) as Hv.
    { simpl. apply negb_true_iff, String.eqb_neq. assumption. }
    rewrite esAdministrador_run in Hno by assumption. cbn [fst] in Hno.
    unfold consultarCitas. cbn [auth]. rewrite Hv, Hlim, Hlast.
    cbn [negb si_lanza verdadero].
    unfold intenta, liga at 1 2. cbn [ret].
    rewrite esAdministrador_run by assumption.
    injection Hno as ->.
    unfold tope_de. cbn [verdadero Z.eqb negb Z.ltb Z.compare Pos.compare].
    unfold liga, ret, startAfter, consulta_ordenada, liga, ret.
    rewrite consulta_ok by discriminate. reflexivity.
Qed.

End Listado.

(** ** Notifications *)

Lemma envios_app l1 l2 : envios (l1 ++ l2) = (envios l1 ++ envios l2)%list.
Proof.
  induction l1 as [|e r IH]; [reflexivity|].
  destruct e; simpl; rewrite IH; reflexivity.
Qed.

Lemma guardarNotificacion_run uid titulo tipo mensaje imagen w :
  guardarNotificacion uid titulo tipo mensaje imagen w =
    (Ok tt,
     tras_registro (registro uid titulo tipo mensaje imagen (hora_servidor w)) w).
Proof.
  unfold guardarNotificacion, intenta, liga. rewrite alta_run. reflexivity.
Qed.

Lemma registro_campos uid titulo tipo mensaje imagen t :
  let d := registro uid titulo tipo mensaje imagen t in
  d !! "uid_usuario" = Some uid
  /\ d !! "titulo" = Some titulo
  /\ d !! "tipo" = Some (VStr tipo)
  /\ d !! "mensaje" = Some (VStr mensaje)
  /\ d !! "imagen" = Some (match imagen with VUndef => VNull | v => v end)
  /\ d !! "createdAt" = Some (VTime t).
Proof.
  cbn zeta. unfold registro, sella.
  repeat split; rewrite lookup_fmap; by simplify_map_eq.
Qed.

Lemma sendEachForMulticast_mundo tokens n w :
  snd (sendEachForMulticast tokens n w) = anota (EvEnvio tokens n) w.
Proof.
  unfold sendEachForMulticast. desmonta.
  destruct (500 <? Z.of_nat (length tokens)); reflexivity.
Qed.

Lemma sendEachForMulticast_ok tokens n w :
  (length tokens <= 500)%nat ->
  sendEachForMulticast tokens n w = (Ok tt, anota (EvEnvio tokens n) w).
Proof.
  intros H. unfold sendEachForMulticast. desmonta.
  destruct (500 <? Z.of_nat (length tokens)) eqn:E; [|reflexivity].
  apply Z.ltb_lt in E. lia.
Qed.

Lemma igual_estricto_falso a b : a <> b -> igual_estricto a b = false.
Proof.
  intros H. unfold igual_estricto.
  destruct a, b; try reflexivity; apply bool_decide_eq_false; assumption.
Qed.

Lemma igual_estricto_cadena s v :
  igual_estricto v (VStr s) = bool_decide (v = VStr s).
Proof.
  unfold igual_estricto. destruct v; reflexivity.
Qed.

Lemma mensaje_cambio_otro estado titulo :
  estado <> VStr "aceptada" -> estado <> VStr "rechazada" ->
  mensaje_cambio estado titulo = None.
Proof.
  intros H1 H2. unfold mensaje_cambio.
  rewrite !igual_estricto_falso by assumption. reflexivity.
Qed.

Lemma igual_estricto_mismo a :
  igual_estricto a a = false -> exists t, a = VTime t.
Proof.
  unfold igual_estricto.
  destruct a; try (rewrite bool_decide_eq_true_2 by reflexivity; discriminate).
  eauto.
Qed.

(** The run of [notificarCambioCita] when the new status is one of the two
    that have a sentence. *)
Lemma notificarCambioCita_pasos before after mensaje w :
  igual_estricto (campo after "estado_solicitud") (campo before "estado_solicitud")
  = false ->
  mensaje_cambio (campo after "estado_solicitud")
                 (o_logico (campo after "escenario_nombre") (VStr "Cita"))
  = Some mensaje ->
  let uid := campo after "uid_cliente" in
  let titulo := o_logico (campo after "escenario_nombre") (VStr "Cita") in
  let imagen := campo after "escenario_img_principal" in
  let d := registro uid titulo "Confirmación" mensaje imagen (hora_servidor w) in
  let w1 := anota (EvConsulta Dispositivos
                     [Igual "uid_usuario" uid; Igual "activo" (VBool true)])
                  (tras_registro d w) in
  snd (notificarCambioCita before after w) =
    match tokens_activos uid w with
    | [] => w1
    | tokens =>
        anota (EvEnvio tokens {| title := titulo; body := mensaje;
                                 image := Some (o_logico imagen (VStr "")) |}) w1
    end.
Proof.
  intros Hd Hm. cbn zeta. unfold notificarCambioCita.
  rewrite Hd, Hm. unfold liga at 1. rewrite guardarNotificacion_run.
  unfold liga. rewrite consulta_ok by discriminate.
  change (docs Dispositivos (tras_registro _ w)) with (dispositivos w).
  fold (tokens_activos (campo after "uid_cliente") w).
  destruct (tokens_activos (campo after "uid_cliente") w) as [|t r] eqn:E.
  - reflexivity.
  - cbn [length Nat.ltb Nat.leb]. apply sendEachForMulticast_mundo.
Qed.

(** C5, as amended.  On the snapshots before and after an update of an
    appointment: when [estado_solicitud] is unchanged, or its new value is
    neither ['aceptada'] nor ['rechazada'], nothing is written and nothing is
    pushed.  When it changed to one of the two, and the appointment has a
    [uid_cliente], one record is added to [Notificaciones] whose recipient
    is the [uid_cliente] of the appointment,
    whose title is the scenario name, or ["Cita"] when the appointment has no
    name or an empty one, whose category is ['Confirmación'], whose body is
    the sentence of the new status naming that title, whose image is the
    principal image, or [null] when the appointment has none, and whose
    [createdAt] is the time of the store; and at most one multicast is made,
    to the active tokens of the recipient, exactly when there is one. *)
Theorem notificarCambioCita_transicion (before after : Doc) (w : Mundo) :
  let r := notificarCambioCita before after w in
  let estado := campo after "estado_solicitud" in
  let uid := campo after "uid_cliente" in
  let titulo := o_logico (campo after "escenario_nombre") (VStr "Cita") in
  let imagen := campo after "escenario_img_principal" in
  (estado = campo before "estado_solicitud" -> r = (Ok tt, w))
  /\ (estado <> VStr "aceptada" -> estado <> VStr "rechazada" -> r = (Ok tt, w))
  /\ (forall verbo : string,
        uid <> VUndef ->
        estado <> campo before "estado_solicitud" ->
        (estado = VStr "aceptada" /\ verbo = "confirmada")
        \/ (estado = VStr "rechazada" /\ verbo = "rechazada") ->
        let mensaje :=
          "Tu cita para " +:+ aTexto titulo +:+ " ha sido " +:+ verbo +:+ "." in
        (exists id d,
            notificaciones (snd r) = (notificaciones w ++ [(id, d)])%list
            /\ d !! "uid_usuario" = Some uid
            /\ d !! "titulo" = Some titulo
            /\ d !! "tipo" = Some (VStr "Confirmación")
            /\ d !! "mensaje" = Some (VStr mensaje)
            /\ d !! "imagen" = Some (match imagen with VUndef => VNull | v => v end)
            /\ d !! "createdAt" = Some (VTime (hora_servidor w)))
        /\ envios (bitacora (snd r)) =
             (envios (bitacora w)
              ++ match tokens_activos uid w with
                 | [] => []
                 | tokens =>
                     [(tokens, {| title := titulo; body := mensaje;
                                  image := Some (o_logico imagen (VStr "")) |})]
                 end)%list).
Proof.
  cbn zeta. split; [|split].
  - intros Heq. unfold notificarCambioCita. rewrite <- Heq.
    destruct (igual_estricto (campo after "estado_solicitud")
                             (campo after "estado_solicitud")) eqn:E;
      [reflexivity|].
    apply igual_estricto_mismo in E as [t ->]. reflexivity.
  - intros H1 H2. unfold notificarCambioCita.
    rewrite mensaje_cambio_otro by assumption.
    destruct (igual_estricto _ _); reflexivity.
  - intros verbo _ Hne Hcaso.
    assert (mensaje_cambio (campo after "estado_solicitud")
              (o_logico (campo after "escenario_nombre") (VStr "Cita"))
            = Some ("Tu cita para "
                    +:+ aTexto (o_logico (campo after "escenario_nombre") (VStr "Cita"))
                    +:+ " ha sido " +:+ verbo +:+ ".")) as Hm.
    { destruct Hcaso as [[-> ->]|[-> ->]]; reflexivity. }
    rewrite (notificarCambioCita_pasos before after _ w
               (igual_estricto_falso _ _ Hne) Hm).
    pose proof (registro_campos (campo after "uid_cliente")
                  (o_logico (campo after "escenario_nombre") (VStr "Cita"))
                  "Confirmación"
                  ("Tu cita para "
                   +:+ aTexto (o_logico (campo after "escenario_nombre") (VStr "Cita"))
                   +:+ " ha sido " +:+ verbo +:+ ".")
                  (campo after "escenario_img_principal") (hora_servidor w)) as Hr.
    cbn zeta in Hr. split.
    + eexists _, _. split; [|exact Hr].
      destruct (tokens_activos (campo after "uid_cliente") w); reflexivity.
    + destruct (tokens_activos (campo after "uid_cliente") w); cbn [bitacora anota tras_registro avanza con_docs];
        rewrite !envios_app; cbn [envios]; rewrite ?app_nil_r; reflexivity.
Qed.

(** *** Batches *)

(** Every multicast of the loop of [notificarNuevoEscenario] carries at most
    [batchSize] tokens. *)
Lemma enviar_lotes_limite tokens n i w :
  exists nuevos,
    envios (bitacora (snd (enviar_lotes tokens n i w)))
    = (envios (bitacora w) ++ nuevos)%list
    /\ Forall (fun e => (length (fst e) <= batchSize)%nat) nuevos.
Proof.
  revert w. funelim (enviar_lotes tokens n i); intros w.
  - unfold liga.
    rewrite sendEachForMulticast_ok by (rewrite length_take; unfold batchSize; lia).
    match goal with
    | IH : unit -> Mundo -> forall w, exists _, _ |- _ =>
        destruct (IH tt w (anota (EvEnvio (take batchSize (drop i tokens)) n) w))
          as (nuevos & Hn & Hall)
    end.
    exists ((take batchSize (drop i tokens), n) :: nuevos). split.
    + rewrite Hn. cbn [bitacora anota]. rewrite envios_app. cbn [envios].
      rewrite <- app_assoc. reflexivity.
    + constructor; [|assumption]. cbn [fst]. rewrite length_take. lia.
  - exists []. rewrite app_nil_r. split; [reflexivity|constructor].
Qed.

Lemma notificarNuevoEscenario_lotes escenario w :
  exists nuevos,
    envios (bitacora (snd (notificarNuevoEscenario escenario w)))
    = (envios (bitacora w) ++ nuevos)%list
    /\ Forall (fun e => (length (fst e) <= 500)%nat) nuevos.
Proof.
  unfold notificarNuevoEscenario, liga. rewrite consulta_ok by discriminate.
  match goal with
  | |- context [enviar_lotes ?t ?n 0%nat ?w'] =>
      destruct (enviar_lotes_limite t n 0%nat w') as (nuevos & Hn & Hall)
  end.
  exists nuevos. split; [|exact Hall].
  rewrite Hn. cbn [bitacora anota]. rewrite envios_app. cbn [envios].
  rewrite app_nil_r. reflexivity.
Qed.

(** *** The daily reminder *)

Lemma recordar_sin_tokens cita w :
  tokens_todos (campo cita "uid_cliente") w = [] ->
  recordar cita w =
    (Ok tt,
     anota (EvConsulta Dispositivos [Igual "uid_usuario" (campo cita "uid_cliente")]) w).
Proof.
  intros H. unfold recordar, liga. rewrite consulta_ok by discriminate.
  change (docs Dispositivos w) with (dispositivos w).
  fold (tokens_todos (campo cita "uid_cliente") w). rewrite H. reflexivity.
Qed.

Lemma recordar_con_tokens cita w :
  let uid := campo cita "uid_cliente" in
  let cuerpo := "Recuerda tu cita próxima en " +:+ aTexto (campo cita "escenario_nombre") in
  tokens_todos uid w <> [] ->
  (length (tokens_todos uid w) <= 500)%nat ->
  recordar cita w =
    (Ok tt,
     tras_registro
       (registro uid (VStr "Recordatorio") "recordatorio" cuerpo VUndef
                 (hora_servidor w))
       (anota (EvEnvio (tokens_todos uid w)
                       {| title := VStr "Recordatorio de Cita"; body := cuerpo;
                          image := None |})
              (anota (EvConsulta Dispositivos [Igual "uid_usuario" uid]) w))).
Proof.
  cbn zeta. intros Hne Hlen. unfold recordar, liga.
  rewrite consulta_ok by discriminate.
  change (docs Dispositivos w) with (dispositivos w).
  fold (tokens_todos (campo cita "uid_cliente") w).
  destruct (tokens_todos (campo cita "uid_cliente") w) as [|t r] eqn:E;
    [congruence|].
  cbn [length Nat.ltb Nat.leb].
  rewrite sendEachForMulticast_ok by assumption.
  rewrite guardarNotificacion_run. reflexivity.
Qed.

(** *** What [actualizarCita] decides *)

Lemma actualizarCita_decision data uid id citaData w :
  uid <> "" ->
  campo data "id" = VStr id ->
  id <> "" ->
  busca id (citas w) = Some citaData ->
  let r := actualizarCita data {| auth := Some uid |} w in
  (es_admin uid w = true -> fst r = Ok tt)
  /\ (es_admin uid w = false ->
      campo citaData "uid_cliente" <> VStr uid ->
      fst r = Lanza (HttpsError internal msg_ajena) /\ citas (snd r) = citas w)
  /\ (es_admin uid w = false ->
      campo citaData "uid_cliente" = VStr uid ->
      (delete "id" data = solo_rechazo ->
       r = (Ok tt, tras_cambio uid id
                     (<["updatedAt" := MarcaServidor]> (Dato <$> solo_rechazo)) w))
      /\ (delete "id" data <> solo_rechazo ->
          fst r = Lanza (HttpsError internal msg_solo_cancelar)
          /\ citas (snd r) = citas w)).
Proof.
  intros Hu Hid Hne Hb. cbn zeta.
  rewrite (actualizarCita_pasos data uid id citaData w Hu Hid Hne Hb). cbn zeta.
  rewrite igual_estricto_cadena.
  split; [|split].
  - intros ->. reflexivity.
  - intros -> Hno. rewrite bool_decide_eq_false_2 by assumption. auto.
  - intros -> Hown. rewrite bool_decide_eq_true_2 by assumption. cbn [negb].
    split.
    + intros Hs. apply campos_solo_rechazo in Hs. rewrite Hs. reflexivity.
    + intros Hs.
      destruct ((size (delete "id" data) =? 1)%nat
                && igual_estricto (campo (delete "id" data) "estado_solicitud")
                                  (VStr "rechazada")) eqn:E; [|auto].
      apply campos_solo_rechazo in E. contradiction.
Qed.

(** The fields a client's cancellation writes: the status and the time. *)
Lemma escritura_cliente t :
  sella t (<["updatedAt" := MarcaServidor]> (Dato <$> solo_rechazo))
  = {["estado_solicitud" := VStr "rechazada"; "updatedAt" := VTime t]}.
Proof.
  apply map_eq. intros k. unfold sella, solo_rechazo.
  rewrite lookup_fmap.
  destruct (decide (k = "updatedAt")) as [->|H1]; [by simplify_map_eq|].
  destruct (decide (k = "estado_solicitud")) as [->|H2]; [by simplify_map_eq|].
  by simplify_map_eq.
Qed.

(** * Runs on concrete worlds *)

(** ** Moderation *)

(** C1.  Beto, who is neither an administrator nor the owner, asks to cancel
    Ana's appointment: [actualizarCita] throws ['permission-denied'] inside
    its [try], and its [catch] hands the caller the code [internal]; so does
    Ana's own request to accept her appointment.  The first revision of the
    handler answers the same requests with [permission-denied]. *)
Theorem actualizarCita_permiso_como_interno :
  fst (actualizarCita (cancela "c1") (sesion "beto") mundo_ana)
  = Lanza (HttpsError internal "No tienes permiso sobre esta cita.")
  /\ fst (actualizarCita {["id" := VStr "c1"; "estado_solicitud" := VStr "aceptada"]}
                         (sesion "ana") mundo_ana)
     = Lanza (HttpsError internal "Los clientes solo pueden cancelar su cita.")
  /\ fst (Anterior.actualizarCita (cancela "c1") (sesion "beto") mundo_ana)
     = Lanza (HttpsError permission_denied "No es tu cita")
  /\ fst (Anterior.actualizarCita
            {["id" := VStr "c1"; "estado_solicitud" := VStr "aceptada"]}
            (sesion "ana") mundo_ana)
     = Lanza (HttpsError permission_denied "El cliente solo puede cancelar la cita").
Proof. repeat split; vm_compute; reflexivity. Qed.

(** The first revision of [esAdministrador] has no [catch]: while the lookup
    of [Admin] fails it throws, where the second answers [false]. *)
Lemma esAdministrador_anterior_propaga :
  fst (Anterior.esAdministrador (VStr "root") mundo_sin_admin)
  = Lanza (ErrorJS "UNAVAILABLE")
  /\ fst (esAdministrador (VStr "root") mundo_sin_admin) = Ok false.
Proof. split; vm_compute; reflexivity. Qed.

(** ** Notifications *)

(** C8.  Ana has 501 active devices and her appointment is accepted:
    [notificarCambioCita] makes one multicast that carries all 501 tokens. *)
Theorem notificarCambioCita_sin_lotes :
  envios (bitacora (snd (notificarCambioCita cita_bosque cita_aceptada mundo_muchos)))
  = [(tokens_activos (VStr "ana") mundo_muchos, aviso_bosque)]
  /\ length (tokens_activos (VStr "ana") mundo_muchos) = 501%nat.
Proof. split; vm_compute; reflexivity. Qed.

(** C9.  Ana's only device is registered as not active, so she has no
    active token; the sweep still pushes the reminder to that device and
    adds a record to [Notificaciones]. *)
Theorem recordatorioDiario_dispositivo_inactivo :
  tokens_activos (VStr "ana") mundo_recordatorio = []
  /\ envios (bitacora (snd (recordatorioDiario utc mundo_recordatorio)))
     = [([VStr "tok"],
         {| title := VStr "Recordatorio de Cita";
            body := "Recuerda tu cita próxima en Bosque"; image := None |})]
  /\ length (notificaciones (snd (recordatorioDiario utc mundo_recordatorio))) = 1%nat.
Proof. repeat split; vm_compute; reflexivity. Qed.

(** C5, as stated, fails: an appointment booked without a scenario name is
    accepted; the record written has the title ["Cita"] and a body that
    names ["Cita"], while the appointment has no scenario name at all. *)
Lemma notificarCambioCita_sin_nombre :
  campo cita_sin_nombre_aceptada "escenario_nombre" = VUndef
  /\ notificaciones
       (snd (notificarCambioCita cita_sin_nombre cita_sin_nombre_aceptada mundo_ana))
     = [("auto-0",
         registro (VStr "ana") (VStr "Cita") "Confirmación"
                  "Tu cita para Cita ha sido confirmada." VUndef
                  (hora_servidor mundo_ana))]
  /\ registro (VStr "ana") (VStr "Cita") "Confirmación"
              "Tu cita para Cita ha sido confirmada." VUndef
              (hora_servidor mundo_ana) !! "titulo"
     <> Some (campo cita_sin_nombre_aceptada "escenario_nombre").
Proof.
  split; [vm_compute; reflexivity|].
  split; [vm_compute; reflexivity|].
  vm_compute. discriminate.
Qed.

(** ** Admission *)

(** C2, as stated, fails.  At noon of 15 March 2023 Ana has two rejections
    created 29 days earlier, inside the trailing 30 days; one calendar month
    back is 15 February, so the gate counts neither, and the appointment is
    created.  And with two rejections of 1 March, a payload whose date is
    missing is refused with [invalid-argument], not [failed-precondition]. *)
Lemma crearCita_rechazos_de_29_dias :
  (ahora (mundo_rechazos (instante "2023-02-14T12:00:00Z")) - 30 * ms_dia
   < instante "2023-02-14T12:00:00Z"
   <= ahora (mundo_rechazos (instante "2023-02-14T12:00:00Z")))
  /\ citas (mundo_rechazos (instante "2023-02-14T12:00:00Z"))
     = [("r1", rechazo_de "ana" (instante "2023-02-14T12:00:00Z"));
        ("r2", rechazo_de "ana" (instante "2023-02-14T12:00:00Z"))]
  /\ fst (crearCita utc (pide "2023-03-20T10:00:00Z") (sesion "ana")
                    (mundo_rechazos (instante "2023-02-14T12:00:00Z")))
     = Ok "auto-0"
  /\ length (citas (snd (crearCita utc (pide "2023-03-20T10:00:00Z") (sesion "ana")
                                   (mundo_rechazos (instante "2023-02-14T12:00:00Z")))))
     = 3%nat
  /\ fst (crearCita utc ∅ (sesion "ana")
                    (mundo_rechazos (instante "2023-03-01T12:00:00Z")))
     = Lanza (HttpsError invalid_argument "El campo fecha debe ser string.").
Proof.
  split; [split; vm_compute; [reflexivity|discriminate]|].
  repeat split; vm_compute; reflexivity.
Qed.

(** C7, as stated, fails.  The date ["pronto"] is a string that does not
    parse.  For Ana with two recent rejections the call runs the query of
    the rejection gate and fails with [failed-precondition]; for Ana without
    them the query of the gate is made all the same. *)
Lemma crearCita_fecha_ilegible :
  nuevaFecha utc (campo (pide "pronto") "fecha") = None
  /\ fst (crearCita utc (pide "pronto") (sesion "ana")
                    (mundo_rechazos (instante "2023-03-01T12:00:00Z")))
     = Lanza (HttpsError failed_precondition msg_bloqueo)
  /\ bitacora (snd (crearCita utc (pide "pronto") (sesion "ana")
                             (mundo_rechazos (instante "2023-03-01T12:00:00Z"))))
     = [EvConsulta Citas (filtros_rechazos "ana" (instante "2023-02-15T12:00:00Z"))]
  /\ bitacora (snd (crearCita utc (pide "pronto") (sesion "ana") mundo_ana))
     = [EvConsulta Citas (filtros_rechazos "ana" (instante "2024-04-29T09:00:00Z"))].
Proof. repeat split; vm_compute; reflexivity. Qed.

(** ** The theorems at work *)

Lemma esAdministrador_correcto_witness :
  esAdministrador VNull mundo_ana = (Ok false, mundo_ana)
  /\ fst (esAdministrador (VStr "root") mundo_sin_admin) = Ok false
  /\ exists b : bool,
       fst (esAdministrador (VStr "root") mundo_ana) = Ok b
       /\ (b = true <->
           exists id d, In (id, d) (admins mundo_ana)
                        /\ d !! "uidClient" = Some (VStr "root")).
Proof.
  split; [|split].
  - destruct (esAdministrador_correcto VNull mundo_ana) as (H & _ & _).
    apply H. reflexivity.
  - destruct (esAdministrador_correcto (VStr "root") mundo_sin_admin) as (_ & H & _).
    apply H; reflexivity.
  - destruct (esAdministrador_correcto (VStr "root") mundo_ana) as (_ & _ & H).
    apply H; reflexivity.
Defined.

Lemma crearCita_precondiciones_witness :
  crearCita utc (pide "2024-06-02T09:00:00Z") {| auth := None |} mundo_ana
  = (Lanza (HttpsError unauthenticated "Debes iniciar sesión"), mundo_ana)
  /\ crearCita utc {["fecha" := VNum 1717318800000]} (sesion "ana") mundo_ana
     = (Lanza (HttpsError invalid_argument "El campo fecha debe ser string."),
        mundo_ana).
Proof.
  split.
  - destruct (crearCita_precondiciones utc (pide "2024-06-02T09:00:00Z")
                {| auth := None |} mundo_ana) as [H _].
    apply H. reflexivity.
  - destruct (crearCita_precondiciones utc {["fecha" := VNum 1717318800000]}
                (sesion "ana") mundo_ana) as [_ H].
    apply (H "ana"); [reflexivity|]. vm_compute. discriminate.
Defined.

Lemma crearCita_bloqueo_witness :
  fst (crearCita utc (pide "2023-03-20T10:00:00Z") (sesion "ana")
                 (mundo_rechazos (instante "2023-03-01T12:00:00Z")))
  = Lanza (HttpsError failed_precondition msg_bloqueo)
  /\ citas (snd (crearCita utc (pide "2023-03-20T10:00:00Z") (sesion "ana")
                           (mundo_rechazos (instante "2023-03-01T12:00:00Z"))))
     = citas (mundo_rechazos (instante "2023-03-01T12:00:00Z")).
Proof.
  destruct (crearCita_bloqueo utc (pide "2023-03-20T10:00:00Z") "ana"
              (mundo_rechazos (instante "2023-03-01T12:00:00Z")) 0%nat 1%nat
              ("r1", rechazo_de "ana" (instante "2023-03-01T12:00:00Z"))
              ("r2", rechazo_de "ana" (instante "2023-03-01T12:00:00Z")))
    as (H1 & H2 & _).
  - vm_compute. reflexivity.
  - lia.
  - reflexivity.
  - reflexivity.
  - repeat split; try (vm_compute; reflexivity).
    exists (instante "2023-03-01T12:00:00Z").
    split; vm_compute; [reflexivity|discriminate].
  - repeat split; try (vm_compute; reflexivity).
    exists (instante "2023-03-01T12:00:00Z").
    split; vm_compute; [reflexivity|discriminate].
  - split; assumption.
Defined.

Lemma crearCita_una_por_dia_witness :
  fst (crearCita utc (pide "2024-06-01T18:00:00Z") (sesion "ana") mundo_ana)
  = Lanza (HttpsError already_exists msg_mismo_dia)
  /\ citas (snd (crearCita utc (pide "2024-06-01T18:00:00Z") (sesion "ana") mundo_ana))
     = citas mundo_ana.
Proof.
  destruct (crearCita_una_por_dia utc (pide "2024-06-01T18:00:00Z") "ana" mundo_ana)
    as [H _].
  destruct (H (instante "2024-06-01T18:00:00Z") ("c1", cita_bosque))
    as (H1 & H2 & _).
  - vm_compute. reflexivity.
  - vm_compute. reflexivity.
  - vm_compute. lia.
  - left. reflexivity.
  - split; [vm_compute; reflexivity|].
    exists (instante "2024-06-01T10:00:00Z").
    split; [vm_compute; reflexivity|].
    split; vm_compute; discriminate.
  - split; assumption.
Defined.

Lemma crearCita_persistido_witness :
  exists uid f d,
    auth (sesion "ana") = Some uid
    /\ nuevaFecha utc (campo (pide_para_beto "2024-06-02T09:00:00Z") "fecha") = Some f
    /\ citas (snd (crearCita utc (pide_para_beto "2024-06-02T09:00:00Z")
                            (sesion "ana") mundo_ana))
       = (citas mundo_ana ++ [("auto-0", d)])%list
    /\ d !! "estado_solicitud" = Some (VStr "espera")
    /\ d !! "estado_atendida" = Some (VStr "espera")
    /\ d !! "uid_cliente" = Some (VStr uid)
    /\ d !! "createdAt" = Some (VTime (hora_servidor mundo_ana))
    /\ d !! "updatedAt" = Some (VTime (hora_servidor mundo_ana))
    /\ d !! "fecha" = Some (VTime f).
Proof.
  apply (crearCita_persistido utc (pide_para_beto "2024-06-02T09:00:00Z")
           (sesion "ana") mundo_ana "auto-0").
  vm_compute. reflexivity.
Defined.

Lemma notificarCambioCita_transicion_witness :
  notificarCambioCita cita_bosque
    (<["estado_atendida" := VStr "atendida"]> cita_bosque) mundo_dispositivos
  = (Ok tt, mundo_dispositivos)
  /\ notificarCambioCita cita_aceptada cita_bosque mundo_dispositivos
     = (Ok tt, mundo_dispositivos)
  /\ envios (bitacora
               (snd (notificarCambioCita cita_bosque cita_aceptada mundo_dispositivos)))
     = [([VStr "t1"; VStr "t2"], aviso_bosque)]
  /\ length (notificaciones
               (snd (notificarCambioCita cita_bosque cita_aceptada mundo_dispositivos)))
     = 1%nat.
Proof.
  split; [|split].
  - destruct (notificarCambioCita_transicion cita_bosque
                (<["estado_atendida" := VStr "atendida"]> cita_bosque)
                mundo_dispositivos) as (H & _ & _).
    apply H. vm_compute. reflexivity.
  - destruct (notificarCambioCita_transicion cita_aceptada cita_bosque
                mundo_dispositivos) as (_ & H & _).
    apply H; vm_compute; discriminate.
  - destruct (notificarCambioCita_transicion cita_bosque cita_aceptada
                mundo_dispositivos) as (_ & _ & H).
    destruct (H "confirmada") as ((id & d & Hn & _) & He).
    + vm_compute. discriminate.
    + vm_compute. discriminate.
    + left. split; vm_compute; reflexivity.
    + split.
      * rewrite He. vm_compute. reflexivity.
      * rewrite Hn. reflexivity.
Defined.

Lemma consultarCitas_solo_propias_witness :
  fst (consultarCitas utc ∅ (sesion "ana") mundo_tres)
  = Ok [con_id ("c1", cita_bosque)]
  /\ exists c,
       In c (citas mundo_tres) /\ con_id ("c1", cita_bosque) = con_id c
       /\ snd c !! "uid_cliente" = Some (VStr "ana")
       /\ (exists e, snd c !! "estado_solicitud" = Some e /\ e <> VStr "rechazada")
       /\ con_id ("c1", cita_bosque) !! "uid_cliente" = Some (VStr "ana")
       /\ con_id ("c1", cita_bosque) !! "estado_solicitud" <> Some (VStr "rechazada").
Proof.
  destruct (consultarCitas_solo_propias utc ∅ "ana" mundo_tres) as [H1 H2].
  - discriminate.
  - vm_compute. reflexivity.
  - assert (fst (consultarCitas utc ∅ (sesion "ana") mundo_tres)
            = Ok [con_id ("c1", cita_bosque)]) as Hl.
    { unfold sesion. rewrite H2 by (vm_compute; reflexivity).
      vm_compute. reflexivity. }
    split; [exact Hl|].
    apply (H1 [con_id ("c1", cita_bosque)] (con_id ("c1", cita_bosque)) Hl).
    left. reflexivity.
Defined.

(** * Further properties *)

(** ** Documents under an id *)

Lemma busca_reemplaza id f l : busca id (reemplaza id f l) = f <$> busca id l.
Proof.
  induction l as [|[i d] r IH]; [reflexivity|].
  cbn [reemplaza busca]. destruct (String.eqb i id) eqn:E; cbn [busca]; rewrite E.
  - reflexivity.
  - exact IH.
Qed.

Lemma busca_reemplaza_otro id id' f l :
  id' <> id -> busca id' (reemplaza id f l) = busca id' l.
Proof.
  intros Hne. induction l as [|[i d] r IH]; [reflexivity|].
  cbn [reemplaza busca]. destruct (String.eqb i id) eqn:E; cbn [busca].
  - apply String.eqb_eq in E. subst i.
    assert (String.eqb id id' = false) as ->; [|reflexivity].
    apply String.eqb_neq. congruence.
  - destruct (String.eqb i id'); [reflexivity|exact IH].
Qed.

Lemma ids_reemplaza id f l : map fst (reemplaza id f l) = map fst l.
Proof.
  induction l as [|[i d] r IH]; [reflexivity|].
  cbn [reemplaza]. destruct (String.eqb i id); cbn [map fst]; [reflexivity|].
  rewrite IH. reflexivity.
Qed.


Lemma mismos_documentos_refl w : mismos_documentos w w.
Proof. repeat split. Qed.

Lemma mismos_documentos_anota e w : mismos_documentos w (anota e w).
Proof. repeat split. Qed.

Lemma mismos_documentos_trans w1 w2 w3 :
  mismos_documentos w1 w2 -> mismos_documentos w2 w3 -> mismos_documentos w1 w3.
Proof.
  unfold mismos_documentos. intros (a & b & c & d) (a' & b' & c' & d').
  repeat split; congruence.
Qed.

(** ** Moderation, in general *)

(** What [actualizarCita] does before it looks at the appointment. *)
Lemma actualizarCita_previo data uid w :
  uid <> "" ->
  actualizarCita data {| auth := Some uid |} w =
    let w1 := anota (EvConsulta Admin [Igual "uidClient" (VStr uid)]) w in
    match campo data "id" with
    | VStr id =>
        if String.eqb id "" then
          (Lanza (HttpsError internal "documentPath vacio"), w1)
        else
          match busca id (citas w) with
          | None =>
              (Lanza (HttpsError internal "Cita no encontrada"),
               tras_lectura uid id w)
          | Some citaData =>
              let campos := delete "id" data in
              if es_admin uid w then
                (Ok tt, tras_cambio uid id
                          (<["updatedAt" := MarcaServidor]> (Dato <$> campos)) w)
              else if negb (igual_estricto (campo citaData "uid_cliente") (VStr uid))
              then (Lanza (HttpsError internal msg_ajena), tras_lectura uid id w)
              else if (size campos =? 1)%nat
                      && igual_estricto (campo campos "estado_solicitud")
                                        (VStr "rechazada")
              then (Ok tt, tras_cambio uid id
                             (<["updatedAt" := MarcaServidor]> (Dato <$> solo_rechazo)) w)
              else (Lanza (HttpsError internal msg_solo_cancelar),
                    tras_lectura uid id w)
          end
    | _ => (Lanza (HttpsError internal "documentPath no es una cadena"), w1)
    end.
Proof.
  intros Hu. cbn zeta.
  assert (verdadero (VStr uid) = true) as Hv.
  { cbn. apply negb_true_iff, String.eqb_neq. assumption. }
  destruct (campo data "id") as [| | | |id|] eqn:Hid;
    try (unfold actualizarCita; cbn [auth]; rewrite Hid, Hv;
         cbn [negb si_lanza]; unfold intenta, liga at 1 2; cbn [ret];
         rewrite esAdministrador_run by assumption; reflexivity).
  destruct (String.eqb id "") eqn:Hne.
  { unfold actualizarCita. cbn [auth]. rewrite Hid, Hv.
    cbn [negb si_lanza]. unfold intenta, liga at 1 2. cbn [ret].
    rewrite esAdministrador_run by assumption.
    unfold liga at 1, referencia. rewrite Hne. reflexivity. }
  destruct (busca id (citas w)) as [citaData|] eqn:Hb.
  - apply String.eqb_neq in Hne.
    apply (actualizarCita_pasos data uid id citaData w Hu Hid Hne Hb).
  - unfold actualizarCita. cbn [auth]. rewrite Hid, Hv.
    cbn [negb si_lanza]. unfold intenta, liga at 1 2. cbn [ret].
    rewrite esAdministrador_run by assumption.
    unfold liga at 1, referencia. rewrite Hne. cbn [ret].
    unfold liga at 1. rewrite lectura_run.
    change (docs Citas (anota (EvConsulta Admin [Igual "uidClient" (VStr uid)]) w))
      with (citas w).
    rewrite Hb. reflexivity.
Qed.

(** Every run of [actualizarCita]: either it fails, with the code [internal],
    and holds the documents it found; or it succeeds with one [update] on the
    appointment asked for, of the administrator's fields or of the client's
    cancellation. *)
Lemma actualizarCita_casos data context w :
  (exists m, fst (actualizarCita data context w) = Lanza (HttpsError internal m)
             /\ mismos_documentos w (snd (actualizarCita data context w)))
  \/ (exists uid id citaData campos,
        auth context = Some uid /\ uid <> ""
        /\ campo data "id" = VStr id /\ id <> ""
        /\ busca id (citas w) = Some citaData
        /\ actualizarCita data context w = (Ok tt, tras_cambio uid id campos w)
        /\ ((es_admin uid w = true
             /\ campos = <["updatedAt" := MarcaServidor]> (Dato <$> delete "id" data))
            \/ (es_admin uid w = false
                /\ campo citaData "uid_cliente" = VStr uid
                /\ delete "id" data = solo_rechazo
                /\ campos = <["updatedAt" := MarcaServidor]> (Dato <$> solo_rechazo)))).
Proof.
  destruct context as [[uid|]].
  2:{ left. eexists. split; [reflexivity|]. apply mismos_documentos_refl. }
  destruct (decide (uid = "")) as [->|Hu].
  { left. eexists. split; [reflexivity|]. apply mismos_documentos_refl. }
  rewrite (actualizarCita_previo data uid w Hu). cbn zeta.
  destruct (campo data "id") as [| | | |id|] eqn:Hid;
    try (left; eexists; split; [reflexivity|apply mismos_documentos_anota]).
  destruct (String.eqb id "") eqn:Hne.
  { left. eexists. split; [reflexivity|apply mismos_documentos_anota]. }
  apply String.eqb_neq in Hne.
  destruct (busca id (citas w)) as [citaData|] eqn:Hb.
  2:{ left. eexists. split; [reflexivity|]. repeat split. }
  destruct (es_admin uid w) eqn:Ea.
  { right. exists uid, id, citaData. eexists. repeat split; eauto. }
  rewrite igual_estricto_cadena.
  destruct (decide (campo citaData "uid_cliente" = VStr uid)) as [Ho|Ho].
  - rewrite bool_decide_eq_true_2 by assumption. cbn [negb].
    destruct ((size (delete "id" data) =? 1)%nat
              && igual_estricto (campo (delete "id" data) "estado_solicitud")
                                (VStr "rechazada")) eqn:E.
    + right. exists uid, id, citaData. eexists.
      apply campos_solo_rechazo in E. repeat split; eauto.
    + left. eexists. split; [reflexivity|]. repeat split.
  - rewrite bool_decide_eq_false_2 by assumption. cbn [negb].
    left. eexists. split; [reflexivity|]. repeat split.
Qed.
(** The document an [update] of [campos] and the time leaves. *)
Lemma campo_actualizado t (campos citaData : Doc) k :
  (sella t (<["updatedAt" := MarcaServidor]> (Dato <$> campos)) ∪ citaData) !! k
  = if decide (k = "updatedAt") then Some (VTime t)
    else match campos !! k with Some v => Some v | None => citaData !! k end.
Proof.
  rewrite lookup_union. unfold sella. rewrite lookup_fmap.
  destruct (decide (k = "updatedAt")) as [->|Hk].
  - rewrite lookup_insert_eq. cbn. destruct (citaData !! "updatedAt"); reflexivity.
  - rewrite lookup_insert_ne by congruence. rewrite lookup_fmap.
    destruct (campos !! k); cbn; destruct (citaData !! k); reflexivity.
Qed.

Lemma id_de_documento_no_vacio s : id_de_documento s = true -> s <> "".
Proof. unfold id_de_documento. intros H ->. discriminate. Qed.

(** X1.  A run of [actualizarCita] that fails leaves every document of the
    four collections as it was, and the failure has the code [internal]. *)
Theorem actualizarCita_falla_sin_escribir (data : Doc) (context : Contexto)
    (w : Mundo) (e : Excepcion) :
  fst (actualizarCita data context w) = Lanza e ->
  (exists m, e = HttpsError internal m)
  /\ mismos_documentos w (snd (actualizarCita data context w)).
Proof.
  intros He.
  destruct (actualizarCita_casos data context w)
    as [(m & Hm & Hsame)|(uid & id & cd & campos & _ & _ & _ & _ & _ & Hrun & _)].
  - rewrite Hm in He. injection He as <-. eauto.
  - rewrite Hrun in He. discriminate.
Qed.

(** X2.  An appointment that does not exist, named by an id that the store
    takes: the handler throws ['not-found'], and the caller is given the
    code [internal] with the message of that error, after the check of the
    caller and one read; nothing is written. *)
Theorem actualizarCita_inexistente (data : Doc) (uid id : string) (w : Mundo) :
  uid <> "" ->
  campo data "id" = VStr id ->
  id_de_documento id = true ->
  busca id (citas w) = None ->
  actualizarCita data {| auth := Some uid |} w
  = (Lanza (HttpsError internal "Cita no encontrada"), tras_lectura uid id w).
Proof.
  intros Hu Hid Hval Hb. pose proof (id_de_documento_no_vacio id Hval) as Hne.
  rewrite (actualizarCita_previo data uid w Hu). cbn zeta.
  rewrite Hid. apply String.eqb_neq in Hne. rewrite Hne, Hb. reflexivity.
Qed.

(** X3.  A run of [actualizarCita] that succeeds, on a payload whose keys
    other than [id] are plain field names (no path, no [undefined]),
    changes the appointment asked for and nothing else: the other
    appointments, their order and ids, and the other collections stay; in
    the appointment, [updatedAt] becomes the time of the store, every field
    of the payload other than [id] takes the payload's value, and every
    other field keeps its own. *)
Theorem actualizarCita_efecto (data : Doc) (context : Contexto) (w : Mundo) :
  cambios_llanos (delete "id" data) ->
  fst (actualizarCita data context w) = Ok tt ->
  exists id citaData nueva,
    campo data "id" = VStr id
    /\ busca id (citas w) = Some citaData
    /\ busca id (citas (snd (actualizarCita data context w))) = Some nueva
    /\ (forall k,
          nueva !! k
          = if decide (k = "updatedAt") then Some (VTime (hora_servidor w))
            else match delete "id" data !! k with
                 | Some v => Some v
                 | None => citaData !! k
                 end)
    /\ (forall id', id' <> id ->
          busca id' (citas (snd (actualizarCita data context w)))
          = busca id' (citas w))
    /\ map fst (citas (snd (actualizarCita data context w))) = map fst (citas w)
    /\ admins (snd (actualizarCita data context w)) = admins w
    /\ dispositivos (snd (actualizarCita data context w)) = dispositivos w
    /\ notificaciones (snd (actualizarCita data context w)) = notificaciones w.
Proof.
  intros _ Hok.
  destruct (actualizarCita_casos data context w)
    as [(m & Hm & _)|(uid & id & cd & campos & _ & _ & Hid & _ & Hb & Hrun & Hc)].
  { rewrite Hm in Hok. discriminate. }
  rewrite Hrun. cbn [snd tras_cambio con_docs citas admins dispositivos notificaciones
                     anota tras_lectura].
  exists id, cd. eexists. split; [exact Hid|]. split; [exact Hb|].
  split; [rewrite busca_reemplaza, Hb; reflexivity|].
  split.
  - intros k.
    destruct Hc as [[_ ->]|(_ & _ & Hs & ->)].
    + apply campo_actualizado.
    + rewrite Hs. apply campo_actualizado.
  - split; [intros id' Hne; apply busca_reemplaza_otro; assumption|].
    split; [apply ids_reemplaza|]. repeat split.
Qed.

Lemma es_admin_mismos uid w w' :
  admins w' = admins w -> admin_caido w' = admin_caido w ->
  es_admin uid w' = es_admin uid w.
Proof. intros Ha Hc. unfold es_admin. rewrite Ha, Hc. reflexivity. Qed.

Lemma doble_cambio uid id (campos' cd : Doc) w t_ahora t_servidor id' k :
  busca id (citas w) = Some cd ->
  k <> "updatedAt" ->
  busca id' (citas (tras_cambio uid id
                      (<["updatedAt" := MarcaServidor]> (Dato <$> campos'))
                      (mas_tarde t_ahora t_servidor
                         (tras_cambio uid id
                            (<["updatedAt" := MarcaServidor]> (Dato <$> campos')) w))))
    ≫= (fun d => d !! k)
  = busca id' (citas (tras_cambio uid id
                        (<["updatedAt" := MarcaServidor]> (Dato <$> campos')) w))
      ≫= (fun d => d !! k).
Proof.
  intros Hb Hk. cbn [tras_cambio con_docs citas mas_tarde hora_servidor anota
                     tras_lectura].
  destruct (decide (id' = id)) as [->|Hid'].
  - rewrite !busca_reemplaza, Hb. cbn [fmap option_fmap option_map mbind option_bind].
    rewrite !campo_actualizado.
    rewrite !decide_False by assumption.
    destruct (campos' !! k); reflexivity.
  - rewrite !busca_reemplaza_otro by assumption. reflexivity.
Qed.

(** X4.  The same request again, at any later time: it succeeds again, and
    every appointment has, [updatedAt] apart, the fields the first run left. *)
Theorem actualizarCita_idempotente (data : Doc) (context : Contexto) (w : Mundo)
    (t_ahora t_servidor : Z) :
  fst (actualizarCita data context w) = Ok tt ->
  fst (actualizarCita data context
         (mas_tarde t_ahora t_servidor (snd (actualizarCita data context w))))
  = Ok tt
  /\ forall id' k,
      k <> "updatedAt" ->
      busca id' (citas (snd (actualizarCita data context
                               (mas_tarde t_ahora t_servidor
                                  (snd (actualizarCita data context w))))))
        ≫= (fun d => d !! k)
      = busca id' (citas (snd (actualizarCita data context w)))
          ≫= (fun d => d !! k).
Proof.
  intros Hok.
  destruct (actualizarCita_casos data context w)
    as [(m & Hm & _)|(uid & id & cd & campos & Hctx & Hu & Hid & Hne & Hb & Hrun & Hc)].
  { rewrite Hm in Hok. discriminate. }
  destruct context as [a]. cbn in Hctx. subst a.
  rewrite Hrun. cbn [snd].
  assert (busca id (citas (mas_tarde t_ahora t_servidor (tras_cambio uid id campos w)))
          = Some (sella (hora_servidor w) campos ∪ cd)) as Hb1.
  { cbn. rewrite busca_reemplaza, Hb. reflexivity. }
  assert (es_admin uid (mas_tarde t_ahora t_servidor (tras_cambio uid id campos w))
          = es_admin uid w) as Ha1
      by (apply es_admin_mismos; reflexivity).
  rewrite (actualizarCita_previo data uid _ Hu). cbn zeta.
  rewrite Hid. apply String.eqb_neq in Hne. rewrite Hne, Hb1, Ha1.
  destruct Hc as [[Ea Hcampos]|(Ea & Ho & Hs & Hcampos)]; rewrite Ea; subst campos.
  - split; [reflexivity|]. cbn [snd]. intros id' k Hk.
    apply doble_cambio with (cd := cd); assumption.
  - assert (campo (sella (hora_servidor w)
                     (<["updatedAt" := MarcaServidor]> (Dato <$> solo_rechazo)) ∪ cd)
                  "uid_cliente" = VStr uid) as Ho1.
    { unfold campo. rewrite campo_actualizado. cbn. exact Ho. }
    rewrite igual_estricto_cadena, Ho1.
    rewrite bool_decide_eq_true_2 by reflexivity. cbn [negb].
    rewrite Hs.
    assert ((size solo_rechazo =? 1)%nat
            && igual_estricto (campo solo_rechazo "estado_solicitud")
                              (VStr "rechazada") = true) as -> by reflexivity.
    split; [reflexivity|]. cbn [snd]. intros id' k Hk.
    apply doble_cambio with (cd := cd); assumption.
Qed.

(** ** Admission, in general *)

Section AdmisionGeneral.

Variable P : Plataforma.

(** The world after a successful [crearCita]. *)
Lemma crearCita_exito data uid w id :
  fst (crearCita P data {| auth := Some uid |} w) = Ok id ->
  exists f,
    typeof (campo data "fecha") = "string"
    /\ nuevaFecha P (campo data "fecha") = Some f
    /\ (length (rechazos P uid w) < 2)%nat
    /\ del_dia P uid f w = []
    /\ crearCita P data {| auth := Some uid |} w
       = alta Citas (nuevaCita data uid f) (tras_dia P uid f w).
Proof.
  destruct (decide (typeof (campo data "fecha") = "string")) as [Ht|Ht];
    [|rewrite crearCita_sin_cadena by assumption; discriminate].
  rewrite crearCita_pasos by assumption.
  destruct (2 <=? length (rechazos P uid w))%nat eqn:E; [discriminate|].
  destruct (nuevaFecha P (campo data "fecha")) as [f|]; [|discriminate].
  destruct (bool_decide (del_dia P uid f w = [])) eqn:Ed; [|discriminate].
  intros _. exists f. apply Nat.leb_gt in E. apply bool_decide_eq_true in Ed.
  auto.
Qed.

(** X5.  [crearCita] never changes or removes a document: a run that fails
    leaves the four collections as they were; a run that succeeds adds one
    appointment at the end of [Citas], under the id it returns, and leaves
    the rest. *)
Theorem crearCita_solo_agrega (data : Doc) (context : Contexto) (w : Mundo) :
  (forall e, fst (crearCita P data context w) = Lanza e ->
             mismos_documentos w (snd (crearCita P data context w)))
  /\ (forall id, fst (crearCita P data context w) = Ok id ->
        exists d,
          citas (snd (crearCita P data context w)) = (citas w ++ [(id, d)])%list
          /\ admins (snd (crearCita P data context w)) = admins w
          /\ dispositivos (snd (crearCita P data context w)) = dispositivos w
          /\ notificaciones (snd (crearCita P data context w)) = notificaciones w).
Proof.
  destruct context as [[uid|]].
  2:{ rewrite crearCita_sin_sesion. split; [intros; apply mismos_documentos_refl|].
      discriminate. }
  split.
  - destruct (decide (typeof (campo data "fecha") = "string")) as [Ht|Ht].
    + rewrite crearCita_pasos by assumption.
      destruct (2 <=? length (rechazos P uid w))%nat; [repeat split|].
      destruct (nuevaFecha P (campo data "fecha")) as [f|]; [|repeat split].
      destruct (bool_decide (del_dia P uid f w = [])); [|repeat split].
      rewrite alta_run. discriminate.
    + rewrite crearCita_sin_cadena by assumption. repeat split.
  - intros id Hok. destruct (crearCita_exito data uid w id Hok) as (f & _ & _ & _ & _ & Hrun).
    rewrite Hrun in *. rewrite alta_run in *. cbn in Hok. injection Hok as <-.
    eexists. repeat split.
Qed.

(** X6.  The appointment that [crearCita] stores carries every field of the
    payload as it was sent, except the six that the handler sets itself. *)
Theorem crearCita_conserva_payload (data : Doc) (context : Contexto) (w : Mundo)
    (id : string) :
  fst (crearCita P data context w) = Ok id ->
  exists d,
    citas (snd (crearCita P data context w)) = (citas w ++ [(id, d)])%list
    /\ forall k,
        k <> "uid_cliente" -> k <> "fecha" -> k <> "estado_solicitud" ->
        k <> "estado_atendida" -> k <> "createdAt" -> k <> "updatedAt" ->
        d !! k = data !! k.
Proof.
  destruct context as [[uid|]]; [|rewrite crearCita_sin_sesion; discriminate].
  intros Hok. destruct (crearCita_exito data uid w id Hok) as (f & _ & _ & _ & _ & Hrun).
  rewrite Hrun in *. rewrite alta_run in *. cbn in Hok. injection Hok as <-.
  eexists. split; [reflexivity|].
  intros k H1 H2 H3 H4 H5 H6. unfold sella, nuevaCita.
  rewrite lookup_fmap. rewrite !lookup_insert_ne by congruence.
  rewrite lookup_fmap. destruct (data !! k); reflexivity.
Qed.

Lemma seleccion_app fs l1 l2 :
  seleccion fs (l1 ++ l2) = (seleccion fs l1 ++ seleccion fs l2)%list.
Proof. unfold seleccion. apply List.filter_app. Qed.

Lemma nuevaCita_campos data uid f t :
  sella t (nuevaCita data uid f) !! "uid_cliente" = Some (VStr uid)
  /\ sella t (nuevaCita data uid f) !! "fecha" = Some (VTime f)
  /\ sella t (nuevaCita data uid f) !! "estado_solicitud" = Some (VStr "espera").
Proof.
  unfold sella, nuevaCita. repeat split; rewrite lookup_fmap; by simplify_map_eq.
Qed.

Lemma cumple_rechazo_reciente uid w d :
  cumple_todos (filtros_rechazos uid (subMonths P (ahora w) 1)) d = true ->
  rechazo_reciente P uid w d.
Proof.
  unfold cumple_todos, filtros_rechazos. cbn [forallb cumple]. intros E.
  apply andb_true_iff in E as [E1 E]. apply andb_true_iff in E as [E2 E].
  apply andb_true_iff in E as [E3 _].
  apply bool_decide_eq_true in E1. apply bool_decide_eq_true in E2.
  split; [assumption|]. split; [assumption|].
  destruct (d !! "createdAt") as [[| | | | |t]|]; try discriminate.
  exists t. split; [reflexivity|]. apply Z.leb_le in E3. exact E3.
Qed.

Lemma filtro_uno {A} (p : A -> bool) (l : list A) :
  (1 <= length (List.filter p l))%nat ->
  exists j y, l !! j = Some y /\ p y = true.
Proof.
  induction l as [|a r IH]; cbn [List.filter length]; [lia|].
  destruct (p a) eqn:E.
  - intros _. exists 0%nat, a. auto.
  - intros H. destruct (IH H) as (j & y & Hj & Hy). exists (S j), y. auto.
Qed.

Lemma filtro_dos {A} (p : A -> bool) (l : list A) :
  (2 <= length (List.filter p l))%nat ->
  exists i j x y,
    (i < j)%nat /\ l !! i = Some x /\ l !! j = Some y /\ p x = true /\ p y = true.
Proof.
  induction l as [|a r IH]; cbn [List.filter length]; [lia|].
  destruct (p a) eqn:E.
  - cbn [length]. intros H.
    destruct (filtro_uno p r) as (j & y & Hj & Hy); [lia|].
    exists 0%nat, (S j), a, y. repeat split; auto. lia.
  - intros H. destruct (IH H) as (i & j & x & y & Hij & Hi & Hj & Hx & Hy).
    exists (S i), (S j), x, y. repeat split; auto. lia.
Qed.

(** X7.  For a payload that the store takes (field names, no [undefined],
    a date within the range of a [Timestamp]), [crearCita] succeeds exactly
    when the call carries an identity, the [fecha] of the payload is a
    string that parses, no two stored appointments are rejections of the
    caller created within the last calendar month, and the caller has no
    appointment dated within the local day asked for. *)
Theorem crearCita_exito_sii (data : Doc) (context : Contexto) (w : Mundo) :
  carga_llana data ->
  (forall f, nuevaFecha P (campo data "fecha") = Some f -> dia_en_rango P f) ->
  ((exists id, fst (crearCita P data context w) = Ok id)
   <-> exists uid f,
       auth context = Some uid
       /\ typeof (campo data "fecha") = "string"
       /\ nuevaFecha P (campo data "fecha") = Some f
       /\ (forall i j c1 c2,
             (i < j)%nat -> citas w !! i = Some c1 -> citas w !! j = Some c2 ->
             rechazo_reciente P uid w (snd c1) ->
             ~ rechazo_reciente P uid w (snd c2))
       /\ forall c, In c (citas w) -> ~ cita_del_dia P uid f (snd c)).
Proof.
  intros _ _. split.
  - intros [id Hok]. destruct context as [[uid|]];
      [|rewrite crearCita_sin_sesion in Hok; discriminate].
    destruct (crearCita_exito data uid w id Hok) as (f & Ht & Hf & Hr & Hd & _).
    exists uid, f. repeat split; try assumption.
    + intros i j c1 c2 Hij Hi Hj H1 H2.
      pose proof (dos_en_filtro
                    (fun p => cumple_todos
                                (filtros_rechazos uid (subMonths P (ahora w) 1)) (snd p))
                    (citas w) i j c1 c2 Hij Hi Hj
                    (rechazo_reciente_cumple P uid w _ H1)
                    (rechazo_reciente_cumple P uid w _ H2)) as H.
      unfold rechazos, seleccion in Hr. lia.
    + intros c Hc Hdia.
      assert (In c (del_dia P uid f w)) as Hin.
      { apply seleccion_In. split; [assumption|].
        apply cita_del_dia_cumple. assumption. }
      rewrite Hd in Hin. destruct Hin.
  - intros (uid & f & Hctx & Ht & Hf & Hr & Hd).
    destruct context as [a]. cbn in Hctx. subst a.
    rewrite crearCita_pasos by assumption.
    assert ((2 <=? length (rechazos P uid w))%nat = false) as Hr'.
    { apply Nat.leb_gt. destruct (le_lt_dec 2 (length (rechazos P uid w))) as [H|H];
        [|exact H].
      exfalso. unfold rechazos, seleccion in H.
      destruct (filtro_dos _ _ H) as (i & j & x & y & Hij & Hi & Hj & Hx & Hy).
      apply (Hr i j x y Hij Hi Hj); apply cumple_rechazo_reciente; assumption. }
    rewrite Hr', Hf.
    assert (del_dia P uid f w = []) as Hnil.
    { apply seleccion_vacia. intros c Hc.
      destruct (cumple_todos _ (snd c)) eqn:E; [|reflexivity].
      exfalso. apply (Hd c Hc).
      unfold cumple_todos, filtros_dia in E. cbn [forallb cumple] in E.
      apply andb_true_iff in E as [E1 E]. apply andb_true_iff in E as [E2 E].
      apply andb_true_iff in E as [E3 _].
      apply bool_decide_eq_true in E1. split; [assumption|].
      destruct (snd c !! "fecha") as [[| | | | |t]|]; try discriminate.
      exists t. split; [reflexivity|].
      apply Z.leb_le in E2. apply Z.leb_le in E3. lia. }
    rewrite bool_decide_eq_true_2 by assumption.
    rewrite alta_run. eexists. reflexivity.
Qed.

(** X8.  Once [crearCita] has stored an appointment, a second request of the
    same caller for a date on that local day, made in the world the first one
    left, fails with [already-exists] and stores nothing. *)
Theorem crearCita_segunda_mismo_dia (data1 data2 : Doc) (uid id : string)
    (w : Mundo) (f1 f2 : Z) :
  fst (crearCita P data1 {| auth := Some uid |} w) = Ok id ->
  nuevaFecha P (campo data1 "fecha") = Some f1 ->
  typeof (campo data2 "fecha") = "string" ->
  nuevaFecha P (campo data2 "fecha") = Some f2 ->
  startOfDay P f2 <= f1 <= endOfDay P f2 ->
  fst (crearCita P data2 {| auth := Some uid |}
         (snd (crearCita P data1 {| auth := Some uid |} w)))
  = Lanza (HttpsError already_exists msg_mismo_dia)
  /\ citas (snd (crearCita P data2 {| auth := Some uid |}
                   (snd (crearCita P data1 {| auth := Some uid |} w))))
     = citas (snd (crearCita P data1 {| auth := Some uid |} w)).
Proof.
  intros Hok Hf1 Ht2 Hf2 Hday.
  destruct (crearCita_exito data1 uid w id Hok) as (f & _ & Hf & Hr & _ & Hrun).
  rewrite Hf1 in Hf. injection Hf as <-.
  rewrite Hrun, alta_run. cbn [snd].
  set (d := sella (hora_servidor (tras_dia P uid f1 w)) (nuevaCita data1 uid f1)).
  set (w1 := avanza _).
  destruct (nuevaCita_campos data1 uid f1 (hora_servidor (tras_dia P uid f1 w)))
    as (Hu & Hfe & He). fold d in Hu, Hfe, He.
  assert (citas w1 = (citas w ++ [("auto-" +:+ pretty (siguiente w), d)])%list)
    as Hc1 by reflexivity.
  rewrite crearCita_pasos by assumption.
  assert (rechazos P uid w1 = rechazos P uid w) as ->.
  { unfold rechazos. change (ahora w1) with (ahora w). rewrite Hc1, seleccion_app.
    assert (seleccion (filtros_rechazos uid (subMonths P (ahora w) 1))
              [("auto-" +:+ pretty (siguiente w), d)] = []) as ->.
    { apply seleccion_vacia. intros c [<-|[]]. cbn [snd].
      unfold cumple_todos, filtros_rechazos. cbn [forallb cumple].
      rewrite He. rewrite (bool_decide_eq_false_2 (Some _ = Some _)) by discriminate.
      apply andb_false_r. }
    apply app_nil_r. }
  apply Nat.leb_gt in Hr. rewrite Hr, Hf2.
  assert (del_dia P uid f2 w1 <> []) as Hne.
  { apply seleccion_no_vacia. exists ("auto-" +:+ pretty (siguiente w), d).
    split; [rewrite Hc1; apply in_or_app; right; left; reflexivity|].
    apply cita_del_dia_cumple. split; [exact Hu|]. exists f1. auto. }
  rewrite bool_decide_eq_false_2 by assumption. split; reflexivity.
Qed.





End AdmisionGeneral.

(** ** Computations that only read *)

Lemma mismo_estado_refl w : mismo_estado w w.
Proof. repeat split. Qed.

Lemma mismo_estado_anota e w : mismo_estado w (anota e w).
Proof. repeat split. Qed.

Lemma mismo_estado_trans w1 w2 w3 :
  mismo_estado w1 w2 -> mismo_estado w2 w3 -> mismo_estado w1 w3.
Proof.
  unfold mismo_estado, mismos_documentos.
  intros ((a & b & c & d) & e & f & g & h) ((a' & b' & c' & d') & e' & f' & g' & h').
  repeat split; congruence.
Qed.

Lemma solo_lee_ret {A} (a : A) : solo_lee (ret a).
Proof. intros w. apply mismo_estado_refl. Qed.

Lemma solo_lee_lanza {A} e : solo_lee (@lanza A e).
Proof. intros w. apply mismo_estado_refl. Qed.

Lemma solo_lee_lee {A} (f : Mundo -> A) : solo_lee (lee f).
Proof. intros w. apply mismo_estado_refl. Qed.

Lemma solo_lee_registra e : solo_lee (registra e).
Proof. intros w. apply mismo_estado_anota. Qed.

Lemma solo_lee_si_lanza c e : solo_lee (si_lanza c e).
Proof. intros w. destruct c; apply mismo_estado_refl. Qed.

Lemma solo_lee_liga {A B} (m : M A) (f : A -> M B) :
  solo_lee m -> (forall a, solo_lee (f a)) -> solo_lee (liga m f).
Proof.
  intros Hm Hf w. unfold liga. specialize (Hm w).
  destruct (m w) as [[a|e] w1]; cbn [snd] in *; [|exact Hm].
  eapply mismo_estado_trans; [exact Hm|apply Hf].
Qed.

Lemma solo_lee_intenta {A} (m : M A) (h : Excepcion -> M A) :
  solo_lee m -> (forall e, solo_lee (h e)) -> solo_lee (intenta m h).
Proof.
  intros Hm Hh w. unfold intenta. specialize (Hm w).
  destruct (m w) as [[a|e] w1]; cbn [snd] in *; [exact Hm|].
  eapply mismo_estado_trans; [exact Hm|apply Hh].
Qed.

Lemma solo_lee_consulta c fs : solo_lee (consulta c fs).
Proof.
  unfold consulta. apply solo_lee_liga; [apply solo_lee_registra|]. intros _.
  apply solo_lee_liga; [apply solo_lee_lee|]. intros caido.
  destruct c, caido; try apply solo_lee_lanza;
    (apply solo_lee_liga; [apply solo_lee_lee|intros; apply solo_lee_ret]).
Qed.

Lemma solo_lee_lectura c id : solo_lee (lectura c id).
Proof.
  unfold lectura. apply solo_lee_liga; [apply solo_lee_registra|]. intros _.
  apply solo_lee_liga; [apply solo_lee_lee|intros; apply solo_lee_ret].
Qed.

Lemma solo_lee_referencia v : solo_lee (referencia v).
Proof.
  unfold referencia. destruct v; try apply solo_lee_lanza.
  destruct (String.eqb s ""); [apply solo_lee_lanza|apply solo_lee_ret].
Qed.

Lemma solo_lee_aTimestamp d : solo_lee (aTimestamp d).
Proof. destruct d; [apply solo_lee_ret|apply solo_lee_lanza]. Qed.

Lemma solo_lee_tope_de v : solo_lee (tope_de v).
Proof.
  unfold tope_de. destruct (verdadero v); [|apply solo_lee_ret].
  destruct v; try apply solo_lee_lanza.
  destruct (0 <? n); [apply solo_lee_ret|apply solo_lee_lanza].
Qed.

Lemma solo_lee_startAfter k c : solo_lee (startAfter k c).
Proof.
  unfold startAfter. destruct c as [[? d]|]; [apply solo_lee_si_lanza|apply solo_lee_ret].
Qed.

Lemma solo_lee_consulta_ordenada c fs k tope cursor :
  solo_lee (consulta_ordenada c fs k tope cursor).
Proof.
  unfold consulta_ordenada.
  apply solo_lee_liga; [apply solo_lee_consulta|intros; apply solo_lee_ret].
Qed.

Lemma solo_lee_esAdministrador uid : solo_lee (esAdministrador uid).
Proof.
  unfold esAdministrador. destruct (negb (verdadero uid)); [apply solo_lee_ret|].
  apply solo_lee_intenta; [|intros; apply solo_lee_ret].
  apply solo_lee_liga; [apply solo_lee_consulta|intros; apply solo_lee_ret].
Qed.

Create HintDb lecturas.
#[global] Hint Resolve solo_lee_ret solo_lee_lanza solo_lee_lee solo_lee_registra
  solo_lee_si_lanza solo_lee_consulta solo_lee_lectura solo_lee_referencia
  solo_lee_aTimestamp solo_lee_tope_de solo_lee_startAfter
  solo_lee_consulta_ordenada solo_lee_esAdministrador : lecturas.

(** ** The order of a listing *)

Lemma string_cmp_trans a b c :
  String.compare a b <> Gt -> String.compare b c <> Gt -> String.compare a c <> Gt.
Proof.
  intros Hab Hbc.
  destruct (String.compare a b) eqn:E1; [| |congruence].
  - apply String.compare_eq_iff in E1. subst. assumption.
  - destruct (String.compare b c) eqn:E2; [| |congruence].
    + apply String.compare_eq_iff in E2. subst. rewrite E1. discriminate.
    + apply OrderedTypeEx.String_as_OT.cmp_lt in E1, E2.
      pose proof (OrderedTypeEx.String_as_OT.lt_trans _ _ _ E1 E2) as H.
      apply OrderedTypeEx.String_as_OT.cmp_lt in H.
      unfold OrderedTypeEx.String_as_OT.cmp in H. rewrite H. discriminate.
Qed.

Lemma valor_cmp_trans a b c :
  valor_cmp a b <> Gt -> valor_cmp b c <> Gt -> valor_cmp a c <> Gt.
Proof.
  destruct a as [| |x|x|x|x], b as [| |y|y|y|y], c as [| |z|z|z|z];
    cbn [valor_cmp rango];
    try (intros H1 H2;
         solve [discriminate | exfalso; apply H1; reflexivity
                | exfalso; apply H2; reflexivity]).
  - destruct x, y, z; cbn; congruence.
  - rewrite !Z.compare_le_iff. lia.
  - apply string_cmp_trans.
  - rewrite !Z.compare_le_iff. lia.
Qed.

Lemma valor_cmp_antisym a b : valor_cmp b a = CompOpp (valor_cmp a b).
Proof.
  destruct a, b; cbn; try reflexivity.
  - destruct b, b0; reflexivity.
  - apply Z.compare_antisym.
  - apply String.compare_antisym.
  - apply Z.compare_antisym.
Qed.

Lemma antes_o_igual_si k x y :
  antes_o_igual k x y = true -> no_despues k (snd x) (snd y).
Proof.
  unfold antes_o_igual, no_despues.
  destruct (valor_cmp (campo (snd x) k) (campo (snd y) k)); congruence.
Qed.

Lemma antes_o_igual_no k x y :
  antes_o_igual k x y = false -> no_despues k (snd y) (snd x).
Proof.
  unfold antes_o_igual, no_despues. intros H.
  rewrite valor_cmp_antisym.
  destruct (valor_cmp (campo (snd x) k) (campo (snd y) k)); cbn; congruence.
Qed.

Lemma no_despues_trans k : Transitive (no_despues k).
Proof. intros a b c. unfold no_despues. apply valor_cmp_trans. Qed.

Lemma inserta_ordenada k x l :
  StronglySorted (fun a b => no_despues k (snd a) (snd b)) l ->
  StronglySorted (fun a b => no_despues k (snd a) (snd b)) (inserta k x l).
Proof.
  induction l as [|y r IH]; intros Hs; cbn [inserta].
  - repeat constructor.
  - apply StronglySorted_inv in Hs as [Hr Hy].
    destruct (antes_o_igual k x y) eqn:E.
    + constructor; [constructor; assumption|].
      apply antes_o_igual_si in E. constructor; [exact E|].
      rewrite List.Forall_forall in *. intros z Hz.
      eapply no_despues_trans; [exact E|]. apply Hy. assumption.
    + constructor; [apply IH; assumption|].
      apply antes_o_igual_no in E.
      rewrite List.Forall_forall in *. intros z Hz.
      apply In_inserta in Hz as [->|Hz]; [exact E|]. apply Hy. assumption.
Qed.

Lemma ordena_ordenada k l :
  StronglySorted (fun a b => no_despues k (snd a) (snd b)) (ordena k l).
Proof.
  induction l as [|x r IH]; cbn [ordena]; [constructor|].
  apply inserta_ordenada. assumption.
Qed.

Lemma StronglySorted_filtro {A} (R : A -> A -> Prop) (p : A -> bool) l :
  StronglySorted R l -> StronglySorted R (List.filter p l).
Proof.
  induction 1 as [|x l Hs IH Hx]; cbn [List.filter]; [constructor|].
  destruct (p x); [|assumption].
  constructor; [assumption|].
  rewrite List.Forall_forall in *. intros y Hy. apply filter_In in Hy as [Hy _]. auto.
Qed.

Lemma StronglySorted_firstn {A} (R : A -> A -> Prop) n l :
  StronglySorted R l -> StronglySorted R (firstn n l).
Proof.
  intros Hs. revert n. induction Hs as [|x l Hs IH Hx]; intros [|n];
    cbn [firstn]; try constructor.
  - apply IH.
  - rewrite List.Forall_forall in *. intros y Hy.
    apply Hx. apply list_elem_of_In. apply (subseteq_take n).
    apply list_elem_of_In. assumption.
Qed.

Lemma pagina_ordenada k tope cursor l :
  StronglySorted (fun a b => no_despues k (snd a) (snd b)) (pagina k tope cursor l).
Proof.
  unfold pagina.
  assert (StronglySorted (fun a b => no_despues k (snd a) (snd b))
            (match cursor with
             | Some cur =>
                 List.filter (fun p => negb (antes_o_igual k p cur))
                   (ordena k (List.filter
                                (fun p => bool_decide (is_Some (snd p !! k))) l))
             | None =>
                 ordena k (List.filter
                             (fun p => bool_decide (is_Some (snd p !! k))) l)
             end)) as H.
  { destruct cursor; [apply StronglySorted_filtro|]; apply ordena_ordenada. }
  destruct tope; [apply StronglySorted_firstn|]; exact H.
Qed.

(** ** Listing, in general *)

Section ListadoGeneral.

Variable P : Plataforma.

(** X10.  [consultarCitas] only reads: whatever the payload and the caller,
    and whether it returns or fails, no collection, clock or counter
    changes; the calls it makes are queries and reads. *)
Theorem consultarCitas_solo_lee (data : Doc) (context : Contexto) (w : Mundo) :
  mismo_estado w (snd (consultarCitas P data context w)).
Proof.
  revert w. change (solo_lee (consultarCitas P data context)).
  unfold consultarCitas.
  apply solo_lee_intenta; [|auto with lecturas].
  destruct (auth context) as [uid|]; [|auto with lecturas].
  apply solo_lee_liga; [auto with lecturas|]. intros _.
  apply solo_lee_liga; [auto with lecturas|]. intros isAdmin.
  apply solo_lee_liga; [auto with lecturas|]. intros tope.
  apply solo_lee_liga.
  { destruct (verdadero (campo data "lastDocId")); [|auto with lecturas].
    apply solo_lee_liga; [auto with lecturas|]. intros ref.
    apply solo_lee_liga; auto with lecturas. }
  intros cursor.
  apply solo_lee_liga; [auto with lecturas|]. intros _.
  apply solo_lee_liga.
  { match goal with |- solo_lee (match ?o with _ => _ end) => destruct o end;
      [auto with lecturas|].
    apply solo_lee_liga; auto with lecturas. }
  intros fs.
  apply solo_lee_liga; auto with lecturas.
Qed.

(** What a successful [consultarCitas] returns. *)
Lemma consultarCitas_exito data uid w l :
  fst (consultarCitas P data {| auth := Some uid |} w) = Ok l ->
  exists tope fs,
    uid <> ""
    /\ fst (tope_de (limite_pedido data) w) = Ok tope
    /\ filtros_consulta P (es_admin uid w) uid data = Some fs
    /\ l = map con_id (pagina "fecha" tope (cursor_pedido data w)
                          (seleccion fs (citas w))).
Proof.
  unfold consultarCitas. cbn [auth]. unfold intenta.
  match goal with
  | |- fst (let (r, w') := ?m w in _) = _ -> _ =>
      destruct (m w) as [[a|e] w1] eqn:E; [|discriminate]
  end.
  cbn [fst]. intros [= ->].
  revert E. unfold liga at 1.
  destruct (decide (uid = "")) as [->|Hu]; [discriminate|].
  assert (verdadero (VStr uid) = true) as Hv.
  { cbn. apply negb_true_iff, String.eqb_neq. assumption. }
  rewrite Hv. cbn [negb si_lanza ret].
  unfold liga at 1. rewrite esAdministrador_run by assumption.
  fold (es_admin uid w). fold (limite_pedido data).
  change (if es_admin uid w
          then _
          else Some [Igual "uid_cliente" (VStr uid);
                     Distinto "estado_solicitud" (VStr "rechazada")])
    with (filtros_consulta P (es_admin uid w) uid data).
  set (w2 := anota (EvConsulta Admin [Igual "uidClient" (VStr uid)]) w).
  unfold liga at 1.
  pose proof (tope_de_mundo (limite_pedido data) w2) as Ht.
  assert (fst (tope_de (limite_pedido data) w2) = fst (tope_de (limite_pedido data) w))
    as Htw.
  { unfold tope_de. destruct (verdadero (limite_pedido data)); [|reflexivity].
    destruct (limite_pedido data); try reflexivity. destruct (0 <? n); reflexivity. }
  destruct (tope_de (limite_pedido data) w2) as [[tope|e] w3]; [|discriminate].
  cbn [snd fst] in Ht, Htw. subst w3.
  unfold liga at 1.
  match goal with
  | |- (let (r, w') := ?m w2 in _) = _ -> _ =>
      destruct (m w2) as [[cursor|e] w4] eqn:Ec; [|discriminate]
  end.
  assert (citas w4 = citas w /\ cursor = cursor_pedido data w) as [Hc4 ->].
  { unfold cursor_pedido. destruct (verdadero (campo data "lastDocId")).
    - revert Ec. unfold liga at 1, referencia.
      destruct (campo data "lastDocId") as [| | | |s|];
        try (unfold lanza; discriminate).
      destruct (String.eqb s ""); [unfold lanza; discriminate|].
      unfold ret at 1. unfold liga. rewrite lectura_run. unfold ret.
      intros [= <- <-]. split; reflexivity.
    - injection Ec as <- <-. split; reflexivity. }
  unfold liga at 1.
  destruct (startAfter "fecha" (cursor_pedido data w) w4) as [[[]|e] w5] eqn:Es;
    [|discriminate].
  assert (w5 = w4) as ->.
  { pose proof Es as Es'. unfold startAfter in Es'.
    destruct (cursor_pedido data w) as [[? d]|].
    - unfold si_lanza in Es'.
      destruct (negb (bool_decide (is_Some (d !! "fecha"))));
        unfold ret, lanza in Es'; [discriminate|].
      injection Es' as <-. reflexivity.
    - unfold ret in Es'. injection Es' as <-. reflexivity. }
  unfold liga at 1.
  destruct (filtros_consulta P (es_admin uid w) uid data) as [fs|];
    [|unfold liga, aTimestamp, lanza; discriminate].
  cbn [ret]. unfold consulta_ordenada, liga. rewrite consulta_ok by discriminate.
  cbn [ret]. intros [= <- _].
  exists tope, fs. cbn [docs]. rewrite Hc4. rewrite <- Htw. auto.
Qed.

Lemma con_id_fecha p : campo (con_id p) "fecha" = campo (snd p) "fecha".
Proof. unfold campo. rewrite con_id_campo by discriminate. reflexivity. Qed.

Lemma map_con_id_ordenada l :
  StronglySorted (fun a b => no_despues "fecha" (snd a) (snd b)) l ->
  StronglySorted (no_despues "fecha") (map con_id l).
Proof.
  induction 1 as [|x l Hs IH Hx]; cbn [map]; constructor; [assumption|].
  rewrite List.Forall_forall in *. intros r Hr.
  apply in_map_iff in Hr as (p & <- & Hp).
  unfold no_despues. rewrite !con_id_fecha. apply Hx. assumption.
Qed.

(** X11.  The list [consultarCitas] returns is in ascending order of
    [fecha]: no record comes before one with an earlier date. *)
Theorem consultarCitas_en_orden (data : Doc) (context : Contexto) (w : Mundo)
    (l : list Doc) :
  fst (consultarCitas P data context w) = Ok l ->
  StronglySorted (no_despues "fecha") l.
Proof.
  destruct context as [[uid|]]; [|discriminate].
  intros Hok. destruct (consultarCitas_exito data uid w l Hok) as (tope & fs & _ & _ & _ & ->).
  apply map_con_id_ordenada, pagina_ordenada.
Qed.

Lemma length_pagina k n cursor l : (length (pagina k (Some n) cursor l) <= n)%nat.
Proof. unfold pagina. rewrite length_take. lia. Qed.

(** X12.  The list [consultarCitas] returns has at most [limit] records when
    the payload gives a positive [limit], and at most 20 when it gives
    none. *)
Theorem consultarCitas_tope (data : Doc) (context : Contexto) (w : Mundo)
    (l : list Doc) :
  fst (consultarCitas P data context w) = Ok l ->
  (campo data "limit" = VUndef -> (length l <= 20)%nat)
  /\ (forall n, campo data "limit" = VNum n -> 0 < n ->
                (length l <= Z.to_nat n)%nat).
Proof.
  destruct context as [[uid|]]; [|discriminate].
  intros Hok.
  destruct (consultarCitas_exito data uid w l Hok) as (tope & fs & _ & Ht & _ & ->).
  rewrite length_map. unfold limite_pedido in Ht. split.
  - intros Hl. rewrite Hl in Ht. cbn in Ht. injection Ht as <-.
    apply (length_pagina _ 20%nat).
  - intros n Hl Hn. rewrite Hl in Ht. unfold tope_de in Ht. cbn [verdadero] in Ht.
    assert ((n =? 0) = false) as E0 by (apply Z.eqb_neq; lia).
    assert ((0 <? n) = true) as E1 by (apply Z.ltb_lt; lia).
    rewrite E0, E1 in Ht. cbn in Ht. injection Ht as <-.
    apply length_pagina.
Qed.

Lemma In_pagina_completa k l c :
  In c l -> is_Some (snd c !! k) -> In c (pagina k None None l).
Proof.
  intros Hc Hk. unfold pagina. apply In_ordena. apply filter_In.
  split; [assumption|]. apply bool_decide_eq_true. assumption.
Qed.

Lemma consultarCitas_completa (data : Doc) (uid : string) (w : Mundo)
    (fs : list Filtro) :
  uid <> "" ->
  campo data "limit" <> VUndef ->
  verdadero (campo data "limit") = false ->
  verdadero (campo data "lastDocId") = false ->
  filtros_consulta P (es_admin uid w) uid data = Some fs ->
  exists l,
    fst (consultarCitas P data {| auth := Some uid |} w) = Ok l
    /\ forall c, In c (citas w) -> cumple_todos fs (snd c) = true ->
                 is_Some (snd c !! "fecha") -> In (con_id c) l.
Proof.
  intros Hu Hdef Hlim Hlast Hfs.
  assert (verdadero (VStr uid) = true) as Hv.
  { cbn. apply negb_true_iff, String.eqb_neq. assumption. }
  assert (limite_pedido data = campo data "limit") as Hlp.
  { unfold limite_pedido. destruct (campo data "limit"); congruence. }
  exists (map con_id (pagina "fecha" None None (seleccion fs (citas w)))).
  split.
  - unfold consultarCitas. cbn [auth]. rewrite Hv. cbn [negb si_lanza].
    unfold intenta, liga at 1 2. cbn [ret].
    rewrite esAdministrador_run by assumption.
    fold (es_admin uid w). fold (limite_pedido data).
    change (if es_admin uid w
            then _
            else Some [Igual "uid_cliente" (VStr uid);
                       Distinto "estado_solicitud" (VStr "rechazada")])
      with (filtros_consulta P (es_admin uid w) uid data).
    rewrite Hfs, Hlp, Hlast. unfold tope_de. rewrite Hlim.
    unfold liga, ret, startAfter, consulta_ordenada, liga, ret.
    rewrite consulta_ok by discriminate. reflexivity.
  - intros c Hc Hcum Hfe. apply in_map. apply In_pagina_completa; [|assumption].
    apply seleccion_In. auto.
Qed.

(** X13.  A [limit] that is given but falsy (0, null, false, the empty
    string) switches the limit off: with no [lastDocId], and a day asked
    for that is within the range of a [Timestamp], the list holds every
    stored appointment that has a [fecha], whose [estado_solicitud] is not
    [null], and that passes the conditions of the caller's role. *)
Theorem consultarCitas_sin_tope (data : Doc) (uid : string) (w : Mundo)
    (fs : list Filtro) :
  uid <> "" ->
  campo data "limit" <> VUndef ->
  verdadero (campo data "limit") = false ->
  verdadero (campo data "lastDocId") = false ->
  (forall d, nuevaFecha P (campo data "fecha") = Some d -> dia_en_rango P d) ->
  filtros_consulta P (es_admin uid w) uid data = Some fs ->
  exists l,
    fst (consultarCitas P data {| auth := Some uid |} w) = Ok l
    /\ forall c, In c (citas w) -> cumple_todos fs (snd c) = true ->
                 snd c !! "estado_solicitud" <> Some VNull ->
                 is_Some (snd c !! "fecha") -> In (con_id c) l.
Proof.
  intros Hu Hdef Hlim Hlast _ Hfs.
  destruct (consultarCitas_completa data uid w fs Hu Hdef Hlim Hlast Hfs)
    as (l & Hl & Hin).
  exists l. split; [exact Hl|]. intros c Hc Hcum _ Hfe. apply Hin; assumption.
Qed.

(** X14.  An administrator's listing.  With a [fecha] that parses, every
    record is dated within that local day, whoever the client and whatever
    [uid_cliente_consulta] says; with no [fecha] and a
    [uid_cliente_consulta], every record belongs to that client. *)
Theorem consultarCitas_administrador (data : Doc) (uid : string) (w : Mundo)
    (l : list Doc) :
  es_admin uid w = true ->
  fst (consultarCitas P data {| auth := Some uid |} w) = Ok l ->
  (forall d, verdadero (campo data "fecha") = true ->
             nuevaFecha P (campo data "fecha") = Some d ->
             forall r, In r l ->
                       exists t, r !! "fecha" = Some (VTime t)
                                 /\ startOfDay P d <= t <= endOfDay P d)
  /\ (verdadero (campo data "fecha") = false ->
      verdadero (campo data "uid_cliente_consulta") = true ->
      forall r, In r l ->
                r !! "uid_cliente" = Some (campo data "uid_cliente_consulta")).
Proof.
  intros Ha Hok.
  destruct (consultarCitas_exito data uid w l Hok) as (tope & fs & _ & _ & Hfs & ->).
  rewrite Ha in Hfs. unfold filtros_consulta in Hfs. split.
  - intros d Hv Hd r Hr. rewrite Hv, Hd in Hfs. injection Hfs as <-.
    apply in_map_iff in Hr as (c & <- & Hc).
    apply In_pagina, seleccion_In in Hc as [_ Hcum].
    unfold cumple_todos in Hcum. cbn [forallb cumple] in Hcum.
    apply andb_true_iff in Hcum as [E1 E]. apply andb_true_iff in E as [E2 _].
    rewrite con_id_campo by discriminate.
    destruct (snd c !! "fecha") as [[| | | | |t]|]; try discriminate.
    exists t. split; [reflexivity|].
    apply Z.leb_le in E1. apply Z.leb_le in E2. lia.
  - intros Hv Hu r Hr. rewrite Hv, Hu in Hfs. injection Hfs as <-.
    apply in_map_iff in Hr as (c & <- & Hc).
    apply In_pagina, seleccion_In in Hc as [_ Hcum].
    unfold cumple_todos in Hcum. cbn [forallb cumple] in Hcum.
    apply andb_true_iff in Hcum as [E1 _]. apply bool_decide_eq_true in E1.
    rewrite con_id_campo by discriminate. assumption.
Qed.


End ListadoGeneral.
(** ** Broadcast of a new scenario *)

Lemma envios_tras_envios lotes n w :
  envios (bitacora (tras_envios lotes n w))
  = (envios (bitacora w) ++ map (fun t => (t, n)) lotes)%list.
Proof.
  revert w. induction lotes as [|t r IH]; intros w; cbn [tras_envios fold_left map].
  - rewrite app_nil_r. reflexivity.
  - change (fold_left _ r ?x) with (tras_envios r n x). rewrite IH.
    cbn [bitacora anota]. rewrite envios_app. cbn [envios].
    rewrite <- app_assoc. reflexivity.
Qed.

Lemma mismo_estado_tras_envios lotes n w : mismo_estado w (tras_envios lotes n w).
Proof.
  revert w. induction lotes as [|t r IH]; intros w; cbn [tras_envios fold_left].
  - apply mismo_estado_refl.
  - eapply mismo_estado_trans; [apply (mismo_estado_anota (EvEnvio t n))|apply IH].
Qed.

(** The loop from index [i]: its batches, in order, are the tokens from [i]
    on, each of 1 to 500 tokens. *)
Lemma enviar_lotes_reparto tokens n i w :
  exists lotes,
    enviar_lotes tokens n i w = (Ok tt, tras_envios lotes n w)
    /\ concat lotes = skipn i tokens
    /\ Forall (fun t => (1 <= length t <= batchSize)%nat) lotes.
Proof.
  revert w. funelim (enviar_lotes tokens n i); intros w.
  - unfold liga.
    rewrite sendEachForMulticast_ok by (rewrite length_take; unfold batchSize; lia).
    match goal with
    | IH : unit -> Mundo -> forall w, exists _, _ |- _ =>
        destruct (IH tt w (anota (EvEnvio (take batchSize (drop i tokens)) n) w))
          as (lotes & Hrun & Hcat & Hall)
    end.
    exists (take batchSize (drop i tokens) :: lotes). split; [exact Hrun|]. split.
    + cbn [concat]. rewrite Hcat. rewrite <- drop_drop. apply take_drop.
    + constructor; [|assumption]. rewrite length_take, length_drop.
      unfold batchSize. lia.
  - exists []. split; [reflexivity|]. split; [|constructor].
    cbn [concat]. symmetry. apply drop_ge. lia.
Qed.

(** X16.  [notificarNuevoEscenario] reaches every active device once: its
    multicasts, in order, carry the tokens of all active devices split in
    consecutive batches of 1 to 500, each with the same payload; it never
    fails, writes no notification record and changes no document. *)
Theorem notificarNuevoEscenario_reparto (escenario : Doc) (w : Mundo) :
  exists lotes,
    fst (notificarNuevoEscenario escenario w) = Ok tt
    /\ envios (bitacora (snd (notificarNuevoEscenario escenario w)))
       = (envios (bitacora w)
          ++ map (fun t => (t, aviso_escenario escenario)) lotes)%list
    /\ concat lotes
       = tokens_de (seleccion [Igual "activo" (VBool true)] (dispositivos w))
    /\ Forall (fun t => (1 <= length t <= 500)%nat) lotes
    /\ mismo_estado w (snd (notificarNuevoEscenario escenario w)).
Proof.
  unfold notificarNuevoEscenario, liga. rewrite consulta_ok by discriminate.
  fold (aviso_escenario escenario).
  match goal with
  | |- context [enviar_lotes ?t ?n 0%nat ?w'] =>
      destruct (enviar_lotes_reparto t n 0%nat w') as (lotes & Hrun & Hcat & Hall)
  end.
  exists lotes. rewrite Hrun. cbn [fst snd]. split; [reflexivity|]. split.
  { rewrite envios_tras_envios. cbn [bitacora anota]. rewrite envios_app.
    cbn [envios]. rewrite app_nil_r. reflexivity. }
  split; [exact Hcat|]. split; [exact Hall|].
  eapply mismo_estado_trans; [apply mismo_estado_anota|apply mismo_estado_tras_envios].
Qed.

(** ** Photos ready *)

Lemma notificarFotosListas_mundo (before after : Doc) (w : Mundo) :
  campo after "estado" = VStr "entregado" ->
  campo before "estado" <> VStr "entregado" ->
  let uid := campo after "uid_cliente" in
  let w1 := anota (EvConsulta Dispositivos [Igual "uid_usuario" uid])
              (tras_registro (registro uid (VStr "Fotos Listas") "Info" msg_fotos
                                VUndef (hora_servidor w)) w) in
  snd (notificarFotosListas before after w)
  = match tokens_todos uid w with
    | [] => w1
    | tokens => anota (EvEnvio tokens {| title := VStr "Fotos Listas";
                                         body := msg_fotos; image := None |}) w1
    end.
Proof.
  intros Ha Hb. cbn zeta. unfold notificarFotosListas. rewrite Ha.
  rewrite (igual_estricto_falso _ _ Hb). cbn [igual_estricto bool_decide negb andb].
  rewrite bool_decide_eq_true_2 by reflexivity. cbn [andb].
  unfold liga. rewrite guardarNotificacion_run. rewrite consulta_ok by discriminate.
  change (docs Dispositivos (tras_registro _ w)) with (dispositivos w).
  fold (tokens_todos (campo after "uid_cliente") w).
  destruct (tokens_todos (campo after "uid_cliente") w) as [|t r] eqn:E.
  - reflexivity.
  - cbn [length Nat.ltb Nat.leb]. apply sendEachForMulticast_mundo.
Qed.


(** ** The daily reminder, in general *)

Lemma tokens_todos_mismos uid w w' :
  dispositivos w' = dispositivos w -> tokens_todos uid w' = tokens_todos uid w.
Proof. intros H. unfold tokens_todos. rewrite H. reflexivity. Qed.

(** The loop of the sweep over any list of appointments, when no client has
    more than 500 tokens. *)
Lemma para_cada_recordar l w :
  Forall (fun c => (length (tokens_todos (campo (snd c) "uid_cliente") w) <= 500)%nat) l ->
  exists w',
    para_cada l recordar w = (Ok tt, w')
    /\ envios (bitacora w') = (envios (bitacora w) ++ flat_map (envio_recordatorio w) l)%list
    /\ length (notificaciones w')
       = (length (notificaciones w) + length (flat_map (envio_recordatorio w) l))%nat
    /\ citas w' = citas w /\ dispositivos w' = dispositivos w
    /\ admins w' = admins w /\ ahora w' = ahora w.
Proof.
  revert w. induction l as [|c r IH]; intros w Hall.
  - exists w. cbn. rewrite app_nil_r. repeat split; lia.
  - apply Forall_cons in Hall as [Hc Hr]. cbn [para_cada]. unfold liga.
    assert (exists w1,
               recordar (snd c) w = (Ok tt, w1)
               /\ envios (bitacora w1) = (envios (bitacora w) ++ envio_recordatorio w c)%list
               /\ length (notificaciones w1)
                  = (length (notificaciones w) + length (envio_recordatorio w c))%nat
               /\ citas w1 = citas w /\ dispositivos w1 = dispositivos w
               /\ admins w1 = admins w /\ ahora w1 = ahora w) as (w1 & Hrun & He & Hn & Hc1 & Hd1 & Ha1 & Ht1).
    { unfold envio_recordatorio.
      destruct (tokens_todos (campo (snd c) "uid_cliente") w) as [|t ts] eqn:E.
      - rewrite recordar_sin_tokens by assumption. eexists. split; [reflexivity|].
        cbn. rewrite envios_app, !app_nil_r. repeat split; lia.
      - pose proof (recordar_con_tokens (snd c) w) as H. cbn zeta in H.
        rewrite E in H. rewrite H by (congruence || assumption).
        eexists. split; [reflexivity|].
        cbn [bitacora anota tras_registro avanza con_docs notificaciones citas
             dispositivos admins ahora].
        rewrite !envios_app. cbn [envios]. rewrite !app_nil_r, length_app.
        cbn [length]. repeat split. }
    rewrite Hrun.
    assert (Forall (fun c => (length (tokens_todos (campo (snd c) "uid_cliente") w1)
                              <= 500)%nat) r) as Hr1.
    { eapply Forall_impl; [exact Hr|]. intros a Ha. cbn beta in *.
      rewrite (tokens_todos_mismos _ w w1 Hd1). exact Ha. }
    destruct (IH w1 Hr1) as (w' & Hrun' & He' & Hn' & Hc' & Hd' & Ha' & Ht').
    assert (flat_map (envio_recordatorio w1) r = flat_map (envio_recordatorio w) r) as Hfm.
    { apply flat_map_ext. intros a. unfold envio_recordatorio.
      rewrite (tokens_todos_mismos _ w w1 Hd1). reflexivity. }
    rewrite Hfm in He', Hn'.
    exists w'. split; [exact Hrun'|]. cbn [flat_map].
    rewrite He', He, Hn', Hn, <- app_assoc, length_app.
    repeat split; try congruence. lia.
Qed.

Lemma recordatorioDiario_run (P : Plataforma) (w : Mundo) :
  Forall (fun c => (length (tokens_todos (campo (snd c) "uid_cliente") w) <= 500)%nat)
         (citas_por_recordar P w) ->
  exists w',
    recordatorioDiario P w = (Ok tt, w')
    /\ envios (bitacora w')
       = (envios (bitacora w)
          ++ flat_map (envio_recordatorio w) (citas_por_recordar P w))%list
    /\ length (notificaciones w')
       = (length (notificaciones w)
          + length (flat_map (envio_recordatorio w) (citas_por_recordar P w)))%nat
    /\ citas w' = citas w /\ dispositivos w' = dispositivos w
    /\ admins w' = admins w /\ ahora w' = ahora w.
Proof.
  intros Hall. unfold recordatorioDiario, liga, lee.
  rewrite consulta_ok by discriminate.
  change (docs Citas w) with (citas w). fold (citas_por_recordar P w).
  set (w0 := anota _ w).
  assert (dispositivos w0 = dispositivos w) as Hd0 by reflexivity.
  assert (Forall (fun c => (length (tokens_todos (campo (snd c) "uid_cliente") w0)
                            <= 500)%nat) (citas_por_recordar P w)) as Hall0.
  { eapply Forall_impl; [exact Hall|]. intros a Ha. cbn beta in *.
    rewrite (tokens_todos_mismos _ w w0 Hd0). exact Ha. }
  destruct (para_cada_recordar _ w0 Hall0) as (w' & Hrun & He & Hn & Hc & Hd & Ha & Ht).
  exists w'. split; [exact Hrun|].
  assert (flat_map (envio_recordatorio w0) (citas_por_recordar P w)
          = flat_map (envio_recordatorio w) (citas_por_recordar P w)) as Hfm.
  { apply flat_map_ext. intros a. unfold envio_recordatorio.
    rewrite (tokens_todos_mismos _ w w0 Hd0). reflexivity. }
  rewrite Hfm in He, Hn. rewrite He, Hn. subst w0. unfold anota in *.
  cbn [bitacora notificaciones] in *. rewrite envios_app. cbn [envios].
  rewrite app_nil_r. repeat split; assumption.
Qed.

Lemma recordable_tope w l :
  Forall (recordable w) l ->
  Forall (fun c => (length (tokens_todos (campo (snd c) "uid_cliente") w) <= 500)%nat) l.
Proof. intros H. eapply Forall_impl; [exact H|]. intros c [_ Hc]. exact Hc. Qed.

(** The appointments the sweep selects are the stored ones that are
    accepted and dated within the three local days from today. *)
Lemma citas_por_recordar_son (P : Plataforma) (w : Mundo) :
  citas_por_recordar P w
  = List.filter (fun c => por_recordar P w (snd c)) (citas w).
Proof.
  unfold citas_por_recordar, seleccion. apply List.filter_ext. intros c.
  unfold cumple_todos, filtros_recordatorio, por_recordar. cbn [forallb cumple].
  destruct (snd c !! "fecha") as [[| | | | |t]|]; cbn [andb];
    rewrite ?andb_false_r; try reflexivity.
  rewrite andb_true_r.
  destruct (bool_decide (snd c !! "estado_solicitud" = Some (VStr "aceptada")));
    rewrite ?andb_true_r, ?andb_false_r; reflexivity.
Qed.

(** X18.  The daily sweep, when every appointment to be reminded of has a
    client with at most 500 tokens: it never fails; going through the
    stored appointments that are accepted and dated from the start of
    today to the end of the day after tomorrow, in the order of the store,
    it makes one multicast ("Recordatorio de Cita", naming the scenario,
    no image) to all the tokens of the appointment's client, skipping the
    clients without a token; it files one record per multicast and touches
    neither the appointments nor the devices. *)
Theorem recordatorioDiario_barrido (P : Plataforma) (w : Mundo) :
  Forall (recordable w)
         (List.filter (fun c => por_recordar P w (snd c)) (citas w)) ->
  exists w',
    recordatorioDiario P w = (Ok tt, w')
    /\ envios (bitacora w')
       = (envios (bitacora w)
          ++ flat_map (envio_recordatorio w)
               (List.filter (fun c => por_recordar P w (snd c)) (citas w)))%list
    /\ length (notificaciones w')
       = (length (notificaciones w)
          + length (flat_map (envio_recordatorio w)
                      (List.filter (fun c => por_recordar P w (snd c))
                                   (citas w))))%nat
    /\ citas w' = citas w /\ dispositivos w' = dispositivos w.
Proof.
  rewrite <- citas_por_recordar_son. intros Hall.
  destruct (recordatorioDiario_run P w (recordable_tope _ _ Hall))
    as (w' & Hrun & He & Hn & Hc & Hd & _).
  exists w'. auto.
Qed.

(** X19.  The sweep keeps no memory of the reminders it sent: run again on
    the world it leaves, at the same clock, it sends every multicast a
    second time and files every record a second time. *)
Theorem recordatorioDiario_repite (P : Plataforma) (w : Mundo) :
  Forall (recordable w) (citas_por_recordar P w) ->
  let w1 := snd (recordatorioDiario P w) in
  let w2 := snd (recordatorioDiario P w1) in
  let pushes := flat_map (envio_recordatorio w) (citas_por_recordar P w) in
  fst (recordatorioDiario P w1) = Ok tt
  /\ envios (bitacora w2) = (envios (bitacora w) ++ pushes ++ pushes)%list
  /\ length (notificaciones w2)
     = (length (notificaciones w) + 2 * length pushes)%nat.
Proof.
  intros Hall. cbn zeta.
  destruct (recordatorioDiario_run P w (recordable_tope _ _ Hall))
    as (w1 & Hrun & He & Hn & Hc & Hd & _ & Ht).
  rewrite Hrun. cbn [snd].
  assert (citas_por_recordar P w1 = citas_por_recordar P w) as Hsel.
  { unfold citas_por_recordar. rewrite Hc, Ht. reflexivity. }
  assert (forall l, flat_map (envio_recordatorio w1) l = flat_map (envio_recordatorio w) l)
    as Hfm.
  { intros l. apply flat_map_ext. intros a. unfold envio_recordatorio.
    rewrite (tokens_todos_mismos _ w w1 Hd). reflexivity. }
  assert (Forall (fun c => (length (tokens_todos (campo (snd c) "uid_cliente") w1)
                            <= 500)%nat) (citas_por_recordar P w1)) as Hall1.
  { rewrite Hsel. eapply Forall_impl; [exact (recordable_tope _ _ Hall)|].
    intros a Ha. cbn beta in *. rewrite (tokens_todos_mismos _ w w1 Hd). exact Ha. }
  destruct (recordatorioDiario_run P w1 Hall1) as (w2 & Hrun2 & He2 & Hn2 & _).
  rewrite Hrun2. cbn [fst snd]. rewrite He2, Hn2, Hsel, Hfm, He, Hn, <- app_assoc.
  repeat split. lia.
Qed.

(** ** Registration of a device *)

Lemma busca_app id l l' :
  busca id (l ++ l')
  = match busca id l with Some d => Some d | None => busca id l' end.
Proof.
  induction l as [|[i d] r IH]; [reflexivity|].
  cbn [app busca]. destruct (String.eqb i id); [reflexivity|exact IH].
Qed.

Lemma con_indefinido_ficha u t p :
  con_indefinido (ficha_dispositivo u t p)
  = bool_decide (u = VUndef \/ t = VUndef \/ p = VUndef).
Proof.
  unfold con_indefinido, ficha_dispositivo. apply bool_decide_ext.
  rewrite map_Exists_lookup. split.
  - intros (k & e & Hk & ->).
    repeat (apply lookup_insert_Some in Hk as [[_ Hk]|[_ Hk]];
            [try discriminate; injection Hk as ->; auto|]).
    apply lookup_singleton_Some in Hk as [_ Hk]. injection Hk as ->. auto.
  - intros [->|[->| ->]].
    + exists "uid_usuario", (Dato VUndef). split; [|reflexivity]. by simplify_map_eq.
    + exists "token_fcm", (Dato VUndef). split; [|reflexivity]. by simplify_map_eq.
    + exists "plataforma", (Dato VUndef). split; [|reflexivity]. by simplify_map_eq.
Qed.

Lemma usuario_de_definido context : usuario_de context <> VUndef.
Proof. unfold usuario_de. destruct (auth context); discriminate. Qed.

Lemma registrarDispositivo_run data context id w :
  campo data "uid_dispositivo" = VStr id -> id <> "" ->
  campo data "token_fcm" <> VUndef -> campo data "plataforma" <> VUndef ->
  registrarDispositivo data context w
  = (Ok tt,
     tras_fija id (sella (hora_servidor w)
                     (ficha_dispositivo (usuario_de context) (campo data "token_fcm")
                        (campo data "plataforma"))) w).
Proof.
  intros Hid Hne Ht Hp. unfold registrarDispositivo, intenta, liga.
  rewrite Hid. cbn [referencia]. apply String.eqb_neq in Hne. rewrite Hne.
  fold (usuario_de context). unfold fija, liga.
  rewrite con_indefinido_ficha.
  rewrite bool_decide_eq_false_2
    by (pose proof (usuario_de_definido context); tauto).
  cbn [si_lanza ret lee registra]. unfold tras_fija.
  change (docs Dispositivos (anota _ w)) with (dispositivos w).
  destruct (busca id (dispositivos w)); reflexivity.
Qed.

Lemma ficha_campos u t p s :
  let d := sella s (ficha_dispositivo u t p) in
  d !! "uid_usuario" = Some u /\ d !! "token_fcm" = Some t
  /\ d !! "plataforma" = Some p /\ d !! "activo" = Some (VBool true)
  /\ d !! "updatedAt" = Some (VTime s)
  /\ (forall k, k ∉ claves_dispositivo -> d !! k = None).
Proof.
  cbn zeta. unfold sella, ficha_dispositivo.
  repeat split; try (rewrite lookup_fmap; by simplify_map_eq).
  intros k Hk. unfold claves_dispositivo in Hk. rewrite lookup_fmap.
  rewrite !not_elem_of_cons in Hk. destruct Hk as (H1 & H2 & H3 & H4 & H5 & _).
  rewrite !lookup_insert_ne by congruence.
  rewrite lookup_singleton_ne by congruence. reflexivity.
Qed.

Lemma busca_tras_fija id d w :
  busca id (dispositivos (tras_fija id d w))
  = Some (match busca id (dispositivos w) with Some old => d ∪ old | None => d end).
Proof.
  unfold tras_fija, con_docs. cbn [dispositivos anota].
  destruct (busca id (dispositivos w)) as [old|] eqn:E.
  - rewrite busca_reemplaza, E. reflexivity.
  - rewrite busca_app, E. cbn [busca]. rewrite String.eqb_refl. reflexivity.
Qed.

Lemma busca_tras_fija_otro id id' d w :
  id' <> id ->
  busca id' (dispositivos (tras_fija id d w)) = busca id' (dispositivos w).
Proof.
  intros Hne. unfold tras_fija, con_docs. cbn [dispositivos anota].
  destruct (busca id (dispositivos w)) as [old|] eqn:E.
  - apply busca_reemplaza_otro. exact Hne.
  - rewrite busca_app. destruct (busca id' (dispositivos w)); [reflexivity|].
    cbn [busca]. assert (String.eqb id id' = false) as ->; [|reflexivity].
    apply String.eqb_neq. congruence.
Qed.

(** X20.  A registration that names its device by an id that the store
    takes, and carries a token and a platform, succeeds, signed in or not.
    It is an upsert keyed by the device: afterwards its document holds the
    caller's uid ([null] when not signed in), the token, the platform,
    [activo] true and the store's time; any other field the document had is
    kept; every other device and every other collection is as before. *)
Theorem registrarDispositivo_efecto (data : Doc) (context : Contexto) (id : string)
    (w : Mundo) :
  campo data "uid_dispositivo" = VStr id -> id_de_documento id = true ->
  campo data "token_fcm" <> VUndef -> campo data "plataforma" <> VUndef ->
  exists w' d,
    registrarDispositivo data context w = (Ok tt, w')
    /\ busca id (dispositivos w') = Some d
    /\ d !! "uid_usuario" = Some (usuario_de context)
    /\ d !! "token_fcm" = Some (campo data "token_fcm")
    /\ d !! "plataforma" = Some (campo data "plataforma")
    /\ d !! "activo" = Some (VBool true)
    /\ d !! "updatedAt" = Some (VTime (hora_servidor w))
    /\ (forall k, k ∉ claves_dispositivo ->
                  d !! k = busca id (dispositivos w) ≫= (fun old => old !! k))
    /\ (forall id', id' <> id ->
                    busca id' (dispositivos w') = busca id' (dispositivos w))
    /\ citas w' = citas w /\ admins w' = admins w
    /\ notificaciones w' = notificaciones w.
Proof.
  intros Hid Hval Ht Hp. pose proof (id_de_documento_no_vacio id Hval) as Hne.
  rewrite (registrarDispositivo_run _ context _ w Hid Hne Ht Hp).
  pose proof (ficha_campos (usuario_de context) (campo data "token_fcm")
                (campo data "plataforma") (hora_servidor w)) as Hc.
  cbn zeta in Hc. destruct Hc as (H1 & H2 & H3 & H4 & H5 & H6).
  eexists _, _. split; [reflexivity|]. split; [apply busca_tras_fija|].
  destruct (busca id (dispositivos w)) as [old|] eqn:E.
  - repeat split;
      try (apply lookup_union_Some_l; assumption);
      try (intros id' Hid'; apply busca_tras_fija_otro; exact Hid').
    intros k Hk. cbn [mbind option_bind]. rewrite lookup_union_r by auto. reflexivity.
  - repeat split; try assumption;
      intros id' Hid'; apply busca_tras_fija_otro; exact Hid'.
Qed.

(** X21.  A registration that does not name its device by a non-empty
    string, or lacks the token or the platform, fails with code [internal]
    and writes nothing. *)
Theorem registrarDispositivo_rechazo (data : Doc) (context : Contexto) (w : Mundo) :
  (forall id, campo data "uid_dispositivo" = VStr id -> id = "")
  \/ campo data "token_fcm" = VUndef \/ campo data "plataforma" = VUndef ->
  exists msg,
    registrarDispositivo data context w = (Lanza (HttpsError internal msg), w).
Proof.
  intros H. unfold registrarDispositivo, intenta, liga.
  fold (usuario_de context).
  destruct (campo data "uid_dispositivo") as [| |b|n|s|t] eqn:E;
    try (eexists; reflexivity).
  cbn [referencia]. destruct (String.eqb s "") eqn:Es; [eexists; reflexivity|].
  destruct H as [H|H].
  - apply String.eqb_neq in Es. destruct Es. apply H. reflexivity.
  - cbn [ret]. unfold fija, liga. rewrite con_indefinido_ficha.
    rewrite bool_decide_eq_true_2 by tauto. eexists. reflexivity.
Qed.



(** ** Profiles and photo requests *)

Lemma hallar_app {D} id (l l' : list (string * D)) :
  hallar id (l ++ l')
  = match hallar id l with Some d => Some d | None => hallar id l' end.
Proof.
  induction l as [|[i d] r IH]; [reflexivity|].
  cbn [app hallar]. destruct (String.eqb i id); [reflexivity|exact IH].
Qed.

Lemma hallar_sustituir {D} id (f : D -> D) l :
  hallar id (sustituir id f l) = f <$> hallar id l.
Proof.
  induction l as [|[i d] r IH]; [reflexivity|].
  cbn [sustituir hallar]. destruct (String.eqb i id) eqn:E; cbn [hallar]; rewrite E.
  - reflexivity.
  - exact IH.
Qed.

Lemma hallar_sustituir_otro {D} id id' (f : D -> D) l :
  id' <> id -> hallar id' (sustituir id f l) = hallar id' l.
Proof.
  intros Hne. induction l as [|[i d] r IH]; [reflexivity|].
  cbn [sustituir hallar]. destruct (String.eqb i id) eqn:E; cbn [hallar].
  - apply String.eqb_eq in E. subst i.
    assert (String.eqb id id' = false) as ->; [|reflexivity].
    apply String.eqb_neq. congruence.
  - destruct (String.eqb i id'); [reflexivity|exact IH].
Qed.

Lemma hallar_quitar {D} id (l : list (string * D)) : hallar id (quitar id l) = None.
Proof.
  unfold quitar. induction l as [|[i d] r IH]; [reflexivity|].
  cbn [List.filter fst]. destruct (String.eqb i id) eqn:E; cbn [negb].
  - exact IH.
  - cbn [hallar]. rewrite E. exact IH.
Qed.

Lemma hallar_quitar_otro {D} id id' (l : list (string * D)) :
  id' <> id -> hallar id' (quitar id l) = hallar id' l.
Proof.
  intros Hne. unfold quitar. induction l as [|[i d] r IH]; [reflexivity|].
  cbn [List.filter fst hallar]. destruct (String.eqb i id) eqn:E; cbn [negb].
  - apply String.eqb_eq in E. subst i.
    assert (String.eqb id id' = false) as ->; [|exact IH].
    apply String.eqb_neq. congruence.
  - cbn [hallar]. rewrite IH. reflexivity.
Qed.

Lemma quitar_ausente {D} id (l : list (string * D)) :
  hallar id l = None -> quitar id l = l.
Proof.
  unfold quitar. induction l as [|[i d] r IH]; [reflexivity|].
  cbn [List.filter fst hallar]. destruct (String.eqb i id) eqn:E; [discriminate|].
  intros H. cbn [negb]. rewrite IH by exact H. reflexivity.
Qed.

Lemma quitar_recien {D} id (d : D) (l : list (string * D)) :
  hallar id l = None -> quitar id (l ++ [(id, d)]) = l.
Proof.
  intros H. unfold quitar. rewrite List.filter_app. cbn [List.filter fst].
  rewrite String.eqb_refl. cbn [negb]. rewrite app_nil_r.
  apply (quitar_ausente id l H).
Qed.

(** The answer of the administrator check for the uid of a call. *)
Lemma esAdministrador_respuesta (uid : string) (w : Mundo) :
  exists w',
    esAdministrador (VStr uid) w = (Ok (administra uid w), w')
    /\ mismo_estado w w'.
Proof.
  unfold administra. destruct (String.eqb uid "") eqn:E.
  - exists w. split; [|apply mismo_estado_refl].
    apply esAdministrador_falso. cbn [verdadero]. rewrite E. reflexivity.
  - eexists. split.
    + rewrite esAdministrador_run by (cbn [verdadero]; rewrite E; reflexivity).
      reflexivity.
    + apply mismo_estado_anota.
Qed.

Lemma esAdministrador_llamada (context : Contexto) (w : Mundo) :
  exists w',
    esAdministrador (uid_opcional context) w = (Ok (administra_llamada context w), w')
    /\ mismo_estado w w'.
Proof.
  unfold uid_opcional, administra_llamada. destruct (auth context) as [uid|].
  - apply esAdministrador_respuesta.
  - exists w. split; [reflexivity|apply mismo_estado_refl].
Qed.

Lemma misma_nube_refl n : misma_nube n n.
Proof. unfold misma_nube. auto using mismos_documentos_refl. Qed.

Lemma misma_nube_mundo w n :
  mismo_estado (mundo n) w -> misma_nube n (con_mundo w n).
Proof. intros [H _]. unfold misma_nube. auto. Qed.
(** *** Deleting a profile *)

Lemma eliminarCliente_sin_sesion data context n :
  auth context = None ->
  exists m, eliminarCliente data context n = (Lanza (HttpsError internal m), n).
Proof.
  intros H. unfold eliminarCliente, intentaN, ligaN, uid_de. rewrite H.
  eexists. reflexivity.
Qed.

Lemma eliminarCliente_run data context uid n :
  auth context = Some uid ->
  exists w1,
    mismo_estado (mundo n) w1
    /\ eliminarCliente data context n
       = if negb (igual_estricto (campo data "uid_a_eliminar") (VStr uid))
            && negb (administra uid (mundo n))
         then (Lanza (HttpsError internal "No autorizado para eliminar este perfil."),
               con_mundo w1 n)
         else match campo data "uid_a_eliminar" with
              | VStr s =>
                  if String.eqb s ""
                  then (Lanza (HttpsError internal "documentPath vacio"), con_mundo w1 n)
                  else (Ok tt, con_clientes (quitar s (clientes n)) (con_mundo w1 n))
              | _ => (Lanza (HttpsError internal "documentPath no es una cadena"),
                      con_mundo w1 n)
              end.
Proof.
  intros H. destruct (esAdministrador_respuesta uid (mundo n)) as (w1 & Hrun & Hw1).
  exists w1. split; [exact Hw1|].
  unfold eliminarCliente, intentaN, ligaN, uid_de. rewrite H. cbn [retN].
  unfold eleva at 1. rewrite Hrun.
  destruct (negb (igual_estricto (campo data "uid_a_eliminar") (VStr uid))
            && negb (administra uid (mundo n))); [reflexivity|].
  cbn [si_lanzaN retN]. unfold eleva. cbn [mundo con_mundo].
  destruct (campo data "uid_a_eliminar") as [| |b|k|s|t]; try reflexivity.
  cbn [referencia]. destruct (String.eqb s ""); reflexivity.
Qed.

(** X23.  Who may delete a profile.  When the profile is not named by a
    string that the store refuses as an id, [eliminarCliente] succeeds
    exactly when the call carries an identity, the profile is named by an
    id that the store takes, and the caller names their own profile or is
    an administrator.  Every other call fails with the code [internal],
    the refusal of permission included, and leaves every document as it
    was. *)
Theorem eliminarCliente_exito_sii (data : Doc) (context : Contexto) (n : Nube) :
  (forall s, campo data "uid_a_eliminar" = VStr s -> s <> "" ->
             id_de_documento s = true) ->
  (fst (eliminarCliente data context n) = Ok tt
   <-> exists uid objetivo,
       auth context = Some uid
       /\ campo data "uid_a_eliminar" = VStr objetivo
       /\ id_de_documento objetivo = true
       /\ (objetivo = uid \/ administra uid (mundo n) = true))
  /\ (forall e, fst (eliminarCliente data context n) = Lanza e ->
                (exists m, e = HttpsError internal m)
                /\ misma_nube n (snd (eliminarCliente data context n))).
Proof.
  intros Hval.
  destruct (auth context) as [uid|] eqn:Ha.
  - destruct (eliminarCliente_run data context uid n Ha) as (w1 & Hw1 & Hrun).
    rewrite Hrun. clear Hrun. rewrite igual_estricto_cadena.
    destruct (campo data "uid_a_eliminar") as [| |b|k|s|t] eqn:Ec;
      try (rewrite bool_decide_eq_false_2 by discriminate; cbn [negb andb];
           destruct (administra uid (mundo n)); cbn [negb fst snd];
           (split; [split; [discriminate|intros (? & ? & _ & [=] & _)]|
                    intros e [= <-]; split; [eauto|apply misma_nube_mundo, Hw1]])).
    destruct (decide (s = uid)) as [->|Hne].
    + rewrite bool_decide_eq_true_2 by reflexivity. cbn [negb andb].
      destruct (String.eqb uid "") eqn:Es; cbn [fst snd].
      * split; [split; [discriminate|]|
                intros e [= <-]; split; [eauto|apply misma_nube_mundo, Hw1]].
        intros (u & o & [= <-] & [= <-] & Ho & _).
        apply String.eqb_eq in Es. apply id_de_documento_no_vacio in Ho.
        contradiction.
      * split; [|discriminate]. split; [|reflexivity]. intros _.
        exists uid, uid. apply String.eqb_neq in Es.
        split; [reflexivity|]. split; [reflexivity|].
        split; [apply Hval; [reflexivity|exact Es]|]. auto.
    + rewrite bool_decide_eq_false_2 by congruence. cbn [negb andb].
      destruct (administra uid (mundo n)) eqn:Ead; cbn [negb fst snd].
      * destruct (String.eqb s "") eqn:Es; cbn [fst snd].
        -- split; [split; [discriminate|]|
                   intros e [= <-]; split; [eauto|apply misma_nube_mundo, Hw1]].
           intros (u & o & _ & [= <-] & Ho & _).
           apply String.eqb_eq in Es. apply id_de_documento_no_vacio in Ho.
           contradiction.
        -- split; [|discriminate]. split; [|reflexivity]. intros _.
           exists uid, s. apply String.eqb_neq in Es.
           split; [reflexivity|]. split; [reflexivity|].
           split; [apply Hval; [reflexivity|exact Es]|]. auto.
      * split; [split; [discriminate|]|
                intros e [= <-]; split; [eauto|apply misma_nube_mundo, Hw1]].
        intros (u & o & [= <-] & [= <-] & _ & [->|Hf]); [contradiction|congruence].
  - destruct (eliminarCliente_sin_sesion data context n Ha) as (m & Hrun).
    rewrite Hrun. cbn [fst snd]. split.
    + split; [discriminate|]. intros (u & o & [=] & _).
    + intros e [= <-]. split; [eauto|apply misma_nube_refl].
Qed.

(** X24.  What deleting a profile removes.  After a successful
    [eliminarCliente] the profile named is gone and every other profile is
    as before; the appointments, devices, notifications and photo requests
    of that client, like everyone else's, are all still there. *)
Theorem eliminarCliente_efecto (data : Doc) (context : Contexto) (n : Nube) :
  fst (eliminarCliente data context n) = Ok tt ->
  exists objetivo,
    campo data "uid_a_eliminar" = VStr objetivo
    /\ hallar objetivo (clientes (snd (eliminarCliente data context n))) = None
    /\ (forall id, id <> objetivo ->
                   hallar id (clientes (snd (eliminarCliente data context n)))
                   = hallar id (clientes n))
    /\ solicitudes (snd (eliminarCliente data context n)) = solicitudes n
    /\ mismos_documentos (mundo n) (mundo (snd (eliminarCliente data context n))).
Proof.
  destruct (auth context) as [uid|] eqn:Ha.
  - destruct (eliminarCliente_run data context uid n Ha) as (w1 & Hw1 & Hrun).
    rewrite Hrun. clear Hrun.
    destruct (negb (igual_estricto (campo data "uid_a_eliminar") (VStr uid))
              && negb (administra uid (mundo n))); [discriminate|].
    destruct (campo data "uid_a_eliminar") as [| |b|k|s|t]; try discriminate.
    destruct (String.eqb s ""); [discriminate|]. intros _. cbn [snd].
    exists s. split; [reflexivity|]. cbn [clientes con_clientes solicitudes con_mundo mundo].
    split; [apply hallar_quitar|]. split; [intros id Hid; apply hallar_quitar_otro, Hid|].
    split; [reflexivity|apply Hw1].
  - destruct (eliminarCliente_sin_sesion data context n Ha) as (m & Hrun).
    rewrite Hrun. discriminate.
Qed.

(** *** Writing a profile *)

Lemma o_logico_definido a b : b <> VUndef -> o_logico a b <> VUndef.
Proof.
  intros Hb. unfold o_logico. destruct (verdadero a) eqn:E; [|exact Hb].
  intros ->. discriminate.
Qed.

Lemma con_indefinido_cliente data : con_indefinido (ficha_cliente data) = false.
Proof.
  unfold con_indefinido, ficha_cliente. apply bool_decide_eq_false.
  rewrite map_Exists_lookup. intros (k & e & Hk & ->).
  repeat (apply lookup_insert_Some in Hk as [[_ Hk]|[_ Hk]];
          [try discriminate; injection Hk as Hk;
           revert Hk; apply o_logico_definido; discriminate|]).
  apply lookup_singleton_Some in Hk as [_ Hk]. injection Hk as Hk.
  revert Hk. apply o_logico_definido. discriminate.
Qed.

Lemma ficha_cliente_campos data t :
  let d := sella t (ficha_cliente data) in
  d !! "provider" = Some (o_logico (campo data "provider") (VStr ""))
  /\ d !! "providerUserId" = Some (o_logico (campo data "providerUserId") (VStr ""))
  /\ d !! "name" = Some (o_logico (campo data "name") (VStr "Sin nombre"))
  /\ d !! "email" = Some (o_logico (campo data "email") (VStr ""))
  /\ d !! "photo" = Some (o_logico (campo data "photo") (VStr ""))
  /\ d !! "updatedAt" = Some (VTime t)
  /\ (forall k, k ∉ claves_cliente -> d !! k = None).
Proof.
  cbn zeta. unfold sella, ficha_cliente.
  repeat split; try (rewrite lookup_fmap; by simplify_map_eq).
  intros k Hk. unfold claves_cliente in Hk. rewrite lookup_fmap.
  rewrite !not_elem_of_cons in Hk. destruct Hk as (H1 & H2 & H3 & H4 & H5 & H6 & _).
  rewrite !lookup_insert_ne by congruence.
  rewrite lookup_singleton_ne by congruence. reflexivity.
Qed.

(** X25.  A profile is written by its owner only, and only under the
    owner's uid.  A call of [crearOActualizarCliente] with a non-empty
    identity succeeds: the caller's profile then holds the five fields of
    the payload, each replaced by its default when missing or falsy ("Sin
    nombre" for the name, the empty string for the others), and the store's
    time as [updatedAt]; whatever else the profile held is kept, and a new
    profile holds nothing else; no other profile and no other collection
    changes.  A call without identity fails with [internal] and writes
    nothing. *)
Theorem crearOActualizarCliente_efecto (data : Doc) (context : Contexto) (n : Nube) :
  (forall uid, auth context = Some uid -> uid <> "" ->
     exists n' d,
       crearOActualizarCliente data context n = (Ok tt, n')
       /\ hallar uid (clientes n') = Some d
       /\ d !! "provider" = Some (o_logico (campo data "provider") (VStr ""))
       /\ d !! "providerUserId"
          = Some (o_logico (campo data "providerUserId") (VStr ""))
       /\ d !! "name" = Some (o_logico (campo data "name") (VStr "Sin nombre"))
       /\ d !! "email" = Some (o_logico (campo data "email") (VStr ""))
       /\ d !! "photo" = Some (o_logico (campo data "photo") (VStr ""))
       /\ d !! "updatedAt" = Some (VTime (hora_servidor (mundo n)))
       /\ (forall k, k ∉ claves_cliente ->
                     d !! k = hallar uid (clientes n) ≫= (fun old => old !! k))
       /\ (forall id, id <> uid -> hallar id (clientes n') = hallar id (clientes n))
       /\ solicitudes n' = solicitudes n /\ mundo n' = mundo n)
  /\ (auth context = None \/ auth context = Some "" ->
      exists m,
        crearOActualizarCliente data context n = (Lanza (HttpsError internal m), n)).
Proof.
  split.
  - intros uid Ha Hne.
    unfold crearOActualizarCliente, intentaN, ligaN, uid_de. rewrite Ha.
    cbn [retN verdadero]. apply String.eqb_neq in Hne. rewrite Hne.
    cbn [negb si_lanzaN retN]. unfold eleva at 1. cbn [referencia]. rewrite Hne.
    cbn [ret]. unfold fijaCliente, ligaN. rewrite con_indefinido_cliente.
    cbn [si_lanzaN retN]. unfold eleva, lee. cbn [mundo con_mundo clientes].
    pose proof (ficha_cliente_campos data (hora_servidor (mundo n))) as Hc.
    cbn zeta in Hc. destruct Hc as (H1 & H2 & H3 & H4 & H5 & H6 & H7).
    set (d0 := sella (hora_servidor (mundo n)) (ficha_cliente data)) in *.
    eexists _, (match hallar uid (clientes n) with
                | Some old => d0 ∪ old
                | None => d0
                end).
    split; [reflexivity|]. cbn [clientes con_clientes solicitudes mundo].
    destruct (hallar uid (clientes n)) as [old|] eqn:E.
    + rewrite hallar_sustituir, E. cbn [fmap option_fmap option_map].
      split; [reflexivity|].
      repeat (split; [apply lookup_union_Some_l; assumption|]).
      split; [intros k Hk; cbn [mbind option_bind];
              rewrite lookup_union_r by auto; reflexivity|].
      split; [intros id Hid; apply hallar_sustituir_otro, Hid|]. auto.
    + rewrite hallar_app, E. cbn [hallar]. rewrite String.eqb_refl.
      split; [reflexivity|].
      repeat (split; [assumption|]).
      split; [intros id Hid; rewrite hallar_app; cbn [hallar];
              assert (String.eqb uid id = false) as ->
                by (apply String.eqb_neq; congruence);
              destruct (hallar id (clientes n)); reflexivity|]. auto.
  - intros [Ha|Ha]; unfold crearOActualizarCliente, intentaN, ligaN, uid_de;
      rewrite Ha; eexists; reflexivity.
Qed.

(** *** Asking for photos *)

Lemma con_indefinidoF_nueva uid data : con_indefinidoF (nuevaSolicitud uid data) = false.
Proof.
  unfold con_indefinidoF, nuevaSolicitud. apply bool_decide_eq_false.
  rewrite map_Exists_lookup. intros (k & e & Hk & ->).
  repeat (apply lookup_insert_Some in Hk as [[_ Hk]|[_ Hk]];
          [try discriminate; injection Hk as Hk;
           revert Hk; apply o_logico_definido; discriminate|]).
  apply lookup_singleton_Some in Hk as [_ Hk]. discriminate.
Qed.

Lemma nuevaSolicitud_campos uid data t :
  let d := sellaF t (nuevaSolicitud uid data) in
  d !! "uid_cliente" = Some (Uno (VStr uid))
  /\ d !! "recibo_url" = Some (Uno (o_logico (campo data "recibo_url") (VStr "")))
  /\ d !! "estado" = Some (Uno (VStr "pendiente"))
  /\ d !! "fotos_urls" = Some (Varios [])
  /\ d !! "fecha_solicitud" = Some (Uno (VTime t))
  /\ d !! "fecha_actualizacion" = Some (Uno (VTime t))
  /\ (forall k, k ∉ claves_solicitud -> d !! k = None).
Proof.
  cbn zeta. unfold sellaF, nuevaSolicitud.
  repeat split; try (rewrite lookup_fmap; by simplify_map_eq).
  intros k Hk. unfold claves_solicitud in Hk. rewrite lookup_fmap.
  rewrite !not_elem_of_cons in Hk. destruct Hk as (H1 & H2 & H3 & H4 & H5 & H6 & _).
  rewrite !lookup_insert_ne by congruence.
  rewrite lookup_singleton_ne by congruence. reflexivity.
Qed.

Lemma crearSolicitudFotos_run data context uid n :
  auth context = Some uid -> uid <> "" ->
  crearSolicitudFotos data context n
  = (Ok ("auto-" +:+ pretty (siguiente (mundo n))),
     con_solicitudes
       (solicitudes n
        ++ [("auto-" +:+ pretty (siguiente (mundo n)),
             sellaF (hora_servidor (mundo n)) (nuevaSolicitud uid data))])%list
       (con_mundo (avanza (mundo n)) n)).
Proof.
  intros Ha Hne. unfold crearSolicitudFotos, intentaN, ligaN, uid_de. rewrite Ha.
  cbn [retN verdadero]. apply String.eqb_neq in Hne. rewrite Hne.
  cbn [negb si_lanzaN retN]. unfold altaSolicitud, ligaN.
  rewrite con_indefinidoF_nueva. cbn [si_lanzaN retN]. unfold eleva, lee.
  cbn [mundo con_mundo solicitudes clientes]. destruct n; reflexivity.
Qed.

(** X26.  A photo request is created for the caller and for nobody else,
    and always as a pending one.  With a non-empty identity
    [crearSolicitudFotos] succeeds and appends one request; it belongs to
    the caller, is ['pendiente'], has no photos, carries the store's time
    as both dates, and takes from the payload its [recibo_url] only (the
    empty string when missing or falsy); it holds no other field, and
    nothing else changes.  Without identity the call fails with [internal]
    and writes nothing. *)
Theorem crearSolicitudFotos_efecto (data : Doc) (context : Contexto) (n : Nube) :
  (forall uid, auth context = Some uid -> uid <> "" ->
     exists id n' d,
       crearSolicitudFotos data context n = (Ok id, n')
       /\ solicitudes n' = (solicitudes n ++ [(id, d)])%list
       /\ d !! "uid_cliente" = Some (Uno (VStr uid))
       /\ d !! "recibo_url" = Some (Uno (o_logico (campo data "recibo_url") (VStr "")))
       /\ d !! "estado" = Some (Uno (VStr "pendiente"))
       /\ d !! "fotos_urls" = Some (Varios [])
       /\ d !! "fecha_solicitud" = Some (Uno (VTime (hora_servidor (mundo n))))
       /\ d !! "fecha_actualizacion" = Some (Uno (VTime (hora_servidor (mundo n))))
       /\ (forall k, k ∉ claves_solicitud -> d !! k = None)
       /\ clientes n' = clientes n
       /\ mismos_documentos (mundo n) (mundo n'))
  /\ (auth context = None \/ auth context = Some "" ->
      exists m,
        crearSolicitudFotos data context n = (Lanza (HttpsError internal m), n)).
Proof.
  split.
  - intros uid Ha Hne. rewrite (crearSolicitudFotos_run data context uid n Ha Hne).
    pose proof (nuevaSolicitud_campos uid data (hora_servidor (mundo n))) as Hc.
    cbn zeta in Hc. destruct Hc as (H1 & H2 & H3 & H4 & H5 & H6 & H7).
    eexists _, _, _. split; [reflexivity|].
    cbn [solicitudes con_solicitudes clientes con_mundo mundo].
    split; [reflexivity|]. repeat (split; [assumption|]).
    split; [reflexivity|]. unfold mismos_documentos, avanza. cbn. auto.
  - intros [Ha|Ha]; unfold crearSolicitudFotos, intentaN, ligaN, uid_de;
      rewrite Ha; eexists; reflexivity.
Qed.

(** *** Delivering photos *)

Lemma o_logicoF_definido a : o_logicoF a (Varios []) <> Uno VUndef.
Proof.
  unfold o_logicoF. destruct (verdaderoF a) eqn:E; [|discriminate].
  intros ->. discriminate.
Qed.

Lemma con_indefinidoF_entrega fotos : con_indefinidoF (entrega fotos) = false.
Proof.
  unfold con_indefinidoF, entrega. apply bool_decide_eq_false.
  rewrite map_Exists_lookup. intros (k & e & Hk & ->).
  repeat (apply lookup_insert_Some in Hk as [[_ Hk]|[_ Hk]]; [discriminate|]).
  apply lookup_singleton_Some in Hk as [_ Hk]. injection Hk as Hk.
  revert Hk. apply o_logicoF_definido.
Qed.

Lemma entrega_campos fotos t :
  let d := sellaF t (entrega fotos) in
  d !! "estado" = Some (Uno (VStr "entregado"))
  /\ d !! "fotos_urls" = Some (o_logicoF fotos (Varios []))
  /\ d !! "fecha_actualizacion" = Some (Uno (VTime t))
  /\ (forall k, k ∉ claves_entrega -> d !! k = None).
Proof.
  cbn zeta. unfold sellaF, entrega.
  repeat split; try (rewrite lookup_fmap; by simplify_map_eq).
  intros k Hk. unfold claves_entrega in Hk. rewrite lookup_fmap.
  rewrite !not_elem_of_cons in Hk. destruct Hk as (H1 & H2 & H3 & _).
  rewrite !lookup_insert_ne by congruence.
  rewrite lookup_singleton_ne by congruence. reflexivity.
Qed.

Lemma actualizarSolicitudAdmin_negado data context n :
  administra_llamada context (mundo n) = false ->
  exists w1,
    mismo_estado (mundo n) w1
    /\ actualizarSolicitudAdmin data context n
       = (Lanza (HttpsError internal "Solo admin."), con_mundo w1 n).
Proof.
  intros Had. destruct (esAdministrador_llamada context (mundo n)) as (w1 & Hrun & Hw1).
  exists w1. split; [exact Hw1|].
  unfold actualizarSolicitudAdmin, intentaN, ligaN. unfold eleva at 1.
  rewrite Hrun, Had. reflexivity.
Qed.

Lemma actualizarSolicitudAdmin_run data context id old n :
  administra_llamada context (mundo n) = true ->
  campoF data "id" = Uno (VStr id) -> id <> "" ->
  hallar id (solicitudes n) = Some old ->
  exists w1,
    mismo_estado (mundo n) w1
    /\ actualizarSolicitudAdmin data context n
       = (Ok tt,
          con_solicitudes
            (sustituir id
               (fun d => sellaF (hora_servidor (mundo n))
                           (entrega (campoF data "fotos_urls")) ∪ d)
               (solicitudes n))
            (con_mundo w1 n)).
Proof.
  intros Had Hid Hne Hold.
  destruct (esAdministrador_llamada context (mundo n)) as (w1 & Hrun & Hw1).
  exists w1. split; [exact Hw1|].
  unfold actualizarSolicitudAdmin, intentaN, ligaN. unfold eleva at 1.
  rewrite Hrun, Had. cbn [negb si_lanzaN retN]. rewrite Hid.
  cbn [referenciaF]. unfold eleva at 1. cbn [referencia mundo con_mundo].
  apply String.eqb_neq in Hne. rewrite Hne. cbn [ret].
  unfold cambioSolicitud, ligaN. rewrite con_indefinidoF_entrega.
  cbn [si_lanzaN retN]. unfold eleva, lee. cbn [mundo con_mundo solicitudes clientes].
  rewrite Hold.
  destruct Hw1 as (_ & _ & Ht & _). rewrite Ht. reflexivity.
Qed.

(** X27.  Only an administrator delivers photos.  A call of
    [actualizarSolicitudAdmin] by anyone else, signed in or not, fails with
    the code [internal] (message "Solo admin.") and changes no document.  A
    call by an administrator on an existing request marks it ['entregado'],
    sets [fotos_urls] to the payload's (the empty list when missing or
    falsy) and [fecha_actualizacion] to the store's time, and keeps every
    other field of the request, its owner included; no other request
    changes. *)
Theorem actualizarSolicitudAdmin_efecto (data : Ficha) (context : Contexto) (n : Nube) :
  (administra_llamada context (mundo n) = false ->
   fst (actualizarSolicitudAdmin data context n)
   = Lanza (HttpsError internal "Solo admin.")
   /\ misma_nube n (snd (actualizarSolicitudAdmin data context n)))
  /\ (administra_llamada context (mundo n) = true ->
      forall id old,
        campoF data "id" = Uno (VStr id) -> id <> "" ->
        hallar id (solicitudes n) = Some old ->
        fst (actualizarSolicitudAdmin data context n) = Ok tt
        /\ exists nueva,
            hallar id (solicitudes (snd (actualizarSolicitudAdmin data context n)))
            = Some nueva
            /\ nueva !! "estado" = Some (Uno (VStr "entregado"))
            /\ nueva !! "fotos_urls"
               = Some (o_logicoF (campoF data "fotos_urls") (Varios []))
            /\ nueva !! "fecha_actualizacion"
               = Some (Uno (VTime (hora_servidor (mundo n))))
            /\ (forall k, k ∉ claves_entrega -> nueva !! k = old !! k)
            /\ (forall id', id' <> id ->
                  hallar id' (solicitudes (snd (actualizarSolicitudAdmin data context n)))
                  = hallar id' (solicitudes n))
            /\ clientes (snd (actualizarSolicitudAdmin data context n)) = clientes n
            /\ mismos_documentos (mundo n)
                 (mundo (snd (actualizarSolicitudAdmin data context n)))).
Proof.
  split.
  - intros Had. destruct (actualizarSolicitudAdmin_negado data context n Had)
      as (w1 & Hw1 & Hrun).
    rewrite Hrun. split; [reflexivity|]. apply misma_nube_mundo, Hw1.
  - intros Had id old Hid Hne Hold.
    destruct (actualizarSolicitudAdmin_run data context id old n Had Hid Hne Hold)
      as (w1 & Hw1 & Hrun).
    rewrite Hrun. cbn [fst snd solicitudes con_solicitudes clientes con_mundo mundo].
    split; [reflexivity|].
    pose proof (entrega_campos (campoF data "fotos_urls") (hora_servidor (mundo n)))
      as Hc.
    cbn zeta in Hc. destruct Hc as (H1 & H2 & H3 & H4).
    eexists. split; [rewrite hallar_sustituir, Hold; reflexivity|].
    repeat (split; [apply lookup_union_Some_l; assumption|]).
    split; [intros k Hk; rewrite lookup_union_r by auto; reflexivity|].
    split; [intros id' Hid'; apply hallar_sustituir_otro, Hid'|].
    split; [reflexivity|apply Hw1].
Qed.

Lemma campo_escalares (d : Ficha) k :
  campo (escalares d) k = match d !! k with Some (Uno v) => v | _ => VUndef end.
Proof.
  unfold campo, escalares. rewrite lookup_omap.
  destruct (d !! k) as [[v|l]|]; reflexivity.
Qed.

Lemma campoF_Uno (d : Ficha) k v :
  v <> VUndef -> (campoF d k = Uno v <-> d !! k = Some (Uno v)).
Proof.
  intros Hv. unfold campoF. destruct (d !! k) as [c|]; simpl; split.
  - intros ->. reflexivity.
  - intros [= ->]. reflexivity.
  - intros [= <-]. contradiction.
  - discriminate.
Qed.

(** X28.  Delivery and notice compose: when an administrator delivers a
    request that belongs to a client and was not yet delivered, the change
    of the stored document is one on which [notificarFotosListas] files the
    notice "Fotos Listas" for that client; when the request was already
    delivered (photos added later), the trigger does nothing. *)
Theorem entrega_notifica (data : Ficha) (context : Contexto) (id cliente : string)
    (old : Ficha) (n : Nube) :
  administra_llamada context (mundo n) = true ->
  campoF data "id" = Uno (VStr id) -> id <> "" ->
  hallar id (solicitudes n) = Some old ->
  campoF old "uid_cliente" = Uno (VStr cliente) ->
  let n1 := snd (actualizarSolicitudAdmin data context n) in
  exists nueva,
    hallar id (solicitudes n1) = Some nueva
    /\ (campoF old "estado" <> Uno (VStr "entregado") ->
        exists idn d,
          notificaciones (snd (notificarFotosListas (escalares old) (escalares nueva)
                                 (mundo n1)))
          = (notificaciones (mundo n) ++ [(idn, d)])%list
          /\ d !! "uid_usuario" = Some (VStr cliente)
          /\ d !! "titulo" = Some (VStr "Fotos Listas")
          /\ d !! "mensaje" = Some (VStr msg_fotos))
    /\ (campoF old "estado" = Uno (VStr "entregado") ->
        notificarFotosListas (escalares old) (escalares nueva) (mundo n1)
        = (Ok tt, mundo n1)).
Proof.
  intros Had Hid Hne Hold Hcli. cbn zeta.
  destruct (actualizarSolicitudAdmin_run data context id old n Had Hid Hne Hold)
    as (w1 & Hw1 & Hrun).
  rewrite Hrun. cbn [snd solicitudes con_solicitudes con_mundo mundo].
  rewrite hallar_sustituir, Hold. cbn [fmap option_fmap option_map].
  set (nueva := sellaF _ _ ∪ old).
  pose proof (entrega_campos (campoF data "fotos_urls") (hora_servidor (mundo n)))
    as Hc.
  cbn zeta in Hc. destruct Hc as (H1 & _ & _ & H4).
  assert (campo (escalares nueva) "estado" = VStr "entregado") as Hest.
  { rewrite campo_escalares. unfold nueva.
    rewrite (lookup_union_Some_l _ _ _ _ H1). reflexivity. }
  apply campoF_Uno in Hcli; [|discriminate].
  assert (campo (escalares nueva) "uid_cliente" = VStr cliente) as Hu.
  { rewrite campo_escalares. unfold nueva.
    rewrite lookup_union_r by (apply H4; unfold claves_entrega;
                               rewrite !not_elem_of_cons, elem_of_nil; intuition discriminate).
    rewrite Hcli. reflexivity. }
  exists nueva. split; [reflexivity|]. split.
  - intros Hno.
    assert (campo (escalares old) "estado" <> VStr "entregado") as Hb.
    { rewrite campo_escalares. intros Heq. apply Hno. apply campoF_Uno; [discriminate|].
      destruct (old !! "estado") as [[v|l]|]; try discriminate. congruence. }
    rewrite (notificarFotosListas_mundo _ _ w1 Hest Hb). cbn zeta. rewrite Hu.
    pose proof (registro_campos (VStr cliente) (VStr "Fotos Listas") "Info" msg_fotos
                  VUndef (hora_servidor w1)) as Hr.
    cbn zeta in Hr. destruct Hr as (R1 & R2 & _ & R4 & _).
    destruct Hw1 as ((_ & _ & _ & Hnot) & _).
    destruct (tokens_todos (VStr cliente) w1);
      (eexists _, _; split;
       [unfold tras_registro, avanza, con_docs, anota; cbn [notificaciones];
        rewrite Hnot; reflexivity|auto]).
  - intros Hya.
    assert (campo (escalares old) "estado" = VStr "entregado") as Hb.
    { rewrite campo_escalares. apply campoF_Uno in Hya; [|discriminate].
      rewrite Hya. reflexivity. }
    unfold notificarFotosListas. rewrite Hest, Hb. reflexivity.
Qed.

(** *** Deleting a photo request *)

Lemma eliminarSolicitud_run data context uid id n :
  auth context = Some uid -> campo data "id" = VStr id -> id <> "" ->
  exists w1,
    mismo_estado (mundo n) w1
    /\ eliminarSolicitud data context n
       = match hallar id (solicitudes n) with
         | None => (Ok tt, con_mundo w1 n)
         | Some solicitud =>
             if negb (igual_estrictoF (campoF solicitud "uid_cliente") (VStr uid))
                && negb (administra uid (mundo n))
             then (Lanza (HttpsError internal "No autorizado."), con_mundo w1 n)
             else (Ok tt, con_solicitudes (quitar id (solicitudes n)) (con_mundo w1 n))
         end.
Proof.
  intros Ha Hid Hne.
  destruct (esAdministrador_respuesta uid (mundo n)) as (w1 & Hrun & Hw1).
  exists w1. split; [exact Hw1|].
  unfold eliminarSolicitud, intentaN, ligaN, uid_de. rewrite Ha. cbn [retN].
  unfold eleva at 1. rewrite Hrun. rewrite Hid. unfold eleva at 1.
  cbn [referencia]. apply String.eqb_neq in Hne. rewrite Hne. cbn [ret].
  unfold leeSolicitud. cbn [solicitudes con_mundo mundo clientes].
  destruct (hallar id (solicitudes n)) as [sol|]; [|reflexivity].
  destruct (negb (igual_estrictoF (campoF sol "uid_cliente") (VStr uid))
            && negb (administra uid (mundo n))); reflexivity.
Qed.

(** X29.  Who may delete a photo request.  For a signed-in caller and a
    request named by an id that the store takes: a request that does not
    exist is reported as deleted and nothing changes; the owner, and an
    administrator, delete it, and no other request changes; anyone else is
    refused with the code [internal] (message "No autorizado.") and the
    request stays. *)
Theorem eliminarSolicitud_permiso (data : Doc) (context : Contexto) (uid id : string)
    (n : Nube) :
  auth context = Some uid -> campo data "id" = VStr id ->
  id_de_documento id = true ->
  (hallar id (solicitudes n) = None ->
   fst (eliminarSolicitud data context n) = Ok tt
   /\ misma_nube n (snd (eliminarSolicitud data context n)))
  /\ (forall solicitud,
        hallar id (solicitudes n) = Some solicitud ->
        campoF solicitud "uid_cliente" = Uno (VStr uid)
        \/ administra uid (mundo n) = true ->
        fst (eliminarSolicitud data context n) = Ok tt
        /\ hallar id (solicitudes (snd (eliminarSolicitud data context n))) = None
        /\ (forall id', id' <> id ->
              hallar id' (solicitudes (snd (eliminarSolicitud data context n)))
              = hallar id' (solicitudes n))
        /\ clientes (snd (eliminarSolicitud data context n)) = clientes n
        /\ mismos_documentos (mundo n) (mundo (snd (eliminarSolicitud data context n))))
  /\ (forall solicitud,
        hallar id (solicitudes n) = Some solicitud ->
        campoF solicitud "uid_cliente" <> Uno (VStr uid) ->
        administra uid (mundo n) = false ->
        fst (eliminarSolicitud data context n)
        = Lanza (HttpsError internal "No autorizado.")
        /\ misma_nube n (snd (eliminarSolicitud data context n))).
Proof.
  intros Ha Hid Hval. pose proof (id_de_documento_no_vacio id Hval) as Hne.
  destruct (eliminarSolicitud_run data context uid id n Ha Hid Hne)
    as (w1 & Hw1 & Hrun).
  rewrite Hrun. clear Hrun. split; [|split].
  - intros ->. split; [reflexivity|]. apply misma_nube_mundo, Hw1.
  - intros sol -> Hquien.
    assert (negb (igual_estrictoF (campoF sol "uid_cliente") (VStr uid))
            && negb (administra uid (mundo n)) = false) as ->.
    { destruct Hquien as [-> | ->].
      - cbn [igual_estrictoF]. rewrite igual_estricto_cadena.
        rewrite bool_decide_eq_true_2 by reflexivity. reflexivity.
      - apply andb_false_r. }
    cbn [fst snd solicitudes con_solicitudes clientes con_mundo mundo].
    split; [reflexivity|]. split; [apply hallar_quitar|].
    split; [intros id' Hid'; apply hallar_quitar_otro, Hid'|].
    split; [reflexivity|apply Hw1].
  - intros sol -> Hno Had.
    assert (igual_estrictoF (campoF sol "uid_cliente") (VStr uid) = false) as ->.
    { destruct (campoF sol "uid_cliente") as [v|l]; [|reflexivity].
      cbn [igual_estrictoF]. apply igual_estricto_falso. congruence. }
    rewrite Had. cbn [negb andb fst snd]. split; [reflexivity|].
    apply misma_nube_mundo, Hw1.
Qed.

Lemma administra_mismos uid w w' :
  admins w' = admins w -> admin_caido w' = admin_caido w ->
  administra uid w' = administra uid w.
Proof.
  intros Ha Hc. unfold administra. rewrite (es_admin_mismos uid w w' Ha Hc). reflexivity.
Qed.

(** X30.  Asking and withdrawing: a request for photos just created, under
    an id the collection did not hold, can be deleted by the client who
    made it, which leaves the collection as it was before the request; a
    different caller who is not an administrator cannot delete it. *)
Theorem crearSolicitudFotos_luego_eliminar (data : Doc) (uid : string) (n : Nube) :
  uid <> "" ->
  hallar ("auto-" +:+ pretty (siguiente (mundo n))) (solicitudes n) = None ->
  let id := "auto-" +:+ pretty (siguiente (mundo n)) in
  let n1 := snd (crearSolicitudFotos data (sesion uid) n) in
  fst (crearSolicitudFotos data (sesion uid) n) = Ok id
  /\ fst (eliminarSolicitud (pide_id id) (sesion uid) n1) = Ok tt
  /\ solicitudes (snd (eliminarSolicitud (pide_id id) (sesion uid) n1)) = solicitudes n
  /\ (forall otro, otro <> uid -> administra otro (mundo n) = false ->
        fst (eliminarSolicitud (pide_id id) (sesion otro) n1)
        = Lanza (HttpsError internal "No autorizado.")
        /\ solicitudes (snd (eliminarSolicitud (pide_id id) (sesion otro) n1))
           = solicitudes n1).
Proof.
  intros Hne Hfresco. cbn zeta.
  rewrite (crearSolicitudFotos_run data (sesion uid) uid n eq_refl Hne).
  cbn [fst snd]. split; [reflexivity|].
  set (id := "auto-" +:+ pretty (siguiente (mundo n))) in *.
  set (d := sellaF _ _). set (n1 := con_solicitudes _ _).
  assert (id <> "") as Hid by discriminate.
  assert (campo (pide_id id) "id" = VStr id) as Hpide.
  { unfold campo, pide_id. rewrite lookup_singleton. reflexivity. }
  assert (hallar id (solicitudes n1) = Some d) as Hd.
  { unfold n1. cbn [solicitudes con_solicitudes]. rewrite hallar_app, Hfresco.
    cbn [hallar]. rewrite String.eqb_refl. reflexivity. }
  assert (campoF d "uid_cliente" = Uno (VStr uid)) as Hown.
  { unfold campoF, d.
    destruct (nuevaSolicitud_campos uid data (hora_servidor (mundo n))) as [-> _].
    reflexivity. }
  destruct (eliminarSolicitud_run (pide_id id) (sesion uid) uid id n1 eq_refl Hpide Hid)
    as (w1 & Hw1 & Hrun).
  rewrite Hrun, Hd, Hown. cbn [igual_estrictoF]. rewrite igual_estricto_cadena.
  rewrite bool_decide_eq_true_2 by reflexivity. cbn [negb andb fst snd].
  split; [reflexivity|]. split.
  - unfold n1. cbn [solicitudes con_solicitudes con_mundo].
    apply quitar_recien, Hfresco.
  - intros otro Hotro Had.
    destruct (eliminarSolicitud_run (pide_id id) (sesion otro) otro id n1 eq_refl
                Hpide Hid) as (w2 & Hw2 & Hrun2).
    rewrite Hrun2, Hd, Hown. cbn [igual_estrictoF]. rewrite igual_estricto_cadena.
    rewrite bool_decide_eq_false_2 by congruence.
    assert (administra otro (mundo n1) = false) as ->.
    { rewrite <- Had. apply administra_mismos; reflexivity. }
    cbn [negb andb fst snd]. split; reflexivity.
Qed.

(** ** Runs of the further properties *)

Lemma actualizarCita_falla_sin_escribir_witness :
  (exists m, HttpsError internal "Cita no encontrada" = HttpsError internal m)
  /\ mismos_documentos mundo_ana
       (snd (actualizarCita (cancela "zz") (sesion "ana") mundo_ana)).
Proof.
  apply (actualizarCita_falla_sin_escribir (cancela "zz") (sesion "ana") mundo_ana).
  reflexivity.
Defined.

Lemma actualizarCita_inexistente_witness :
  actualizarCita (cancela "zz") (sesion "ana") mundo_ana
  = (Lanza (HttpsError internal "Cita no encontrada"),
     tras_lectura "ana" "zz" mundo_ana).
Proof.
  apply (actualizarCita_inexistente (cancela "zz") "ana" "zz" mundo_ana).
  - discriminate.
  - reflexivity.
  - vm_compute. reflexivity.
  - reflexivity.
Defined.

Lemma actualizarCita_efecto_witness :
  exists id citaData nueva,
    campo (anota_cita "c1") "id" = VStr id
    /\ busca id (citas mundo_tres) = Some citaData
    /\ busca id (citas (snd (actualizarCita (anota_cita "c1") (sesion "root")
                               mundo_tres)))
       = Some nueva
    /\ nueva !! "notas" = Some (VStr "trae traje")
    /\ nueva !! "escenario_nombre" = citaData !! "escenario_nombre"
    /\ busca "c3" (citas (snd (actualizarCita (anota_cita "c1") (sesion "root")
                                 mundo_tres)))
       = busca "c3" (citas mundo_tres).
Proof.
  destruct (actualizarCita_efecto (anota_cita "c1") (sesion "root") mundo_tres)
    as (id & citaData & nueva & H1 & H2 & H3 & H4 & H5 & _).
  - intros k v Hk. apply lookup_delete_Some in Hk as [Hne Hk].
    unfold anota_cita in Hk. apply lookup_insert_Some in Hk as [[<- _]|[_ Hk]];
      [contradiction|].
    apply lookup_singleton_Some in Hk as [<- <-].
    split; [vm_compute; reflexivity|discriminate].
  - reflexivity.
  - exists id, citaData, nueva.
    split; [exact H1|]. split; [exact H2|]. split; [exact H3|].
    split; [rewrite H4; reflexivity|]. split; [rewrite H4; reflexivity|].
    apply H5. injection H1 as <-. discriminate.
Defined.

Lemma actualizarCita_idempotente_witness :
  fst (actualizarCita (cancela "c1") (sesion "ana")
         (mas_tarde (instante "2024-05-30T09:00:00Z") (instante "2024-05-30T09:00:01Z")
            (snd (actualizarCita (cancela "c1") (sesion "ana") mundo_tres))))
  = Ok tt.
Proof.
  apply (actualizarCita_idempotente (cancela "c1") (sesion "ana") mundo_tres).
  reflexivity.
Defined.

Lemma crearCita_solo_agrega_witness :
  mismos_documentos mundo_ana
    (snd (crearCita utc (pide "2024-06-01T18:00:00Z") (sesion "ana") mundo_ana))
  /\ exists d,
       citas (snd (crearCita utc (pide "2024-06-02T09:00:00Z") (sesion "ana") mundo_ana))
       = (citas mundo_ana ++ [("auto-0", d)])%list.
Proof.
  split.
  - apply (proj1 (crearCita_solo_agrega utc (pide "2024-06-01T18:00:00Z") (sesion "ana")
                    mundo_ana) (HttpsError already_exists msg_mismo_dia)).
    reflexivity.
  - destruct (proj2 (crearCita_solo_agrega utc (pide "2024-06-02T09:00:00Z")
                       (sesion "ana") mundo_ana) "auto-0") as (d & H & _).
    + reflexivity.
    + exists d. exact H.
Defined.

Lemma crearCita_conserva_payload_witness :
  exists d,
    citas (snd (crearCita utc (<["escenario_nombre" := VStr "Lago"]>
                                 (pide "2024-06-02T09:00:00Z"))
                  (sesion "ana") mundo_ana))
    = (citas mundo_ana ++ [("auto-0", d)])%list
    /\ d !! "escenario_nombre" = Some (VStr "Lago").
Proof.
  destruct (crearCita_conserva_payload utc
              (<["escenario_nombre" := VStr "Lago"]> (pide "2024-06-02T09:00:00Z"))
              (sesion "ana") mundo_ana "auto-0") as (d & H1 & H2).
  - reflexivity.
  - exists d. split; [exact H1|]. rewrite H2 by discriminate. reflexivity.
Defined.

Lemma crearCita_exito_sii_witness :
  exists id,
    fst (crearCita utc (pide "2024-06-02T09:00:00Z") (sesion "ana") mundo_ana) = Ok id.
Proof.
  apply (proj2 (crearCita_exito_sii utc (pide "2024-06-02T09:00:00Z") (sesion "ana")
                  mundo_ana
                  ltac:(intros k v Hk; unfold pide in Hk;
                        apply lookup_singleton_Some in Hk as [<- <-];
                        split; [vm_compute; reflexivity|discriminate])
                  ltac:(intros f Hf; vm_compute in Hf; injection Hf as <-;
                        repeat split; vm_compute; discriminate))).
  exists "ana", (instante "2024-06-02T09:00:00Z").
  split; [reflexivity|]. split; [reflexivity|].
  split; [reflexivity|]. split.
  - intros i j c1 c2 Hij Hi Hj. destruct j as [|j]; [lia|]. discriminate Hj.
  - intros c [<-|[]] (_ & t & Ht & Hlo & _).
    vm_compute in Ht. injection Ht as <-. vm_compute in Hlo. apply Hlo. reflexivity.
Defined.

Lemma crearCita_segunda_mismo_dia_witness :
  fst (crearCita utc (pide "2024-06-02T18:00:00Z") (sesion "ana")
         (snd (crearCita utc (pide "2024-06-02T09:00:00Z") (sesion "ana") mundo_ana)))
  = Lanza (HttpsError already_exists msg_mismo_dia).
Proof.
  apply (crearCita_segunda_mismo_dia utc (pide "2024-06-02T09:00:00Z")
           (pide "2024-06-02T18:00:00Z") "ana" "auto-0" mundo_ana
           (instante "2024-06-02T09:00:00Z") (instante "2024-06-02T18:00:00Z")).
  - reflexivity.
  - reflexivity.
  - reflexivity.
  - reflexivity.
  - split; vm_compute; discriminate.
Defined.


Lemma consultarCitas_en_orden_witness :
  StronglySorted (no_despues "fecha")
    [con_id ("c1", cita_bosque);
     con_id ("c2", <["fecha" := VTime (instante "2024-06-08T10:00:00Z")]> cita_bosque)].
Proof.
  apply (consultarCitas_en_orden utc ∅ (sesion "ana") mundo_dos).
  reflexivity.
Defined.

Lemma consultarCitas_tope_witness :
  (length [con_id ("c1", cita_bosque)] <= Z.to_nat 1)%nat.
Proof.
  destruct (consultarCitas_tope utc {["limit" := VNum 1]} (sesion "ana") mundo_dos
              [con_id ("c1", cita_bosque)]) as [_ H].
  - reflexivity.
  - apply (H 1); [reflexivity|lia].
Defined.

Lemma consultarCitas_sin_tope_witness :
  exists l,
    fst (consultarCitas utc lista_entera (sesion "ana") mundo_dos) = Ok l
    /\ In (con_id ("c1", cita_bosque)) l.
Proof.
  destruct (consultarCitas_sin_tope utc lista_entera "ana" mundo_dos
              (filtros_propias "ana")) as (l & Hl & Hin).
  - discriminate.
  - vm_compute. discriminate.
  - reflexivity.
  - reflexivity.
  - intros d Hd. vm_compute in Hd. discriminate Hd.
  - reflexivity.
  - exists l. split; [exact Hl|]. apply (Hin ("c1", cita_bosque)).
    + left. reflexivity.
    + reflexivity.
    + discriminate.
    + eexists. reflexivity.
Defined.

Lemma consultarCitas_administrador_witness :
  con_id ("c3", <["uid_cliente" := VStr "beto"]> cita_bosque) !! "uid_cliente"
  = Some (campo (listado_de "beto") "uid_cliente_consulta").
Proof.
  destruct (consultarCitas_administrador utc (listado_de "beto") "root" mundo_tres
              [con_id ("c3", <["uid_cliente" := VStr "beto"]> cita_bosque)])
    as [_ H].
  - reflexivity.
  - reflexivity.
  - apply H; [reflexivity|reflexivity|left; reflexivity].
Defined.



Lemma recordatorioDiario_barrido_witness :
  exists w',
    recordatorioDiario utc mundo_recordatorio = (Ok tt, w')
    /\ envios (bitacora w')
       = [([VStr "tok"], aviso_recordatorio cita_aceptada)]
    /\ length (notificaciones w') = 1%nat.
Proof.
  assert (List.filter (fun c => por_recordar utc mundo_recordatorio (snd c))
                      (citas mundo_recordatorio)
          = [("c1", cita_aceptada)]) as Hsel by reflexivity.
  destruct (recordatorioDiario_barrido utc mundo_recordatorio)
    as (w' & H1 & H2 & H3 & _).
  - rewrite Hsel. constructor; [|constructor].
    split; [exists "ana"; reflexivity|vm_compute; lia].
  - exists w'. split; [exact H1|]. rewrite H2, H3, Hsel. split; reflexivity.
Defined.

Lemma recordatorioDiario_repite_witness :
  envios (bitacora (snd (recordatorioDiario utc
                           (snd (recordatorioDiario utc mundo_recordatorio)))))
  = [([VStr "tok"], aviso_recordatorio cita_aceptada);
     ([VStr "tok"], aviso_recordatorio cita_aceptada)].
Proof.
  assert (citas_por_recordar utc mundo_recordatorio = [("c1", cita_aceptada)]) as Hsel
    by (reflexivity).
  destruct (recordatorioDiario_repite utc mundo_recordatorio) as (_ & H & _).
  - rewrite Hsel. constructor; [|constructor].
    split; [exists "ana"; reflexivity|vm_compute; lia].
  - rewrite H, Hsel. reflexivity.
Defined.

Lemma registrarDispositivo_efecto_witness :
  exists w' d,
    registrarDispositivo alta_telefono (sesion "ana") mundo_dispositivos = (Ok tt, w')
    /\ busca "d9" (dispositivos w') = Some d
    /\ d !! "uid_usuario" = Some (VStr "ana")
    /\ d !! "activo" = Some (VBool true)
    /\ busca "d1" (dispositivos w') = busca "d1" (dispositivos mundo_dispositivos).
Proof.
  destruct (registrarDispositivo_efecto alta_telefono (sesion "ana") "d9"
              mundo_dispositivos)
    as (w' & d & H1 & H2 & H3 & _ & _ & H6 & _ & _ & H9 & _).
  - reflexivity.
  - vm_compute. reflexivity.
  - vm_compute. discriminate.
  - vm_compute. discriminate.
  - exists w', d. repeat split; try assumption. apply H9. discriminate.
Defined.

Lemma registrarDispositivo_rechazo_witness :
  exists msg,
    registrarDispositivo (delete "token_fcm" alta_telefono) (sesion "ana")
      mundo_dispositivos
    = (Lanza (HttpsError internal msg), mundo_dispositivos).
Proof.
  apply (registrarDispositivo_rechazo (delete "token_fcm" alta_telefono) (sesion "ana")
           mundo_dispositivos).
  right. left. reflexivity.
Defined.


(** *** Profiles and photo requests *)

Lemma eliminarCliente_exito_sii_witness :
  fst (eliminarCliente (borra_perfil "ana") (sesion "ana") nube_ana) = Ok tt
  /\ (exists m, HttpsError internal "No autorizado para eliminar este perfil."
                = HttpsError internal m)
  /\ misma_nube nube_ana (snd (eliminarCliente (borra_perfil "ana") (sesion "beto")
                                 nube_ana)).
Proof.
  assert (forall s, campo (borra_perfil "ana") "uid_a_eliminar" = VStr s -> s <> "" ->
                    id_de_documento s = true) as Hval.
  { intros s Hs _. vm_compute in Hs. injection Hs as <-. vm_compute. reflexivity. }
  split.
  - apply (proj1 (eliminarCliente_exito_sii (borra_perfil "ana") (sesion "ana") nube_ana
                    Hval)).
    exists "ana", "ana". split; [reflexivity|]. split; [reflexivity|].
    split; [vm_compute; reflexivity|]. left. reflexivity.
  - apply (proj2 (eliminarCliente_exito_sii (borra_perfil "ana") (sesion "beto")
                    nube_ana Hval)).
    reflexivity.
Defined.

Lemma eliminarCliente_efecto_witness :
  exists objetivo,
    campo (borra_perfil "beto") "uid_a_eliminar" = VStr objetivo
    /\ hallar objetivo
         (clientes (snd (eliminarCliente (borra_perfil "beto") (sesion "root") nube_ana)))
       = None
    /\ citas (mundo (snd (eliminarCliente (borra_perfil "beto") (sesion "root")
                            nube_ana)))
       = citas (mundo nube_ana).
Proof.
  destruct (eliminarCliente_efecto (borra_perfil "beto") (sesion "root") nube_ana)
    as (o & H1 & H2 & _ & _ & (_ & H5 & _)).
  - reflexivity.
  - exists o. auto.
Defined.

Lemma crearOActualizarCliente_efecto_witness :
  exists n' d,
    crearOActualizarCliente (pide_id "x") (sesion "ana") nube_ana = (Ok tt, n')
    /\ hallar "ana" (clientes n') = Some d
    /\ d !! "name" = Some (VStr "Sin nombre")
    /\ d !! "createdAt" = Some (VTime (instante "2024-01-10T12:00:00Z"))
    /\ hallar "beto" (clientes n') = hallar "beto" (clientes nube_ana).
Proof.
  destruct (proj1 (crearOActualizarCliente_efecto (pide_id "x") (sesion "ana") nube_ana)
              "ana") as (n' & d & H1 & H2 & _ & _ & H5 & _ & _ & _ & H9 & H10 & _).
  - reflexivity.
  - discriminate.
  - exists n', d. split; [exact H1|]. split; [exact H2|]. split; [exact H5|].
    split.
    + rewrite H9; [reflexivity|]. unfold claves_cliente.
      rewrite !not_elem_of_cons, elem_of_nil. intuition discriminate.
    + apply H10. discriminate.
Defined.

Lemma crearSolicitudFotos_efecto_witness :
  exists id n' d,
    crearSolicitudFotos (pide_id "x") (sesion "beto") nube_ana = (Ok id, n')
    /\ solicitudes n' = (solicitudes nube_ana ++ [(id, d)])%list
    /\ d !! "uid_cliente" = Some (Uno (VStr "beto"))
    /\ d !! "estado" = Some (Uno (VStr "pendiente")).
Proof.
  destruct (proj1 (crearSolicitudFotos_efecto (pide_id "x") (sesion "beto") nube_ana)
              "beto") as (id & n' & d & H1 & H2 & H3 & _ & H5 & _).
  - reflexivity.
  - discriminate.
  - exists id, n', d. auto.
Defined.

Lemma actualizarSolicitudAdmin_efecto_witness :
  fst (actualizarSolicitudAdmin (entrega_de "s1") (sesion "ana") nube_ana)
  = Lanza (HttpsError internal "Solo admin.")
  /\ fst (actualizarSolicitudAdmin (entrega_de "s1") (sesion "root") nube_ana) = Ok tt
  /\ exists nueva,
      hallar "s1" (solicitudes (snd (actualizarSolicitudAdmin (entrega_de "s1")
                                       (sesion "root") nube_ana)))
      = Some nueva
      /\ nueva !! "estado" = Some (Uno (VStr "entregado"))
      /\ nueva !! "fotos_urls" = Some (Varios ["f1.jpg"; "f2.jpg"])
      /\ nueva !! "uid_cliente" = Some (Uno (VStr "ana")).
Proof.
  split.
  - apply (proj1 (actualizarSolicitudAdmin_efecto (entrega_de "s1") (sesion "ana")
                    nube_ana)).
    reflexivity.
  - destruct (proj2 (actualizarSolicitudAdmin_efecto (entrega_de "s1") (sesion "root")
                       nube_ana) eq_refl "s1" (solicitud_de "ana" "pendiente"))
      as (H1 & nueva & H2 & H3 & H4 & _ & H6 & _).
    + reflexivity.
    + discriminate.
    + reflexivity.
    + split; [exact H1|]. exists nueva. split; [exact H2|]. split; [exact H3|].
      split; [exact H4|]. rewrite H6; [reflexivity|]. unfold claves_entrega.
      rewrite !not_elem_of_cons, elem_of_nil. intuition discriminate.
Defined.

Lemma entrega_notifica_witness :
  exists nueva idn d,
    hallar "s1" (solicitudes (snd (actualizarSolicitudAdmin (entrega_de "s1")
                                     (sesion "root") nube_ana)))
    = Some nueva
    /\ notificaciones
         (snd (notificarFotosListas (escalares (solicitud_de "ana" "pendiente"))
                 (escalares nueva)
                 (mundo (snd (actualizarSolicitudAdmin (entrega_de "s1") (sesion "root")
                                nube_ana)))))
       = (notificaciones (mundo nube_ana) ++ [(idn, d)])%list
    /\ d !! "uid_usuario" = Some (VStr "ana").
Proof.
  destruct (entrega_notifica (entrega_de "s1") (sesion "root") "s1" "ana"
              (solicitud_de "ana" "pendiente") nube_ana)
    as (nueva & H1 & H2 & _).
  - reflexivity.
  - reflexivity.
  - discriminate.
  - reflexivity.
  - reflexivity.
  - destruct H2 as (idn & d & H3 & H4 & _); [vm_compute; discriminate|].
    exists nueva, idn, d. auto.
Defined.

Lemma eliminarSolicitud_permiso_witness :
  fst (eliminarSolicitud (pide_id "zz") (sesion "ana") nube_ana) = Ok tt
  /\ fst (eliminarSolicitud (pide_id "s1") (sesion "ana") nube_ana) = Ok tt
  /\ hallar "s1" (solicitudes (snd (eliminarSolicitud (pide_id "s1") (sesion "ana")
                                      nube_ana))) = None
  /\ fst (eliminarSolicitud (pide_id "s2") (sesion "ana") nube_ana)
     = Lanza (HttpsError internal "No autorizado.").
Proof.
  assert (forall id, campo (pide_id id) "id" = VStr id) as Hid.
  { intros id. unfold campo, pide_id. rewrite lookup_singleton. reflexivity. }
  destruct (eliminarSolicitud_permiso (pide_id "zz") (sesion "ana") "ana" "zz" nube_ana
              eq_refl (Hid _)) as ([H1 _] & _);
    [vm_compute; reflexivity|reflexivity|].
  destruct (eliminarSolicitud_permiso (pide_id "s1") (sesion "ana") "ana" "s1" nube_ana
              eq_refl (Hid _)) as (_ & H2 & _); [vm_compute; reflexivity|].
  destruct (H2 (solicitud_de "ana" "pendiente")) as (H3 & H4 & _);
    [reflexivity|left; reflexivity|].
  destruct (eliminarSolicitud_permiso (pide_id "s2") (sesion "ana") "ana" "s2" nube_ana
              eq_refl (Hid _)) as (_ & _ & H5); [vm_compute; reflexivity|].
  destruct (H5 (solicitud_de "beto" "entregado")) as [H6 _];
    [reflexivity|vm_compute; discriminate|reflexivity|].
  auto.
Defined.

Lemma crearSolicitudFotos_luego_eliminar_witness :
  fst (crearSolicitudFotos (pide_id "x") (sesion "ana") nube_ana) = Ok "auto-0"
  /\ solicitudes (snd (eliminarSolicitud (pide_id "auto-0") (sesion "ana")
                         (snd (crearSolicitudFotos (pide_id "x") (sesion "ana")
                                 nube_ana))))
     = solicitudes nube_ana
  /\ fst (eliminarSolicitud (pide_id "auto-0") (sesion "beto")
            (snd (crearSolicitudFotos (pide_id "x") (sesion "ana") nube_ana)))
     = Lanza (HttpsError internal "No autorizado.").
Proof.
  destruct (crearSolicitudFotos_luego_eliminar (pide_id "x") "ana" nube_ana)
    as (H1 & _ & H3 & H4).
  - discriminate.
  - reflexivity.
  - split; [exact H1|]. split; [exact H3|].
    apply (H4 "beto"); [discriminate|reflexivity].
Defined.
